(** * allo-event-tracker: the event ingestion and reconciliation pipeline

    A shallow embedding of the two [Web3Service] classes of the repository
    (the events-schema service and the stock-manager-schema service) and of
    the controller endpoints that trigger a backfill and a historical
    scan.  Asynchronous methods are state-passing computations that may
    throw; every call to an external collaborator (RPC endpoint, ABI
    decoder, hash function, repository, logger, timers) is recorded in a
    trace, so that statements such as "no decode is attempted" or "no query
    is issued" are statements about the trace. *)

From Stdlib Require Import ZArith Lia Ascii String.
From stdpp Require Import gmap strings list pretty.
From Equations Require Import Equations.

Open Scope string_scope.
Open Scope list_scope.
Open Scope Z_scope.

(** ** JavaScript values used by the services *)

(** A JS [number] restricted to the values the services produce: integers
    (block numbers and counts stay far below 2^53) and [NaN]. *)
Inductive number : Type :=
| Num (z : Z)
| NaN.

(** Dynamically typed payloads ([eventData: any], the decoded log). *)
Inductive Value : Type :=
| VUndefined
| VString (s : string)
| VBigInt (n : Z).

Inductive Exn : Type :=
| Error (message : string)
| BadRequestException (message : string).

Definition message (e : Exn) : string :=
  match e with
  | Error m => m
  | BadRequestException m => m
  end.

Definition isBadRequestException (e : Exn) : bool :=
  match e with
  | BadRequestException _ => true
  | Error _ => false
  end.

Module Js.

(** [!!s] for a string. *)
Definition truthyString (s : string) : bool :=
  match s with
  | EmptyString => false
  | String _ _ => true
  end.

Definition truthyOptString (o : option string) : bool :=
  match o with
  | Some s => truthyString s
  | None => false
  end.

Definition truthyNumber (n : number) : bool :=
  match n with
  | Num z => negb (z =? 0)
  | NaN => false
  end.

Definition truthyOptNumber (o : option number) : bool :=
  match o with
  | Some n => truthyNumber n
  | None => false
  end.

Definition truthyOptZ (o : option Z) : bool :=
  match o with
  | Some z => negb (z =? 0)
  | None => false
  end.

Definition truthy (v : Value) : bool :=
  match v with
  | VUndefined => false
  | VString s => truthyString s
  | VBigInt n => negb (n =? 0)
  end.

Definition isUndefined (v : Value) : bool :=
  match v with
  | VUndefined => true
  | _ => false
  end.

(** [v.toString()]; a [TypeError] on [undefined]. *)
Definition toString (v : Value) : Exn + string :=
  match v with
  | VUndefined =>
      inl (Error "Cannot read properties of undefined (reading 'toString')")
  | VString s => inr s
  | VBigInt n => inr (pretty n)
  end.

(** [String(v)] *)
Definition str (v : Value) : string :=
  match v with
  | VUndefined => "undefined"
  | VString s => s
  | VBigInt n => pretty n
  end.

(** Interpolation [`${v}`]. *)
Definition show (o : option string) : string :=
  match o with
  | Some s => s
  | None => "undefined"
  end.

Definition showNumber (n : number) : string :=
  match n with
  | Num z => pretty z
  | NaN => "NaN"
  end.

(** [s.includes(c)] for a character. *)
Fixpoint includes (c : ascii) (s : string) : bool :=
  match s with
  | EmptyString => false
  | String x r => Ascii.eqb x c || includes c r
  end.

(** [a === b] on possibly undefined strings. *)
Definition strictEq (a b : option string) : bool :=
  match a, b with
  | Some x, Some y => String.eqb x y
  | None, None => true
  | _, _ => false
  end.

Definition lowerAscii (c : ascii) : ascii :=
  let n := N_of_ascii c in
  if ((65 <=? n) && (n <=? 90))%N then ascii_of_N (n + 32) else c.

(** [s.toLowerCase()] on the ASCII range (addresses are hexadecimal). *)
Fixpoint toLowerCase (s : string) : string :=
  match s with
  | EmptyString => EmptyString
  | String c r => String (lowerAscii c) (toLowerCase r)
  end.

(** White space removed by [trim] and skipped by [parseInt]: the code points
    of [WhiteSpace] and [LineTerminator], that is TAB, LF, VT, FF, CR, SP,
    U+00A0, U+1680, U+2000 to U+200A, U+2028, U+2029, U+202F, U+205F, U+3000
    and U+FEFF.  A string is its sequence of UTF-8 bytes, so that such a
    character takes one, two or three bytes. *)
Definition isWhite (c : ascii) : bool :=
  let n := N_of_ascii c in
  ((n =? 32) || ((9 <=? n) && (n <=? 13)))%N.

(** U+00A0 is [C2 A0]. *)
Definition isWhite2 (a b : ascii) : bool :=
  ((N_of_ascii a =? 194) && (N_of_ascii b =? 160))%N.

(** U+1680 is [E1 9A 80]; U+2000 to U+200A are [E2 80 80] to [E2 80 8A];
    U+2028, U+2029 and U+202F are [E2 80 A8], [E2 80 A9] and [E2 80 AF];
    U+205F is [E2 81 9F]; U+3000 is [E3 80 80]; U+FEFF is [EF BB BF]. *)
Definition isWhite3 (a b c : ascii) : bool :=
  let x := N_of_ascii a in
  let y := N_of_ascii b in
  let z := N_of_ascii c in
  (((x =? 225) && (y =? 154) && (z =? 128))
   || ((x =? 226) && (y =? 128)
       && (((128 <=? z) && (z <=? 138)) || (z =? 168) || (z =? 169) || (z =? 175)))
   || ((x =? 226) && (y =? 129) && (z =? 159))
   || ((x =? 227) && (y =? 128) && (z =? 128))
   || ((x =? 239) && (y =? 187) && (z =? 191)))%N.

Fixpoint trimStart (s : string) : string :=
  match s with
  | String a r =>
      if isWhite a then trimStart r
      else
        match r with
        | String b r' =>
            if isWhite2 a b then trimStart r'
            else
              match r' with
              | String c r'' => if isWhite3 a b c then trimStart r'' else s
              | EmptyString => s
              end
        | EmptyString => s
        end
  | EmptyString => EmptyString
  end.

(** [trimStart] on the reversed string: the bytes of a character come last
    byte first. *)
Fixpoint trimStartReversed (s : string) : string :=
  match s with
  | String c r =>
      if isWhite c then trimStartReversed r
      else
        match r with
        | String b r' =>
            if isWhite2 b c then trimStartReversed r'
            else
              match r' with
              | String a r'' =>
                  if isWhite3 a b c then trimStartReversed r'' else s
              | EmptyString => s
              end
        | EmptyString => s
        end
  | EmptyString => EmptyString
  end.

Definition trimEnd (s : string) : string :=
  String.rev (trimStartReversed (String.rev s)).

Definition trim (s : string) : string := trimEnd (trimStart s).

Definition digitOf (radix : Z) (c : ascii) : option Z :=
  let n := Z.of_N (N_of_ascii c) in
  let d := if (48 <=? n) && (n <=? 57) then n - 48
           else if (97 <=? n) && (n <=? 122) then n - 87
           else if (65 <=? n) && (n <=? 90) then n - 55
           else 36 in
  if d <? radix then Some d else None.

(** The longest prefix of digits, accumulated left to right. *)
Fixpoint digits (radix : Z) (s : string) (acc : option Z) : option Z :=
  match s with
  | EmptyString => acc
  | String c r =>
      match digitOf radix c with
      | Some d => digits radix r (Some (radix * default 0 acc + d))
      | None => acc
      end
  end.

Definition stripSign (s : string) : bool * string :=
  match s with
  | String "-" r => (true, r)
  | String "+" r => (false, r)
  | _ => (false, s)
  end.

Definition stripHexPrefix (s : string) : Z * string :=
  match s with
  | String "0" (String "x" r) => (16, r)
  | String "0" (String "X" r) => (16, r)
  | _ => (10, s)
  end.

(** [parseInt(s)] without a radix argument. *)
Definition parseInt (s : string) : number :=
  let '(neg, s1) := stripSign (trimStart s) in
  let '(radix, s2) := stripHexPrefix s1 in
  match digits radix s2 None with
  | Some z => Num (if neg then - z else z)
  | None => NaN
  end.

(** [Math.max(0, a - b)] and friends: [NaN] is contagious. *)
Definition sub (a b : number) : number :=
  match a, b with
  | Num x, Num y => Num (x - y)
  | _, _ => NaN
  end.

Definition max (a b : number) : number :=
  match a, b with
  | Num x, Num y => Num (Z.max x y)
  | _, _ => NaN
  end.

(** Comparisons with [NaN] are false. *)
Definition leb (a b : number) : bool :=
  match a, b with
  | Num x, Num y => x <=? y
  | _, _ => false
  end.

Definition gtb (a b : number) : bool :=
  match a, b with
  | Num x, Num y => y <? x
  | _, _ => false
  end.

End Js.


(** ** Data model *)

Record ContractConfig : Type := {
  c_address : string;
  c_name : string
}.

Record BlockchainConfig : Type := {
  cfg_name : string;
  wssUrl : string;
  chainId : Z;
  contracts : list ContractConfig
}.

(** A log as delivered by the chain client ([log: any]): every property may
    be missing. *)
Record RawLog : Type := {
  log_address : option string;
  topics : option (list string);
  data : option string;
  blockNumber : option Z;
  transactionHash : option string
}.

(** An entry of the JSON interface handed to [decodeLog]. *)
Record AbiInput : Type := {
  abi_type : string;
  abi_name : string;
  indexed : bool
}.

(** The filter object of [getPastLogs]; the block bounds are the numbers
    that the service passes through [toHex]. *)
Record LogFilter : Type := {
  f_address : string;
  fromBlock : Z;
  toBlock : Z;
  f_topics : list string
}.

Record Block : Type := {
  b_timestamp : option Z
}.

Record Subscription : Type := {
  sub_address : list string
}.

(** What a [Web3] instance answers.  Each answer is a fixed function of the
    request; [inl] is a rejected promise. *)
Record Web3 : Type := {
  provider : bool;
  getChainId : Exn + Z;
  getBlockNumber : Exn + Z;
  getBlock : option Z -> Exn + option Block;
  getPastLogs : LogFilter -> Exn + list RawLog;
  subscribe : list string -> Exn + Subscription
}.

(** The collaborators that are not code of the repository. *)
Record Env : Type := {
  (** [web3.utils.sha3] *)
  sha3 : string -> option string;
  (** [decodeParameter(type, topic)] of the ABI coder *)
  decodeParameter : string -> option string -> Exn + Value;
  (** [decodeParameters(types, data)] of the ABI coder *)
  decodeParameters : list string -> string -> Exn + list Value;
  (** [new Web3(new Web3.providers.WebsocketProvider(url))] *)
  WebsocketProvider : string -> Web3;
  (** the wall clock, in milliseconds, at the n-th [new Date()] *)
  clock : nat -> Z;
  (** whether [findOne] with an undefined key matches every row *)
  undefinedKeyMatches : bool
}.

Inductive LogLevel : Type := LvlLog | LvlWarn | LvlError | LvlDebug.

(** How the calls made while disconnecting settle:
    [subscription.unsubscribe()] for the subscription stored under a key and
    [provider.disconnect()] for the connection of a network. *)
Record Closing : Type := {
  unsubscribe : string -> Exn + unit;
  providerDisconnect : string -> Exn + unit
}.

(** ** Effects, state and the computation monad *)

Section Runtime.

(** The row type of the repository the service writes to. *)
Context {R : Type}.

Inductive Effect : Type :=
| ESha3 (s : string)
| EDecodeLog (inputs : list AbiInput) (d : option string)
             (ts : list (option string))
| EConnect (url : string)
| EGetChainId
| EGetBlockNumber
| EGetBlock (n : option Z)
| EGetPastLogs (f : LogFilter)
| ESubscribe (addresses : list string)
| EProviderOn (chain : string) (event : string)
| EFindByTxHash (h : option string)
| ECreate (r : R)
| ENewDate (ms : Z)
| EEmit (event : string) (h : option string)
| ESetTimeout (ms : Z)
| ESetInterval (ms : Z) (handle : nat)
| EClearInterval (handle : nat)
| ELogger (lvl : LogLevel) (msg : string).

Record State : Type := {
  (** fields of [Web3Service] *)
  web3Connections : gmap string Web3;
  subscriptions : gmap string Subscription;
  connected : bool;
  backfillInterval : option nat;
  blockchainConfigs : list BlockchainConfig;
  (** listeners registered with [provider.on('connect', ...)] *)
  connectListeners : list (string * list ContractConfig);
  (** the repository table, oldest row first, and its availability *)
  rows : list R;
  dbOnline : bool;
  (** number of clock reads and of timer handles so far *)
  ticks : nat;
  timerSeq : nat;
  trace : list Effect
}.

Definition initial : State :=
  {| web3Connections := ∅; subscriptions := ∅; connected := false;
     backfillInterval := None; blockchainConfigs := [];
     connectListeners := []; rows := []; dbOnline := true;
     ticks := 0%nat; timerSeq := 0%nat; trace := [] |}.

Definition M (A : Type) : Type := State -> (Exn + A) * State.

Definition ret {A} (a : A) : M A := fun s => (inr a, s).

Definition bind {A B} (m : M A) (k : A -> M B) : M B :=
  fun s =>
    match m s with
    | (inr a, s') => k a s'
    | (inl e, s') => (inl e, s')
    end.

Definition throw {A} (e : Exn) : M A := fun s => (inl e, s).

(** [try { body } catch (error) { handler }] *)
Definition tryCatch {A} (body : M A) (handler : Exn -> M A) : M A :=
  fun s =>
    match body s with
    | (inl e, s') => handler e s'
    | r => r
    end.

Definition gets {A} (f : State -> A) : M A := fun s => (inr (f s), s).

Definition modify (f : State -> State) : M unit := fun s => (inr tt, f s).

Definition exec {A} (m : M A) (s : State) : State := snd (m s).

Definition result {A} (m : M A) (s : State) : Exn + A := fst (m s).

Definition emit (e : Effect) : M unit :=
  modify (fun s =>
    {| web3Connections := web3Connections s; subscriptions := subscriptions s;
       connected := connected s; backfillInterval := backfillInterval s;
       blockchainConfigs := blockchainConfigs s;
       connectListeners := connectListeners s; rows := rows s;
       dbOnline := dbOnline s; ticks := ticks s; timerSeq := timerSeq s;
       trace := trace s ++ [e] |}).

(** Awaiting an external call: the call is traced, then settles. *)
Definition await {A} (e : Effect) (r : Exn + A) : M A :=
  bind (emit e) (fun _ s => (r, s)).

Definition logger (lvl : LogLevel) (msg : string) : M unit :=
  emit (ELogger lvl msg).

(** [for (const x of l) { body }] *)
Fixpoint forOf {A} (l : list A) (body : A -> M unit) : M unit :=
  match l with
  | [] => ret tt
  | x :: r => bind (body x) (fun _ => forOf r body)
  end.

(** *** State updates *)

Definition setConnection (k : string) (w : Web3) : M unit :=
  modify (fun s =>
    {| web3Connections := <[k := w]> (web3Connections s);
       subscriptions := subscriptions s;
       connected := connected s; backfillInterval := backfillInterval s;
       blockchainConfigs := blockchainConfigs s;
       connectListeners := connectListeners s; rows := rows s;
       dbOnline := dbOnline s; ticks := ticks s; timerSeq := timerSeq s;
       trace := trace s |}).

Definition setSubscription (k : string) (sub : Subscription) : M unit :=
  modify (fun s =>
    {| web3Connections := web3Connections s;
       subscriptions := <[k := sub]> (subscriptions s);
       connected := connected s; backfillInterval := backfillInterval s;
       blockchainConfigs := blockchainConfigs s;
       connectListeners := connectListeners s; rows := rows s;
       dbOnline := dbOnline s; ticks := ticks s; timerSeq := timerSeq s;
       trace := trace s |}).

Definition setConnected (b : bool) : M unit :=
  modify (fun s =>
    {| web3Connections := web3Connections s; subscriptions := subscriptions s;
       connected := b; backfillInterval := backfillInterval s;
       blockchainConfigs := blockchainConfigs s;
       connectListeners := connectListeners s; rows := rows s;
       dbOnline := dbOnline s; ticks := ticks s; timerSeq := timerSeq s;
       trace := trace s |}).

Definition setBackfillInterval (h : option nat) : M unit :=
  modify (fun s =>
    {| web3Connections := web3Connections s; subscriptions := subscriptions s;
       connected := connected s; backfillInterval := h;
       blockchainConfigs := blockchainConfigs s;
       connectListeners := connectListeners s; rows := rows s;
       dbOnline := dbOnline s; ticks := ticks s; timerSeq := timerSeq s;
       trace := trace s |}).

Definition setBlockchainConfigs (l : list BlockchainConfig) : M unit :=
  modify (fun s =>
    {| web3Connections := web3Connections s; subscriptions := subscriptions s;
       connected := connected s; backfillInterval := backfillInterval s;
       blockchainConfigs := l;
       connectListeners := connectListeners s; rows := rows s;
       dbOnline := dbOnline s; ticks := ticks s; timerSeq := timerSeq s;
       trace := trace s |}).

Definition addConnectListener (k : string) (cs : list ContractConfig) : M unit :=
  modify (fun s =>
    {| web3Connections := web3Connections s; subscriptions := subscriptions s;
       connected := connected s; backfillInterval := backfillInterval s;
       blockchainConfigs := blockchainConfigs s;
       connectListeners := connectListeners s ++ [(k, cs)]; rows := rows s;
       dbOnline := dbOnline s; ticks := ticks s; timerSeq := timerSeq s;
       trace := trace s |}).

Definition insertRow (r : R) : M unit :=
  modify (fun s =>
    {| web3Connections := web3Connections s; subscriptions := subscriptions s;
       connected := connected s; backfillInterval := backfillInterval s;
       blockchainConfigs := blockchainConfigs s;
       connectListeners := connectListeners s; rows := rows s ++ [r];
       dbOnline := dbOnline s; ticks := ticks s; timerSeq := timerSeq s;
       trace := trace s |}).

Definition tick : M nat :=
  fun s =>
    (inr (ticks s),
     {| web3Connections := web3Connections s; subscriptions := subscriptions s;
        connected := connected s; backfillInterval := backfillInterval s;
        blockchainConfigs := blockchainConfigs s;
        connectListeners := connectListeners s; rows := rows s;
        dbOnline := dbOnline s; ticks := S (ticks s); timerSeq := timerSeq s;
        trace := trace s |}).

Definition freshTimer : M nat :=
  fun s =>
    (inr (timerSeq s),
     {| web3Connections := web3Connections s; subscriptions := subscriptions s;
        connected := connected s; backfillInterval := backfillInterval s;
        blockchainConfigs := blockchainConfigs s;
        connectListeners := connectListeners s; rows := rows s;
        dbOnline := dbOnline s; ticks := ticks s; timerSeq := S (timerSeq s);
        trace := trace s |}).

End Runtime.

Arguments Effect : clear implicits.
Arguments State : clear implicits.
Arguments M : clear implicits.

Declare Scope js_scope.
Delimit Scope js_scope with js.
Notation "x <- m ;; k" := (bind m (fun x => k))
  (at level 100, m at next level, right associativity) : js_scope.
Notation "m ;; k" := (bind m (fun _ => k))
  (at level 100, right associativity) : js_scope.
Open Scope js_scope.

(** [this.subscriptions.clear()] *)
Definition clearSubscriptions {R : Type} : M R unit :=
  modify (fun s =>
    {| web3Connections := web3Connections s; subscriptions := ∅;
       connected := connected s; backfillInterval := backfillInterval s;
       blockchainConfigs := blockchainConfigs s;
       connectListeners := connectListeners s; rows := rows s;
       dbOnline := dbOnline s; ticks := ticks s; timerSeq := timerSeq s;
       trace := trace s |}).

(** [this.web3Connections.clear()] *)
Definition clearConnections {R : Type} : M R unit :=
  modify (fun s =>
    {| web3Connections := ∅; subscriptions := subscriptions s;
       connected := connected s; backfillInterval := backfillInterval s;
       blockchainConfigs := blockchainConfigs s;
       connectListeners := connectListeners s; rows := rows s;
       dbOnline := dbOnline s; ticks := ticks s; timerSeq := timerSeq s;
       trace := trace s |}).

(** The database becoming unreachable or reachable again: an event of the
    environment, not a method of the services. *)
Definition setDbOnline {R : Type} (b : bool) : M R unit :=
  modify (fun s =>
    {| web3Connections := web3Connections s; subscriptions := subscriptions s;
       connected := connected s; backfillInterval := backfillInterval s;
       blockchainConfigs := blockchainConfigs s;
       connectListeners := connectListeners s; rows := rows s;
       dbOnline := b; ticks := ticks s; timerSeq := timerSeq s;
       trace := trace s |}).

(** ** Library functions the services call *)

(** [Date.prototype.toISOString] on a time value in milliseconds since the
    epoch: [YYYY-MM-DDTHH:mm:ss.sssZ], the year written with a sign and six
    digits outside 0..9999, and a [RangeError] outside the range of valid
    time values. *)
Module Date.

Definition maxTime : Z := 8640000000000000.

Definition msPerDay : Z := 86400000.

(** Year, month and day of the proleptic Gregorian calendar from the
    number of days since 1970-01-01. *)
Definition civilFromDays (days : Z) : Z * Z * Z :=
  let z := days + 719468 in
  let era := z / 146097 in
  let doe := z - era * 146097 in
  let yoe := (doe - doe / 1460 + doe / 36524 - doe / 146096) / 365 in
  let doy := doe - (365 * yoe + yoe / 4 - yoe / 100) in
  let mp := (5 * doy + 2) / 153 in
  let d := doy - (153 * mp + 2) / 5 + 1 in
  let m := if mp <? 10 then mp + 3 else mp - 9 in
  (if m <=? 2 then yoe + era * 400 + 1 else yoe + era * 400, m, d).

(** The last [width] decimal digits of [n], most significant first. *)
Fixpoint pad (width : nat) (n : Z) : string :=
  match width with
  | O => ""
  | S w => pad w (n / 10) +:+ String (pretty_N_char (Z.to_N (n mod 10))) ""
  end.

Definition year (y : Z) : string :=
  if (0 <=? y) && (y <=? 9999) then pad 4 y
  else (if y <? 0 then "-" else "+") +:+ pad 6 (Z.abs y).

(** The formatting of a valid time value. *)
Definition format (ms : Z) : string :=
  let '(y, m, d) := civilFromDays (ms / msPerDay) in
  let t := ms mod msPerDay in
  year y +:+ "-" +:+ pad 2 m +:+ "-" +:+ pad 2 d +:+ "T" +:+
  pad 2 (t / 3600000) +:+ ":" +:+ pad 2 (t / 60000 mod 60) +:+ ":" +:+
  pad 2 (t / 1000 mod 60) +:+ "." +:+ pad 3 (t mod 1000) +:+ "Z".

Definition invalidTime (ms : Z) : bool :=
  (ms <? - maxTime) || (maxTime <? ms).

Definition toISOString (ms : Z) : Exn + string :=
  if invalidTime ms then inl (Error "Invalid time value") else inr (format ms).

End Date.

(** [new Date(isoString)], as stored in a [date] column. *)
Inductive Date : Type :=
| NewDate (s : string).

(** [web3.eth.abi.decodeLog(inputs, data, topics)].  Indexed inputs are
    decoded from the topics, one topic per indexed input in order, the
    others from the data payload in order; the result maps each input name
    to its value.  Without data no non-indexed value is produced. *)
Module Abi.

Definition Decoded : Type := list (string * Value).

Fixpoint assemble (inputs : list AbiInput) (ix nix : list Value) : Decoded :=
  match inputs with
  | [] => []
  | i :: r =>
      if indexed i then
        match ix with
        | v :: ix' => (abi_name i, v) :: assemble r ix' nix
        | [] => assemble r [] nix
        end
      else
        match nix with
        | v :: nix' => (abi_name i, v) :: assemble r ix nix'
        | [] => assemble r ix []
        end
  end.

Fixpoint decodeTopics (E : Env) (types : list string) (ts : list (option string))
  : Exn + list Value :=
  match types with
  | [] => inr []
  | ty :: tys =>
      match decodeParameter E ty (mjoin (head ts)) with
      | inl e => inl e
      | inr v =>
          match decodeTopics E tys (tail ts) with
          | inl e => inl e
          | inr vs => inr (v :: vs)
          end
      end
  end.

Definition decodeLog (E : Env) (inputs : list AbiInput) (d : option string)
    (ts : list (option string)) : Exn + Decoded :=
  let nonIndexed := List.filter (fun i => negb (indexed i)) inputs in
  let indexedInputs := List.filter indexed inputs in
  match (if Js.truthyOptString d
         then decodeParameters E (map abi_type nonIndexed) (default "" d)
         else inr []) with
  | inl e => inl e
  | inr nix =>
      match decodeTopics E (map abi_type indexedInputs) ts with
      | inl e => inl e
      | inr ix => inr (assemble inputs ix nix)
      end
  end.

(** Property access [decodedLog.name]. *)
Fixpoint get (d : Decoded) (k : string) : Value :=
  match d with
  | [] => VUndefined
  | (k', v) :: r => if String.eqb k' k then v else get r k
  end.

End Abi.

(** [repository.findOne({ where: { column: key } })] over the table, oldest
    row first. *)
Definition findOne {R : Type} (E : Env) (column : R -> option string)
    (key : option string) (table : list R) : option R :=
  match key with
  | Some k => List.find (fun r => Js.strictEq (column r) (Some k)) table
  | None => if undefinedKeyMatches E then head table else None
  end.

Definition dbError : Exn := Error "Connection terminated unexpectedly".

(** ** The block windows of a backfill

    The iteration space of
    [for (let block = fromBlock; block <= toBlock; block += batchSize)]
    with [endBlock = Math.min(block + batchSize - 1, toBlock)]: the pairs
    [(block, endBlock)] in the order the loop visits them. *)

Definition batchSize : Z := 1000.

Equations? windows (block toBlock : Z) : list (Z * Z)
  by wf (Z.to_nat (toBlock - block + 1)) lt :=
  windows block toBlock with Z_le_gt_dec block toBlock => {
    | left _ => (block, Z.min (block + batchSize - 1) toBlock)
                  :: windows (block + batchSize) toBlock;
    | right _ => [] }.
Proof. unfold batchSize. lia. Qed.

(** The loop bounds are JS numbers: with a [NaN] bound the condition
    [block <= toBlock] is false at once. *)
Definition windowsOf (fromBlock toBlock : number) : list (Z * Z) :=
  match fromBlock, toBlock with
  | Num f, Num t => windows f t
  | _, _ => []
  end.

Definition depositedPrototype : string :=
  "Deposited(address,address,address,uint256,uint256,uint256)".

Definition redeemedPrototype : string :=
  "Redeemed(address,address,address,uint256,uint256,uint256)".

(** * The stock-manager-schema service ([Web3Service] writing
      [StockManagerEvent] rows through [StockManagerEventRepository]) *)

Module StockManager.

(** The entity; [id] and [created_at] are generated by the database.  A
    column the service leaves unset is [VUndefined]. *)
Record StockManagerEvent : Type := {
  event_type : string;
  wallet_address : Value;
  asset_token_address : Value;
  stablecoin_address : Value;
  amount_deposited : Value;
  tokens_minted : Value;
  tokens_redeemed : Value;
  amount_returned : Value;
  fee : Value;
  network : string;
  block_number : number;
  transaction_hash : option string;
  timestamp : string;
  date : Date
}.

(** The [eventData] payload of a [BlockchainEventData]. *)
Record EventFields : Type := {
  ed_user : Value;
  ed_assetToken : Value;
  ed_stablecoin : Value;
  ed_amount : Value;
  ed_tokenAmount : Value;
  ed_fee : Value
}.

Record BlockchainEventData : Type := {
  chainName : string;
  contractAddress : string;
  eventName : string;
  eventData : EventFields;
  ev_blockNumber : option Z;
  txHash : option string;
  ev_timestamp : string;
  ev_date : string
}.

Inductive EventType : Type := Deposited | Redeemed.

Definition showEventType (t : EventType) : string :=
  match t with
  | Deposited => "Deposited"
  | Redeemed => "Redeemed"
  end.

Definition depositedInputs : list AbiInput :=
  [ {| abi_type := "address"; abi_name := "user"; indexed := true |};
    {| abi_type := "address"; abi_name := "assetToken"; indexed := true |};
    {| abi_type := "address"; abi_name := "stablecoin"; indexed := true |};
    {| abi_type := "uint256"; abi_name := "amount"; indexed := false |};
    {| abi_type := "uint256"; abi_name := "tokenAmount"; indexed := false |};
    {| abi_type := "uint256"; abi_name := "fee"; indexed := false |} ].

Definition redeemedInputs : list AbiInput :=
  [ {| abi_type := "address"; abi_name := "user"; indexed := true |};
    {| abi_type := "address"; abi_name := "assetToken"; indexed := true |};
    {| abi_type := "address"; abi_name := "stablecoin"; indexed := true |};
    {| abi_type := "uint256"; abi_name := "tokenAmount"; indexed := false |};
    {| abi_type := "uint256"; abi_name := "amount"; indexed := false |};
    {| abi_type := "uint256"; abi_name := "fee"; indexed := false |} ].

(** The guard
    [!log || !log.data || !log.topics || log.topics.length < 4 ||
     !log.blockNumber || !log.transactionHash]. *)
Definition invalidLog (log : option RawLog) : bool :=
  match log with
  | None => true
  | Some l =>
      negb (Js.truthyOptString (data l))
      || match topics l with
         | None => true
         | Some ts => (length ts <? 4)%nat
         end
      || negb (Js.truthyOptZ (blockNumber l))
      || negb (Js.truthyOptString (transactionHash l))
  end.

(** [log.topics[i]] *)
Definition topic (l : RawLog) (i : nat) : option string :=
  default [] (topics l) !! i.

Section Service.

Variable E : Env.

Local Abbreviation M := (M StockManagerEvent).

(** *** [StockManagerEventRepository] *)

Definition findByTxHash (h : option string) : M (option StockManagerEvent) :=
  emit (EFindByTxHash h) ;;
  online <- gets dbOnline ;;
  if online : bool then
    table <- gets rows ;;
    ret (findOne E transaction_hash h table)
  else throw dbError.

Definition create (r : StockManagerEvent) : M StockManagerEvent :=
  emit (ECreate r) ;;
  online <- gets dbOnline ;;
  if online : bool then insertRow r ;; ret r else throw dbError.

(** *** Helpers for the library calls *)

Definition utils_sha3 (s : string) : M (option string) :=
  emit (ESha3 s) ;; ret (sha3 E s).

Definition abi_decodeLog (inputs : list AbiInput) (d : option string)
    (ts : list (option string)) : M Abi.Decoded :=
  await (EDecodeLog inputs d ts) (Abi.decodeLog E inputs d ts).

(** [new Date().toISOString()] *)
Definition nowISOString : M string :=
  n <- tick ;;
  emit (ENewDate (clock E n)) ;;
  fun s => (Date.toISOString (clock E n), s).

(** *** [Web3Service] *)

Definition getBlockDateFromTimestamp (web3 : Web3) (bn : option Z)
  : M (string * string) :=
  tryCatch
    (block <- await (EGetBlock bn) (getBlock web3 bn) ;;
     match block with
     | Some {| b_timestamp := Some t |} =>
         if negb (t =? 0) then
           d <- (fun s => (Date.toISOString (t * 1000), s)) ;;
           ret (d, pretty t)
         else
           d <- nowISOString ;; t' <- nowISOString ;; ret (d, t')
     | _ =>
         d <- nowISOString ;; t' <- nowISOString ;; ret (d, t')
     end)
    (fun error =>
       logger LvlWarn ("Error getting block timestamp: " +:+ message error) ;;
       d <- nowISOString ;; t' <- nowISOString ;; ret (d, t')).

Definition storeEventInDatabase (ev : BlockchainEventData)
    (contractName : string) : M unit :=
  tryCatch
    (existingEvent <- findByTxHash (txHash ev) ;;
     match existingEvent with
     | Some _ =>
         logger LvlWarn
           ("Duplicate event detected, skipping: " +:+ Js.show (txHash ev))
     | None =>
         let kind := Js.toLowerCase (eventName ev) in
         let deposited := String.eqb kind "deposited" in
         let redeemed := negb deposited && String.eqb kind "redeemed" in
         let dbEvent :=
           {| network := chainName ev;
              event_type := kind;
              wallet_address := ed_user (eventData ev);
              asset_token_address := ed_assetToken (eventData ev);
              stablecoin_address := ed_stablecoin (eventData ev);
              fee := ed_fee (eventData ev);
              block_number :=
                match ev_blockNumber ev with
                | Some z => Num z
                | None => NaN
                end;
              transaction_hash := txHash ev;
              timestamp := ev_timestamp ev;
              date := NewDate (ev_date ev);
              amount_deposited :=
                if deposited then ed_amount (eventData ev)
                else if redeemed then VString "0" else VUndefined;
              tokens_minted :=
                if deposited then ed_tokenAmount (eventData ev)
                else if redeemed then VString "0" else VUndefined;
              tokens_redeemed :=
                if deposited then VString "0"
                else if redeemed then ed_tokenAmount (eventData ev)
                else VUndefined;
              amount_returned :=
                if deposited then VString "0"
                else if redeemed then ed_amount (eventData ev)
                else VUndefined |} in
         create dbEvent ;;
         logger LvlLog
           (eventName ev +:+ " event stored in database: " +:+
            Js.show (txHash ev))
     end)
    (fun error =>
       logger LvlError
         ("Error storing event in database: " +:+ message error)).

(** [(v as bigint).toString()] *)
Definition toStringOf (v : Value) : M Value :=
  fun s => (match Js.toString v with
            | inl e => inl e
            | inr x => inr (VString x)
            end, s).

Definition processDepositedEvent (chainName : string)
    (contract : ContractConfig) (log : option RawLog) (web3 : Web3) : M unit :=
  tryCatch
    (if invalidLog log then
       logger LvlWarn "Invalid log object for Deposited event processing"
     else
       match log with
       | None => ret tt
       | Some l =>
           decodedLog <- abi_decodeLog depositedInputs (data l)
                           [topic l 1; topic l 2; topic l 3] ;;
           if negb (Js.truthy (Abi.get decodedLog "user"))
              || negb (Js.truthy (Abi.get decodedLog "assetToken"))
              || negb (Js.truthy (Abi.get decodedLog "stablecoin"))
              || Js.isUndefined (Abi.get decodedLog "amount")
              || Js.isUndefined (Abi.get decodedLog "tokenAmount")
              || Js.isUndefined (Abi.get decodedLog "fee")
           then logger LvlWarn "Invalid decoded log data for Deposited event"
           else
             dt <- getBlockDateFromTimestamp web3 (blockNumber l) ;;
             amount <- toStringOf (Abi.get decodedLog "amount") ;;
             tokenAmount <- toStringOf (Abi.get decodedLog "tokenAmount") ;;
             fee <- toStringOf (Abi.get decodedLog "fee") ;;
             let ev :=
               {| chainName := chainName;
                  contractAddress := c_address contract;
                  eventName := "Deposited";
                  eventData :=
                    {| ed_user := Abi.get decodedLog "user";
                       ed_assetToken := Abi.get decodedLog "assetToken";
                       ed_stablecoin := Abi.get decodedLog "stablecoin";
                       ed_amount := amount;
                       ed_tokenAmount := tokenAmount;
                       ed_fee := fee |};
                  ev_blockNumber := blockNumber l;
                  txHash := transactionHash l;
                  ev_timestamp := snd dt;
                  ev_date := fst dt |} in
             storeEventInDatabase ev (c_name contract) ;;
             logger LvlLog
               ("Deposited event from " +:+ c_name contract +:+ " on " +:+
                chainName)
       end)
    (fun error =>
       logger LvlError
         ("Error processing Deposited event: " +:+ message error)).

Definition processRedeemedEvent (chainName : string)
    (contract : ContractConfig) (log : option RawLog) (web3 : Web3) : M unit :=
  tryCatch
    (if invalidLog log then
       logger LvlWarn "Invalid log object for Redeemed event processing"
     else
       match log with
       | None => ret tt
       | Some l =>
           decodedLog <- abi_decodeLog redeemedInputs (data l)
                           [topic l 1; topic l 2; topic l 3] ;;
           if negb (Js.truthy (Abi.get decodedLog "user"))
              || negb (Js.truthy (Abi.get decodedLog "assetToken"))
              || negb (Js.truthy (Abi.get decodedLog "stablecoin"))
              || Js.isUndefined (Abi.get decodedLog "tokenAmount")
              || Js.isUndefined (Abi.get decodedLog "amount")
              || Js.isUndefined (Abi.get decodedLog "fee")
           then logger LvlWarn "Invalid decoded log data for Redeemed event"
           else
             dt <- getBlockDateFromTimestamp web3 (blockNumber l) ;;
             tokenAmount <- toStringOf (Abi.get decodedLog "tokenAmount") ;;
             amount <- toStringOf (Abi.get decodedLog "amount") ;;
             fee <- toStringOf (Abi.get decodedLog "fee") ;;
             let ev :=
               {| chainName := chainName;
                  contractAddress := c_address contract;
                  eventName := "Redeemed";
                  eventData :=
                    {| ed_user := Abi.get decodedLog "user";
                       ed_assetToken := Abi.get decodedLog "assetToken";
                       ed_stablecoin := Abi.get decodedLog "stablecoin";
                       ed_tokenAmount := tokenAmount;
                       ed_amount := amount;
                       ed_fee := fee |};
                  ev_blockNumber := blockNumber l;
                  txHash := transactionHash l;
                  ev_timestamp := snd dt;
                  ev_date := fst dt |} in
             storeEventInDatabase ev (c_name contract) ;;
             logger LvlLog
               ("Redeemed event from " +:+ c_name contract +:+ " on " +:+
                chainName)
       end)
    (fun error =>
       logger LvlError
         ("Error processing Redeemed event: " +:+ message error)).

(** [log.topics[0]]; a [TypeError] when [log.topics] is undefined. *)
Definition topics0 (l : RawLog) : M (option string) :=
  match topics l with
  | Some ts => ret (ts !! 0%nat)
  | None => throw (Error "Cannot read properties of undefined (reading '0')")
  end.

Definition processLog (chainName : string) (contracts : list ContractConfig)
    (log : option RawLog) : M unit :=
  match log with
  | None => logger LvlWarn "Received null or undefined log object"
  | Some l =>
      let contractAddress := Js.toLowerCase <$> log_address l in
      if negb (Js.truthyOptString contractAddress) then
        logger LvlWarn "Log object missing address property"
      else
        match List.find
                (fun c => Js.strictEq (Some (Js.toLowerCase (c_address c)))
                                      contractAddress)
                contracts with
        | None =>
            logger LvlWarn
              ("Received log for unknown contract: " +:+ Js.show contractAddress)
        | Some contract =>
            conn <- gets (fun s => web3Connections s !! chainName) ;;
            match conn with
            | None => logger LvlError ("No Web3 connection: " +:+ chainName)
            | Some web3 =>
                tryCatch
                  (eventSignature <- topics0 l ;;
                   depositedSignature <- utils_sha3 depositedPrototype ;;
                   redeemedSignature <- utils_sha3 redeemedPrototype ;;
                   if Js.strictEq eventSignature depositedSignature then
                     processDepositedEvent chainName contract log web3
                   else if Js.strictEq eventSignature redeemedSignature then
                     processRedeemedEvent chainName contract log web3
                   else
                     logger LvlDebug
                       ("Unknown event signature: " +:+ Js.show eventSignature))
                  (fun error =>
                     logger LvlError
                       ("Error processing log: " +:+ message error))
            end
        end
  end.

(** The listener of [subscription.on('data', ...)]. *)
Definition onSubscriptionData (chainName : string)
    (contracts : list ContractConfig) (log : option RawLog) : M unit :=
  tryCatch
    (processLog chainName contracts log)
    (fun error =>
       logger LvlError ("Error processing log data on " +:+ chainName +:+ ":")).

Definition subscribeToEvents (chainName : string)
    (contracts : list ContractConfig) : M unit :=
  conn <- gets (fun s => web3Connections s !! chainName) ;;
  match conn with
  | None => logger LvlError ("No WebSocket connection: " +:+ chainName)
  | Some web3 =>
      tryCatch
        (let contractAddresses := map c_address contracts in
         subscription <- await (ESubscribe contractAddresses)
                           (subscribe web3 contractAddresses) ;;
         setSubscription (chainName +:+ "-logs") subscription ;;
         logger LvlLog ("Subscribed to logs on " +:+ chainName))
        (fun error =>
           logger LvlError
             ("Failed to subscribe to logs on " +:+ chainName +:+ ":"))
  end.

(** The listener of [provider.on('connect', ...)]. *)
Definition onProviderConnect (chainName : string)
    (contracts : list ContractConfig) : M unit :=
  logger LvlLog ("WebSocket connected to " +:+ chainName) ;;
  subscribeToEvents chainName contracts.

Definition connectToChain (config : BlockchainConfig) : M unit :=
  tryCatch
    (if negb (Js.truthyString (wssUrl config))
        || String.eqb (Js.trim (wssUrl config)) "" then
       throw (Error ("WebSocket URL is empty for chain: " +:+ cfg_name config))
     else
       emit (EConnect (wssUrl config)) ;;
       let web3 := WebsocketProvider E (wssUrl config) in
       await EGetChainId (getChainId web3) ;;
       setConnection (cfg_name config) web3 ;;
       logger LvlLog ("Connected to " +:+ cfg_name config) ;;
       if provider web3 then
         addConnectListener (cfg_name config) (contracts config) ;;
         emit (EProviderOn (cfg_name config) "connect") ;;
         emit (EProviderOn (cfg_name config) "error") ;;
         emit (EProviderOn (cfg_name config) "end") ;;
         emit (EProviderOn (cfg_name config) "close")
       else ret tt)
    (fun error =>
       logger LvlError ("Failed to connect to " +:+ cfg_name config +:+ ":") ;;
       throw error).

Definition startHourlyBackfill : M unit :=
  running <- gets backfillInterval ;;
  match running with
  | Some h => emit (EClearInterval h)
  | None => ret tt
  end ;;
  emit (ESetTimeout (5 * 60 * 1000)) ;;
  h <- freshTimer ;;
  emit (ESetInterval (60 * 60 * 1000) h) ;;
  setBackfillInterval (Some h) ;;
  logger LvlLog "Hourly backfill process started".

Definition connectToMultipleChains (configs : list BlockchainConfig) : M unit :=
  logger LvlLog "Connecting to blockchains" ;;
  setBlockchainConfigs configs ;;
  forOf configs
    (fun config =>
       tryCatch
         (connectToChain config)
         (fun error =>
            logger LvlError
              ("Failed to connect to " +:+ cfg_name config +:+ ": " +:+
               message error))) ;;
  setConnected true ;;
  logger LvlLog "Connection setup completed" ;;
  startHourlyBackfill.

(** [topics: [web3.utils.sha3(prototype) || '']] *)
Definition signatureTopic (prototype : string) : M (list string) :=
  h <- utils_sha3 prototype ;;
  ret [if Js.truthyOptString h then default "" h else ""].

Definition pastLogs (web3 : Web3) (contract : ContractConfig)
    (block endBlock : Z) (prototype : string) : M (list RawLog) :=
  ts <- signatureTopic prototype ;;
  let filter := {| f_address := c_address contract; fromBlock := block;
                   toBlock := endBlock; f_topics := ts |} in
  await (EGetPastLogs filter) (getPastLogs web3 filter).

Definition fetchAndStoreContractEvents (web3 : Web3) (chainName : string)
    (contract : ContractConfig) (fromBlock toBlock : number) : M unit :=
  tryCatch
    (forOf (windowsOf fromBlock toBlock)
       (fun w =>
          let block := fst w in
          let endBlock := snd w in
          depositedEvents <- pastLogs web3 contract block endBlock
                               depositedPrototype ;;
          redeemedEvents <- pastLogs web3 contract block endBlock
                              redeemedPrototype ;;
          forOf depositedEvents
            (fun log => processDepositedEvent chainName contract (Some log) web3) ;;
          forOf redeemedEvents
            (fun log => processRedeemedEvent chainName contract (Some log) web3) ;;
          logger LvlLog
            ("Processed Events for block " +:+ pretty block +:+ " to " +:+
             pretty endBlock)))
    (fun error =>
       logger LvlError
         ("Error fetching events for " +:+ c_name contract +:+ " on " +:+
          chainName +:+ ": " +:+ message error)).

(** [fromBlock || Math.max(0, Number(currentBlock) - 80000)] *)
Definition startBlockOf (fromBlock : option number) (currentBlock : Z) : number :=
  if Js.truthyOptNumber fromBlock then default NaN fromBlock
  else Js.max (Num 0) (Js.sub (Num currentBlock) (Num 80000)).

Definition storePreviousEventsForChain (config : BlockchainConfig)
    (fromBlock : option number) : M unit :=
  conn <- gets (fun s => web3Connections s !! cfg_name config) ;;
  match conn with
  | None => logger LvlError ("No Web3 connection for " +:+ cfg_name config)
  | Some web3 =>
      tryCatch
        (currentBlock <- await EGetBlockNumber (getBlockNumber web3) ;;
         let startBlock := startBlockOf fromBlock currentBlock in
         forOf (contracts config)
           (fun contract =>
              fetchAndStoreContractEvents web3 (cfg_name config) contract
                startBlock (Num currentBlock)))
        (fun error =>
           logger LvlError
             ("Error fetching previous events for " +:+ cfg_name config +:+
              ": " +:+ message error))
  end.

Definition storePreviousEvents (configs : list BlockchainConfig)
    (fromBlock : option number) : M unit :=
  forOf configs
    (fun config =>
       tryCatch
         (storePreviousEventsForChain config fromBlock)
         (fun error =>
            logger LvlError
              ("Failed to store previous events for " +:+ cfg_name config +:+
               ": " +:+ message error))) ;;
  logger LvlLog "Finished storing previous events".

(** Returns [false] for a skipped log and [true] for a processed one. *)
Definition processEventWithDeduplication (chainName : string)
    (contract : ContractConfig) (log : option RawLog) (web3 : Web3)
    (eventType : EventType) : M bool :=
  tryCatch
    (match log with
     | None =>
         throw (Error
           "Cannot read properties of undefined (reading 'transactionHash')")
     | Some l =>
         existingEvent <- findByTxHash (transactionHash l) ;;
         match existingEvent with
         | Some _ => ret false
         | None =>
             match eventType with
             | Deposited => processDepositedEvent chainName contract log web3
             | Redeemed => processRedeemedEvent chainName contract log web3
             end ;;
             ret true
         end
     end)
    (fun error =>
       logger LvlError
         ("Error processing " +:+ showEventType eventType +:+
          " event with deduplication: " +:+ message error) ;;
       ret false).

(** The local tallies [totalProcessed] and [totalSkipped] of the source are
    never read; the outcome of each log is the boolean above. *)
Definition fetchAndStoreContractEventsWithDeduplication (web3 : Web3)
    (chainName : string) (contract : ContractConfig)
    (fromBlock toBlock : number) : M unit :=
  tryCatch
    (forOf (windowsOf fromBlock toBlock)
       (fun w =>
          let block := fst w in
          let endBlock := snd w in
          depositedEvents <- pastLogs web3 contract block endBlock
                               depositedPrototype ;;
          redeemedEvents <- pastLogs web3 contract block endBlock
                              redeemedPrototype ;;
          forOf depositedEvents
            (fun log =>
               processEventWithDeduplication chainName contract (Some log)
                 web3 Deposited ;; ret tt) ;;
          forOf redeemedEvents
            (fun log =>
               processEventWithDeduplication chainName contract (Some log)
                 web3 Redeemed ;; ret tt) ;;
          logger LvlDebug ("Backfill batch completed for " +:+ c_name contract)) ;;
     logger LvlLog ("Backfill completed for " +:+ c_name contract))
    (fun error =>
       logger LvlError ("Error during backfill: " +:+ message error)).

Definition backfillLastBlocks (config : BlockchainConfig) (blockCount : number)
  : M unit :=
  conn <- gets (fun s => web3Connections s !! cfg_name config) ;;
  match conn with
  | None =>
      logger LvlError
        ("No Web3 connection for " +:+ cfg_name config +:+ " during backfill")
  | Some web3 =>
      tryCatch
        (currentBlock <- await EGetBlockNumber (getBlockNumber web3) ;;
         let fromBlock := Js.max (Num 0) (Js.sub (Num currentBlock) blockCount) in
         forOf (contracts config)
           (fun contract =>
              fetchAndStoreContractEventsWithDeduplication web3
                (cfg_name config) contract fromBlock (Num currentBlock)))
        (fun error =>
           logger LvlError ("Error during backfill: " +:+ message error))
  end.

Definition performHourlyBackfill : M unit :=
  logger LvlLog "Starting hourly backfill process..." ;;
  tryCatch
    (configs <- gets blockchainConfigs ;;
     forOf configs (fun config => backfillLastBlocks config (Num 10000)) ;;
     logger LvlLog "Hourly backfill process completed successfully")
    (fun error => logger LvlError "Error during hourly backfill process:").

Definition stopHourlyBackfill : M unit :=
  running <- gets backfillInterval ;;
  match running with
  | Some h =>
      emit (EClearInterval h) ;;
      setBackfillInterval None ;;
      logger LvlLog "Hourly backfill process stopped"
  | None => ret tt
  end.

Definition triggerManualBackfill (blockCount : number) : M unit :=
  logger LvlLog
    ("Manual backfill triggered for last " +:+ Js.showNumber blockCount +:+
     " blocks") ;;
  tryCatch
    (configs <- gets blockchainConfigs ;;
     forOf configs (fun config => backfillLastBlocks config blockCount) ;;
     logger LvlLog "Manual backfill completed successfully")
    (fun error =>
       logger LvlError "Error during manual backfill:" ;;
       throw error).

(** [getBackfillStatus().isRunning] *)
Definition getBackfillStatus : M bool :=
  running <- gets backfillInterval ;;
  ret (bool_decide (running <> None)).

Definition isConnected : M bool := gets connected.

Definition getWeb3Instance (chainName : string) : M (option Web3) :=
  gets (fun s => web3Connections s !! chainName).

(** The two loops visit the entries of the maps; the model visits them in
    key order where the source visits them in insertion order, which only
    permutes the log lines.  The calls to [unsubscribe] and to
    [provider.disconnect] are not traced. *)
Definition disconnect (C : Closing) : M unit :=
  logger LvlLog "Disconnecting" ;;
  subs <- gets (fun s => map_to_list (subscriptions s)) ;;
  forOf subs
    (fun entry =>
       let key := fst entry in
       tryCatch
         (fun s => (unsubscribe C key, s))
         (fun error =>
            logger LvlWarn ("Error unsubscribing from " +:+ key +:+ ":"))) ;;
  conns <- gets (fun s => map_to_list (web3Connections s)) ;;
  forOf conns
    (fun entry =>
       let chainName := fst entry in
       let web3 := snd entry in
       tryCatch
         ((if provider web3
           then (fun s => (providerDisconnect C chainName, s))
           else ret tt) ;;
          logger LvlLog ("Disconnected from " +:+ chainName))
         (fun error =>
            logger LvlWarn ("Error disconnecting from " +:+ chainName +:+ ":"))) ;;
  clearSubscriptions ;;
  clearConnections ;;
  setConnected false.

Definition onModuleDestroy (C : Closing) : M unit :=
  stopHourlyBackfill ;;
  disconnect C.

End Service.

End StockManager.

(** * The events-schema service ([Web3Service] writing [Event] rows through
      [EventRepository]) *)

Module Events.

(** The named fields of a decoded event: the [eventData] object of the
    processors, stored as the [event_data] JSON column. *)
Record EventFields : Type := {
  ed_user : Value;
  ed_assetToken : Value;
  ed_stablecoin : Value;
  ed_amount : Value;
  ed_tokenAmount : Value;
  ed_fee : Value
}.

(** The entity; [id] and [created_at] are generated by the database. *)
Record Event : Type := {
  chain_name : string;
  event_type : string;
  contract_address : string;
  tx_hash : option string;
  block_number : number;
  user : Value;
  asset_token : Value;
  stablecoin : Value;
  amount : Value;
  token_amount : Value;
  fee : Value;
  event_data : EventFields;
  timestamp : string;
  date : Date
}.

Record BlockchainEventData : Type := {
  chainName : string;
  contractAddress : string;
  eventName : string;
  eventData : EventFields;
  ev_blockNumber : option Z;
  txHash : option string;
  ev_timestamp : string;
  ev_date : string
}.

Definition depositedInputs : list AbiInput :=
  [ {| abi_type := "address"; abi_name := "user"; indexed := true |};
    {| abi_type := "address"; abi_name := "assetToken"; indexed := true |};
    {| abi_type := "address"; abi_name := "stablecoin"; indexed := true |};
    {| abi_type := "uint256"; abi_name := "amount"; indexed := false |};
    {| abi_type := "uint256"; abi_name := "tokenAmount"; indexed := false |};
    {| abi_type := "uint256"; abi_name := "fee"; indexed := false |} ].

Definition redeemedInputs : list AbiInput :=
  [ {| abi_type := "address"; abi_name := "user"; indexed := true |};
    {| abi_type := "address"; abi_name := "assetToken"; indexed := true |};
    {| abi_type := "address"; abi_name := "stablecoin"; indexed := true |};
    {| abi_type := "uint256"; abi_name := "tokenAmount"; indexed := false |};
    {| abi_type := "uint256"; abi_name := "amount"; indexed := false |};
    {| abi_type := "uint256"; abi_name := "fee"; indexed := false |} ].

Section Service.

Variable E : Env.

Local Abbreviation M := (M Event).

(** *** [EventRepository] *)

Definition findByTxHash (h : option string) : M (option Event) :=
  emit (EFindByTxHash h) ;;
  online <- gets dbOnline ;;
  if online : bool then
    table <- gets rows ;;
    ret (findOne E tx_hash h table)
  else throw dbError.

Definition create (r : Event) : M Event :=
  emit (ECreate r) ;;
  online <- gets dbOnline ;;
  if online : bool then insertRow r ;; ret r else throw dbError.

(** *** Helpers for the library calls *)

Definition utils_sha3 (s : string) : M (option string) :=
  emit (ESha3 s) ;; ret (sha3 E s).

Definition abi_decodeLog (inputs : list AbiInput) (d : option string)
    (ts : list (option string)) : M Abi.Decoded :=
  await (EDecodeLog inputs d ts) (Abi.decodeLog E inputs d ts).

(** [new Date().toISOString()] *)
Definition nowISOString : M string :=
  n <- tick ;;
  emit (ENewDate (clock E n)) ;;
  fun s => (Date.toISOString (clock E n), s).

(** [(v as bigint).toString()] *)
Definition toStringOf (v : Value) : M Value :=
  fun s => (match Js.toString v with
            | inl e => inl e
            | inr x => inr (VString x)
            end, s).

(** The argument list [log.data, [log.topics[1], log.topics[2],
    log.topics[3]]]: a [TypeError] when [log] or [log.topics] is missing. *)
Definition decodeArguments (log : option RawLog)
  : M (RawLog * list (option string)) :=
  match log with
  | None => throw (Error "Cannot read properties of undefined (reading 'data')")
  | Some l =>
      match topics l with
      | None => throw (Error "Cannot read properties of undefined (reading '1')")
      | Some ts => ret (l, [ts !! 1%nat; ts !! 2%nat; ts !! 3%nat])
      end
  end.

(** *** [Web3Service] *)

Definition getBlockDateFromTimestamp (web3 : Web3) (bn : option Z)
  : M (string * string) :=
  tryCatch
    (block <- await (EGetBlock bn) (getBlock web3 bn) ;;
     match block with
     | Some {| b_timestamp := Some t |} =>
         if negb (t =? 0) then
           d <- (fun s => (Date.toISOString (t * 1000), s)) ;;
           ret (d, pretty t)
         else
           d <- nowISOString ;; t' <- nowISOString ;; ret (d, t')
     | _ =>
         d <- nowISOString ;; t' <- nowISOString ;; ret (d, t')
     end)
    (fun error =>
       logger LvlWarn ("Error getting block timestamp: " +:+ message error) ;;
       d <- nowISOString ;; t' <- nowISOString ;; ret (d, t')).

Definition storeEventInDatabase (ev : BlockchainEventData)
    (contractName : string) : M unit :=
  tryCatch
    (existingEvent <- findByTxHash (txHash ev) ;;
     match existingEvent with
     | Some _ =>
         logger LvlWarn
           ("Duplicate event detected, skipping: " +:+ Js.show (txHash ev))
     | None =>
         let dbEvent :=
           {| chain_name := chainName ev;
              event_type := Js.toLowerCase (eventName ev);
              contract_address := contractAddress ev;
              tx_hash := txHash ev;
              block_number :=
                match ev_blockNumber ev with
                | Some z => Num z
                | None => NaN
                end;
              user := ed_user (eventData ev);
              asset_token := ed_assetToken (eventData ev);
              stablecoin := ed_stablecoin (eventData ev);
              amount := ed_amount (eventData ev);
              token_amount := ed_tokenAmount (eventData ev);
              fee := ed_fee (eventData ev);
              event_data := eventData ev;
              timestamp := ev_timestamp ev;
              date := NewDate (ev_date ev) |} in
         create dbEvent ;;
         logger LvlLog
           (eventName ev +:+ " event stored in database: " +:+
            Js.show (txHash ev))
     end)
    (fun error =>
       logger LvlError
         ("Error storing event in database: " +:+ message error)).

Definition processDepositedEvent (chainName : string)
    (contract : ContractConfig) (log : option RawLog) (web3 : Web3) : M unit :=
  tryCatch
    (args <- decodeArguments log ;;
     let l := fst args in
     decodedLog <- abi_decodeLog depositedInputs (data l) (snd args) ;;
     dt <- getBlockDateFromTimestamp web3 (blockNumber l) ;;
     amount <- toStringOf (Abi.get decodedLog "amount") ;;
     tokenAmount <- toStringOf (Abi.get decodedLog "tokenAmount") ;;
     fee <- toStringOf (Abi.get decodedLog "fee") ;;
     let ev :=
       {| chainName := chainName;
          contractAddress := c_address contract;
          eventName := "Deposited";
          eventData :=
            {| ed_user := Abi.get decodedLog "user";
               ed_assetToken := Abi.get decodedLog "assetToken";
               ed_stablecoin := Abi.get decodedLog "stablecoin";
               ed_amount := amount;
               ed_tokenAmount := tokenAmount;
               ed_fee := fee |};
          ev_blockNumber := blockNumber l;
          txHash := transactionHash l;
          ev_timestamp := snd dt;
          ev_date := fst dt |} in
     storeEventInDatabase ev (c_name contract) ;;
     emit (EEmit "event" (transactionHash l)) ;;
     logger LvlLog
       ("Deposited event from " +:+ c_name contract +:+ " on " +:+
        chainName +:+ ":"))
    (fun error =>
       logger LvlError
         ("Error processing Deposited event: " +:+ message error)).

Definition processRedeemedEvent (chainName : string)
    (contract : ContractConfig) (log : option RawLog) (web3 : Web3) : M unit :=
  tryCatch
    (args <- decodeArguments log ;;
     let l := fst args in
     decodedLog <- abi_decodeLog redeemedInputs (data l) (snd args) ;;
     dt <- getBlockDateFromTimestamp web3 (blockNumber l) ;;
     tokenAmount <- toStringOf (Abi.get decodedLog "tokenAmount") ;;
     amount <- toStringOf (Abi.get decodedLog "amount") ;;
     fee <- toStringOf (Abi.get decodedLog "fee") ;;
     let ev :=
       {| chainName := chainName;
          contractAddress := c_address contract;
          eventName := "Redeemed";
          eventData :=
            {| ed_user := Abi.get decodedLog "user";
               ed_assetToken := Abi.get decodedLog "assetToken";
               ed_stablecoin := Abi.get decodedLog "stablecoin";
               ed_tokenAmount := tokenAmount;
               ed_amount := amount;
               ed_fee := fee |};
          ev_blockNumber := blockNumber l;
          txHash := transactionHash l;
          ev_timestamp := snd dt;
          ev_date := fst dt |} in
     storeEventInDatabase ev (c_name contract) ;;
     emit (EEmit "event" (transactionHash l)) ;;
     logger LvlLog
       ("Redeemed event from " +:+ c_name contract +:+ " on " +:+
        chainName +:+ ":"))
    (fun error =>
       logger LvlError
         ("Error processing Redeemed event: " +:+ message error)).

(** [log.topics[0]]; a [TypeError] when [log.topics] is undefined. *)
Definition topics0 (l : RawLog) : M (option string) :=
  match topics l with
  | Some ts => ret (ts !! 0%nat)
  | None => throw (Error "Cannot read properties of undefined (reading '0')")
  end.

Definition processLog (chainName : string) (contracts : list ContractConfig)
    (log : option RawLog) : M unit :=
  match log with
  | None => throw (Error "Cannot read properties of undefined (reading 'address')")
  | Some l =>
      let contractAddress := Js.toLowerCase <$> log_address l in
      match List.find
              (fun c => Js.strictEq (Some (Js.toLowerCase (c_address c)))
                                    contractAddress)
              contracts with
      | None =>
          logger LvlWarn
            ("Received log for unknown contract: " +:+ Js.show contractAddress)
      | Some contract =>
          conn <- gets (fun s => web3Connections s !! chainName) ;;
          match conn with
          | None => logger LvlError ("No Web3 connection: " +:+ chainName)
          | Some web3 =>
              tryCatch
                (eventSignature <- topics0 l ;;
                 depositedSignature <- utils_sha3 depositedPrototype ;;
                 redeemedSignature <- utils_sha3 redeemedPrototype ;;
                 if Js.strictEq eventSignature depositedSignature then
                   processDepositedEvent chainName contract log web3
                 else if Js.strictEq eventSignature redeemedSignature then
                   processRedeemedEvent chainName contract log web3
                 else
                   logger LvlDebug
                     ("Unknown event signature: " +:+ Js.show eventSignature))
                (fun error =>
                   logger LvlError
                     ("Error processing log: " +:+ message error))
          end
      end
  end.

(** The listener of [subscription.on('data', ...)]. *)
Definition onSubscriptionData (chainName : string)
    (contracts : list ContractConfig) (log : option RawLog) : M unit :=
  processLog chainName contracts log.

Definition subscribeToEvents (chainName : string)
    (contracts : list ContractConfig) : M unit :=
  conn <- gets (fun s => web3Connections s !! chainName) ;;
  match conn with
  | None => logger LvlError ("No WebSocket connection: " +:+ chainName)
  | Some web3 =>
      tryCatch
        (let contractAddresses := map c_address contracts in
         subscription <- await (ESubscribe contractAddresses)
                           (subscribe web3 contractAddresses) ;;
         setSubscription (chainName +:+ "-logs") subscription ;;
         logger LvlLog ("Subscribed to logs on " +:+ chainName))
        (fun error =>
           logger LvlError
             ("Failed to subscribe to logs on " +:+ chainName +:+ ":"))
  end.

Definition connectToChain (config : BlockchainConfig) : M unit :=
  tryCatch
    (if negb (Js.truthyString (wssUrl config))
        || String.eqb (Js.trim (wssUrl config)) "" then
       throw (Error ("WebSocket URL is empty for chain: " +:+ cfg_name config))
     else
       emit (EConnect (wssUrl config)) ;;
       let web3 := WebsocketProvider E (wssUrl config) in
       await EGetChainId (getChainId web3) ;;
       setConnection (cfg_name config) web3 ;;
       logger LvlLog ("Connected to " +:+ cfg_name config) ;;
       (if provider web3 then
          emit (EProviderOn (cfg_name config) "connect") ;;
          emit (EProviderOn (cfg_name config) "error") ;;
          emit (EProviderOn (cfg_name config) "end") ;;
          emit (EProviderOn (cfg_name config) "close")
        else ret tt) ;;
       subscribeToEvents (cfg_name config) (contracts config))
    (fun error =>
       logger LvlError ("Failed to connect to " +:+ cfg_name config +:+ ":") ;;
       throw error).

Definition connectToMultipleChains (configs : list BlockchainConfig) : M unit :=
  logger LvlLog "Connecting to blockchains" ;;
  forOf configs
    (fun config =>
       tryCatch
         (connectToChain config)
         (fun error =>
            logger LvlError
              ("Failed to connect to " +:+ cfg_name config +:+ ": " +:+
               message error))) ;;
  setConnected true ;;
  logger LvlLog "Connection setup completed".

(** [topics: [web3.utils.sha3(prototype) || '']] *)
Definition signatureTopic (prototype : string) : M (list string) :=
  h <- utils_sha3 prototype ;;
  ret [if Js.truthyOptString h then default "" h else ""].

Definition pastLogs (web3 : Web3) (contract : ContractConfig)
    (block endBlock : Z) (prototype : string) : M (list RawLog) :=
  ts <- signatureTopic prototype ;;
  let filter := {| f_address := c_address contract; fromBlock := block;
                   toBlock := endBlock; f_topics := ts |} in
  await (EGetPastLogs filter) (getPastLogs web3 filter).

Definition fetchAndStoreContractEvents (web3 : Web3) (chainName : string)
    (contract : ContractConfig) (fromBlock toBlock : number) : M unit :=
  tryCatch
    (forOf (windowsOf fromBlock toBlock)
       (fun w =>
          let block := fst w in
          let endBlock := snd w in
          logger LvlLog
            ("Fetching events for " +:+ c_name contract +:+ " on " +:+
             chainName +:+ " from block " +:+ pretty block +:+ " to " +:+
             pretty endBlock) ;;
          depositedEvents <- pastLogs web3 contract block endBlock
                               depositedPrototype ;;
          redeemedEvents <- pastLogs web3 contract block endBlock
                              redeemedPrototype ;;
          forOf depositedEvents
            (fun log => processDepositedEvent chainName contract (Some log) web3) ;;
          forOf redeemedEvents
            (fun log => processRedeemedEvent chainName contract (Some log) web3) ;;
          logger LvlLog
            ("Processed " +:+ pretty (length depositedEvents) +:+
             " deposited and " +:+ pretty (length redeemedEvents) +:+
             " redeemed events for " +:+ c_name contract)))
    (fun error =>
       logger LvlError
         ("Error fetching events for " +:+ c_name contract +:+ " on " +:+
          chainName +:+ ": " +:+ message error)).

(** [fromBlock || Math.max(0, Number(currentBlock) - 100000)] *)
Definition startBlockOf (fromBlock : option number) (currentBlock : Z) : number :=
  if Js.truthyOptNumber fromBlock then default NaN fromBlock
  else Js.max (Num 0) (Js.sub (Num currentBlock) (Num 100000)).

Definition storePreviousEventsForChain (config : BlockchainConfig)
    (fromBlock : option number) : M unit :=
  conn <- gets (fun s => web3Connections s !! cfg_name config) ;;
  match conn with
  | None => logger LvlError ("No Web3 connection for " +:+ cfg_name config)
  | Some web3 =>
      tryCatch
        (currentBlock <- await EGetBlockNumber (getBlockNumber web3) ;;
         let startBlock := startBlockOf fromBlock currentBlock in
         logger LvlLog
           ("Fetching events for " +:+ cfg_name config +:+ " from block " +:+
            Js.showNumber startBlock +:+ " to " +:+ pretty currentBlock) ;;
         forOf (contracts config)
           (fun contract =>
              fetchAndStoreContractEvents web3 (cfg_name config) contract
                startBlock (Num currentBlock)))
        (fun error =>
           logger LvlError
             ("Error fetching previous events for " +:+ cfg_name config +:+
              ": " +:+ message error))
  end.

Definition storePreviousEvents (configs : list BlockchainConfig)
    (fromBlock : option number) : M unit :=
  logger LvlLog "Starting to fetch and store previous events..." ;;
  forOf configs
    (fun config =>
       tryCatch
         (storePreviousEventsForChain config fromBlock)
         (fun error =>
            logger LvlError
              ("Failed to store previous events for " +:+ cfg_name config +:+
               ": " +:+ message error))) ;;
  logger LvlLog "Finished storing previous events".

Definition isConnected : M bool := gets connected.

Definition getWeb3Instance (chainName : string) : M (option Web3) :=
  gets (fun s => web3Connections s !! chainName).

(** As in the stock-manager service. *)
Definition disconnect (C : Closing) : M unit :=
  logger LvlLog "Disconnecting" ;;
  subs <- gets (fun s => map_to_list (subscriptions s)) ;;
  forOf subs
    (fun entry =>
       let key := fst entry in
       tryCatch
         (fun s => (unsubscribe C key, s))
         (fun error =>
            logger LvlWarn ("Error unsubscribing from " +:+ key +:+ ":"))) ;;
  conns <- gets (fun s => map_to_list (web3Connections s)) ;;
  forOf conns
    (fun entry =>
       let chainName := fst entry in
       let web3 := snd entry in
       tryCatch
         ((if provider web3
           then (fun s => (providerDisconnect C chainName, s))
           else ret tt) ;;
          logger LvlLog ("Disconnected from " +:+ chainName))
         (fun error =>
            logger LvlWarn ("Error disconnecting from " +:+ chainName +:+ ":"))) ;;
  clearSubscriptions ;;
  clearConnections ;;
  setConnected false.

Definition onModuleDestroy (C : Closing) : M unit := disconnect C.

End Service.

End Events.

(** * The controller of the stock-manager service: [POST web3/trigger-backfill] *)

Module Web3Controller.

Record BackfillResponse : Type := {
  success : bool;
  r_message : string;
  r_blockCount : option number;
  r_error : option string
}.

Section Controller.

Variable E : Env.

Local Abbreviation M := (M StockManager.StockManagerEvent).

Definition triggerBackfill (blockCount : option string) : M BackfillResponse :=
  tryCatch
    (logger LvlLog "Received request to trigger backfill" ;;
     let blockCountNumber :=
       if Js.truthyOptString blockCount
       then Js.parseInt (default "" blockCount)
       else Num 10000 in
     if Js.leb blockCountNumber (Num 0) || Js.gtb blockCountNumber (Num 50000)
     then throw (BadRequestException "Block count must be between 1 and 50000")
     else
       StockManager.triggerManualBackfill E blockCountNumber ;;
       ret {| success := true;
              r_message := "Backfill triggered successfully";
              r_blockCount := Some blockCountNumber;
              r_error := None |})
    (fun error =>
       logger LvlError "Error triggering backfill:" ;;
       if isBadRequestException error then throw error
       else ret {| success := false;
                   r_message := "Failed to trigger backfill";
                   r_blockCount := None;
                   r_error := Some (message error) |}).

End Controller.

(** [POST web3/store-previous-events] *)

Record StorePreviousEventsDto : Type := {
  dto_chainId : option number;
  dto_fromBlock : option number
}.

Record StorePreviousEventsResponse : Type := {
  sp_success : bool;
  sp_message : string;
  sp_chainId : option number;
  sp_fromBlock : option number;
  sp_contracts : list ContractConfig;
  sp_error : option string
}.

Section StorePrevious.

Variable E : Env.

(** The list exported by [config/blockchain.config]. *)
Variable configured : list BlockchainConfig.

Local Abbreviation M := (M StockManager.StockManagerEvent).

(** [config.chainId === chainId] *)
Definition sameChainId (config : BlockchainConfig) (chainId' : option number)
  : bool :=
  match chainId' with
  | Some (Num z) => chainId config =? z
  | _ => false
  end.

Definition storePreviousEvents (body : StorePreviousEventsDto)
    (fromBlock : option string) : M StorePreviousEventsResponse :=
  tryCatch
    (logger LvlLog "Received request to store previous events" ;;
     let chainId' := dto_chainId body in
     let fromBlockNumber :=
       if Js.truthyOptString fromBlock
       then Some (Js.parseInt (default "" fromBlock))
       else dto_fromBlock body in
     if negb (Js.truthyOptNumber chainId')
     then throw (BadRequestException "Chain ID is required")
     else
       match List.find (fun config => sameChainId config chainId') configured with
       | None => throw (BadRequestException "Blockchain configuration not found")
       | Some blockchainConfig =>
           if negb (Js.truthyString (wssUrl blockchainConfig))
              || String.eqb (Js.trim (wssUrl blockchainConfig)) ""
           then throw (BadRequestException "WebSocket URL is not configured")
           else
             StockManager.storePreviousEvents E [blockchainConfig]
               fromBlockNumber ;;
             ret {| sp_success := true;
                    sp_message := "Previous events stored successfully";
                    sp_chainId := chainId';
                    sp_fromBlock := fromBlockNumber;
                    sp_contracts :=
                      map (fun c => {| c_address := c_address c;
                                       c_name := c_name c |})
                        (contracts blockchainConfig);
                    sp_error := None |}
       end)
    (fun error =>
       logger LvlError "Error storing previous events:" ;;
       if isBadRequestException error then throw error
       else ret {| sp_success := false;
                   sp_message := "Failed to store previous events";
                   sp_chainId := None;
                   sp_fromBlock := None;
                   sp_contracts := [];
                   sp_error := Some (message error) |}).

(** [GET web3/backfill-status]: [{ success: true, status }], of which the
    model keeps [status.isRunning]. *)
Definition getBackfillStatus : M (bool * bool) :=
  tryCatch
    (status <- StockManager.getBackfillStatus ;;
     ret (true, status))
    (fun error =>
       logger LvlError "Error getting backfill status:" ;;
       ret (false, false)).

End StorePrevious.

End Web3Controller.

(** * Observations on runs *)

Section Observations.

Context {R : Type}.

(** A computation that never throws. *)
Definition total {A} (m : M R A) : Prop :=
  forall s, exists a, result m s = inr a.

(** A computation whose every run, normal or not, relates the initial to
    the final state by [I]. *)
Definition keeps (I : State R -> State R -> Prop) {A} (m : M R A) : Prop :=
  forall s, I s (exec m s).

(** The trace is extended by effects of the kinds [K] only. *)
Definition grows (K : Effect R -> bool) (s s' : State R) : Prop :=
  exists d, trace s' = trace s ++ d /\ Forall (fun e => K e = true) d.

(** The fields of the service object and the availability of the database
    are unchanged. *)
Definition sameService (s s' : State R) : Prop :=
  web3Connections s' = web3Connections s /\
  subscriptions s' = subscriptions s /\
  connected s' = connected s /\
  backfillInterval s' = backfillInterval s /\
  blockchainConfigs s' = blockchainConfigs s /\
  connectListeners s' = connectListeners s /\
  dbOnline s' = dbOnline s.

Definition sameRows (s s' : State R) : Prop := rows s' = rows s.

(** The [getPastLogs] queries of a trace, in order. *)
Definition queryOf (e : Effect R) : option LogFilter :=
  match e with
  | EGetPastLogs f => Some f
  | _ => None
  end.

Definition pastLogQueries (t : list (Effect R)) : list LogFilter := omap queryOf t.

(** The ABI decodes of a trace. *)
Definition decodeOf (e : Effect R)
  : option (list AbiInput * option string * list (option string)) :=
  match e with
  | EDecodeLog i d ts => Some (i, d, ts)
  | _ => None
  end.

Definition decodeCalls (t : list (Effect R))
  : list (list AbiInput * option string * list (option string)) :=
  omap decodeOf t.

(** The hash computations of a trace. *)
Definition sha3Of (e : Effect R) : option string :=
  match e with
  | ESha3 x => Some x
  | _ => None
  end.

Definition sha3Calls (t : list (Effect R)) : list string := omap sha3Of t.

(** The rows handed to [create]. *)
Definition createOf (e : Effect R) : option R :=
  match e with
  | ECreate r => Some r
  | _ => None
  end.

Definition createCalls (t : list (Effect R)) : list R := omap createOf t.

(** The [subscribe] calls of a trace. *)
Definition subscribeOf (e : Effect R) : option (list string) :=
  match e with
  | ESubscribe addresses => Some addresses
  | _ => None
  end.

Definition subscribeCalls (t : list (Effect R)) : list (list string) :=
  omap subscribeOf t.

(** Every effect but a [subscribe] call. *)
Definition notSubscribing (e : Effect R) : bool :=
  match e with
  | ESubscribe _ => false
  | _ => true
  end.

(** The effects of dating a block. *)
Definition datingEffect (e : Effect R) : bool :=
  match e with
  | EGetBlock _ | ENewDate _ | ELogger _ _ => true
  | _ => false
  end.

(** The effects of dating and storing a decoded event. *)
Definition storingEffect (e : Effect R) : bool :=
  match e with
  | EGetBlock _ | ENewDate _ | EFindByTxHash _ | ECreate _ | EEmit _ _
  | ELogger _ _ => true
  | _ => false
  end.

(** The effects of decoding and storing one log. *)
Definition processingEffect (e : Effect R) : bool :=
  match e with
  | EDecodeLog _ _ _ => true
  | _ => storingEffect e
  end.

(** A computation that never throws and issues exactly the queries [q]. *)
Definition issues {A} (m : M R A) (q : list LogFilter) : Prop :=
  forall s : State R,
    (exists a, result m s = inr a) /\
    pastLogQueries (trace (exec m s)) = pastLogQueries (trace s) ++ q.

End Observations.

(** The blocks of a window. *)
Definition blocksOf (w : Z * Z) : list Z := seqZ (fst w) (snd w - fst w + 1).

(** The topic filter [sha3(prototype) || ''] as a value. *)
Definition topicOf (E : Env) (prototype : string) : string :=
  if Js.truthyOptString (sha3 E prototype) then default "" (sha3 E prototype)
  else "".

(** The two queries of one window: Deposited first, then Redeemed. *)
Definition windowQueries (E : Env) (contract : ContractConfig) (w : Z * Z)
  : list LogFilter :=
  [ {| f_address := c_address contract; fromBlock := fst w; toBlock := snd w;
       f_topics := [topicOf E depositedPrototype] |};
    {| f_address := c_address contract; fromBlock := fst w; toBlock := snd w;
       f_topics := [topicOf E redeemedPrototype] |} ].

(** Whether connecting to a network succeeds: the URL is not blank and the
    endpoint answers [getChainId]. *)
Definition connectable (E : Env) (config : BlockchainConfig) : bool :=
  negb (negb (Js.truthyString (wssUrl config))
        || String.eqb (Js.trim (wssUrl config)) "")
  && match getChainId (WebsocketProvider E (wssUrl config)) with
     | inr _ => true
     | inl _ => false
     end.

(** The connection map after trying one more network. *)
Definition connectStep (E : Env) (connections : gmap string Web3)
    (config : BlockchainConfig) : gmap string Web3 :=
  if connectable E config
  then <[cfg_name config := WebsocketProvider E (wssUrl config)]> connections
  else connections.

(** The subscription map after trying one more network, when the log
    subscription is opened as part of connecting. *)
Definition subscribeStep (E : Env) (subs : gmap string Subscription)
    (config : BlockchainConfig) : gmap string Subscription :=
  if connectable E config then
    match subscribe (WebsocketProvider E (wssUrl config))
            (map c_address (contracts config)) with
    | inr sub => <[cfg_name config +:+ "-logs" := sub]> subs
    | inl _ => subs
    end
  else subs.

(** The [connect] listeners after trying one more network. *)
Definition listenStep (E : Env) (ls : list (string * list ContractConfig))
    (config : BlockchainConfig) : list (string * list ContractConfig) :=
  if connectable E config && provider (WebsocketProvider E (wssUrl config))
  then ls ++ [(cfg_name config, contracts config)]
  else ls.

(** The processor and the ABI layout of an event kind. *)
Definition processorOf (E : Env) (kind : StockManager.EventType)
  : string -> ContractConfig -> option RawLog -> Web3
    -> M StockManager.StockManagerEvent unit :=
  match kind with
  | StockManager.Deposited => StockManager.processDepositedEvent E
  | StockManager.Redeemed => StockManager.processRedeemedEvent E
  end.

Definition inputsOf (kind : StockManager.EventType) : list AbiInput :=
  match kind with
  | StockManager.Deposited => StockManager.depositedInputs
  | StockManager.Redeemed => StockManager.redeemedInputs
  end.

(** The decoder's answer for a log, as the stock-manager processors ask. *)
Definition decoded (E : Env) (kind : StockManager.EventType) (l : RawLog)
  : Exn + Abi.Decoded :=
  Abi.decodeLog E (inputsOf kind) (data l)
    [StockManager.topic l 1; StockManager.topic l 2; StockManager.topic l 3].

(** The comparison of [topics[0]] with the two signature hashes selects
    the event kind. *)
Definition selects (E : Env) (t0 : option string) (kind : StockManager.EventType)
  : Prop :=
  match kind with
  | StockManager.Deposited =>
      Js.strictEq t0 (sha3 E depositedPrototype) = true
  | StockManager.Redeemed =>
      Js.strictEq t0 (sha3 E depositedPrototype) = false /\
      Js.strictEq t0 (sha3 E redeemedPrototype) = true
  end.

(** The log comes from a configured contract of a connected network. *)
Definition routed {R : Type} (chainName : string) (contracts : list ContractConfig)
    (l : RawLog) (contract : ContractConfig) (web3 : Web3) (s : State R) : Prop :=
  Js.truthyOptString (Js.toLowerCase <$> log_address l) = true /\
  List.find (fun c => Js.strictEq (Some (Js.toLowerCase (c_address c)))
                        (Js.toLowerCase <$> log_address l)) contracts
    = Some contract /\
  web3Connections s !! chainName = Some web3.

(** The state in which a stock-manager processor reaches the store call:
    the decode is traced and the block is dated. *)
Definition dated (E : Env) (kind : StockManager.EventType) (l : RawLog)
    (web3 : Web3) (s : State StockManager.StockManagerEvent)
  : State StockManager.StockManagerEvent :=
  exec (StockManager.getBlockDateFromTimestamp E web3 (blockNumber l))
    (exec (emit (EDecodeLog (inputsOf kind) (data l)
                   [StockManager.topic l 1; StockManager.topic l 2;
                    StockManager.topic l 3])) s).

(** A decoded log that passes the check of the decoded fields. *)
Definition wellDecoded (d : Abi.Decoded) : Prop :=
  Js.truthy (Abi.get d "user") = true /\
  Js.truthy (Abi.get d "assetToken") = true /\
  Js.truthy (Abi.get d "stablecoin") = true /\
  Js.isUndefined (Abi.get d "amount") = false /\
  Js.isUndefined (Abi.get d "tokenAmount") = false /\
  Js.isUndefined (Abi.get d "fee") = false.

(** A log that the stock-manager pipeline accepts, whatever the state of the
    service: it carries the address of a configured contract, its first
    topic is the hash of one of the two prototypes, it passes the guard of
    the processor of that kind and it decodes to complete fields.  Every
    other log is dropped. *)
Definition acceptable (E : Env) (contracts : list ContractConfig) (l : RawLog)
  : Prop :=
  exists contract ts kind d,
    Js.truthyOptString (Js.toLowerCase <$> log_address l) = true /\
    List.find (fun c => Js.strictEq (Some (Js.toLowerCase (c_address c)))
                          (Js.toLowerCase <$> log_address l)) contracts
      = Some contract /\
    topics l = Some ts /\
    selects E (ts !! 0%nat) kind /\
    StockManager.invalidLog (Some l) = false /\
    decoded E kind l = inr d /\
    wellDecoded d.

(** The [eventData] object that the stock-manager processors build from a
    decoded log and the date and timestamp strings [dt]. *)
Definition eventDataOf (kind : StockManager.EventType) (chainName : string)
    (contract : ContractConfig) (l : RawLog) (d : Abi.Decoded)
    (dt : string * string) : StockManager.BlockchainEventData :=
  {| StockManager.chainName := chainName;
     StockManager.contractAddress := c_address contract;
     StockManager.eventName := StockManager.showEventType kind;
     StockManager.eventData :=
       {| StockManager.ed_user := Abi.get d "user";
          StockManager.ed_assetToken := Abi.get d "assetToken";
          StockManager.ed_stablecoin := Abi.get d "stablecoin";
          StockManager.ed_amount := VString (Js.str (Abi.get d "amount"));
          StockManager.ed_tokenAmount := VString (Js.str (Abi.get d "tokenAmount"));
          StockManager.ed_fee := VString (Js.str (Abi.get d "fee")) |};
     StockManager.ev_blockNumber := blockNumber l;
     StockManager.txHash := transactionHash l;
     StockManager.ev_timestamp := snd dt;
     StockManager.ev_date := fst dt |}.

(** The row that [storeEventInDatabase] of the stock-manager service hands
    to the repository for a Deposited or Redeemed event. *)
Definition dbEventOf (kind : StockManager.EventType)
    (ev : StockManager.BlockchainEventData) : StockManager.StockManagerEvent :=
  {| StockManager.network := StockManager.chainName ev;
     StockManager.event_type := Js.toLowerCase (StockManager.eventName ev);
     StockManager.wallet_address := StockManager.ed_user (StockManager.eventData ev);
     StockManager.asset_token_address :=
       StockManager.ed_assetToken (StockManager.eventData ev);
     StockManager.stablecoin_address :=
       StockManager.ed_stablecoin (StockManager.eventData ev);
     StockManager.fee := StockManager.ed_fee (StockManager.eventData ev);
     StockManager.block_number :=
       match StockManager.ev_blockNumber ev with
       | Some z => Num z
       | None => NaN
       end;
     StockManager.transaction_hash := StockManager.txHash ev;
     StockManager.timestamp := StockManager.ev_timestamp ev;
     StockManager.date := NewDate (StockManager.ev_date ev);
     StockManager.amount_deposited :=
       match kind with
       | StockManager.Deposited => StockManager.ed_amount (StockManager.eventData ev)
       | StockManager.Redeemed => VString "0"
       end;
     StockManager.tokens_minted :=
       match kind with
       | StockManager.Deposited =>
           StockManager.ed_tokenAmount (StockManager.eventData ev)
       | StockManager.Redeemed => VString "0"
       end;
     StockManager.tokens_redeemed :=
       match kind with
       | StockManager.Deposited => VString "0"
       | StockManager.Redeemed =>
           StockManager.ed_tokenAmount (StockManager.eventData ev)
       end;
     StockManager.amount_returned :=
       match kind with
       | StockManager.Deposited => VString "0"
       | StockManager.Redeemed => StockManager.ed_amount (StockManager.eventData ev)
       end |}.

(** The rows stored under a transaction hash. *)
Definition storedUnder (h : string) (table : list StockManager.StockManagerEvent)
  : list StockManager.StockManagerEvent :=
  List.filter (fun r => Js.strictEq (StockManager.transaction_hash r) (Some h)) table.

(** The rejection of the trigger-backfill endpoint and the only effects of
    a rejected request. *)
Definition rejection : Exn :=
  BadRequestException "Block count must be between 1 and 50000".

Definition rejectionLines : list (Effect StockManager.StockManagerEvent) :=
  [ ELogger LvlLog "Received request to trigger backfill";
    ELogger LvlError "Error triggering backfill:" ].

(** The effects of a log that reaches the comparison and matches neither
    signature. *)
Definition unknownSignatureLines {R : Type} (t0 : option string) : list (Effect R) :=
  [ ESha3 depositedPrototype; ESha3 redeemedPrototype;
    ELogger LvlDebug ("Unknown event signature: " +:+ Js.show t0) ].

(** An endpoint that answers every historical-log query. *)
Definition answers (web3 : Web3) : Prop :=
  forall f, exists l, getPastLogs web3 f = inr l.

(** The [date] and [timestamp] strings for a block when the clock has been
    read [n] times: those of the block header when it has a nonzero
    timestamp that is a valid time, else two readings of the clock. *)
Definition degraded (web3 : Web3) (bn : option Z) : bool :=
  match getBlock web3 bn with
  | inr (Some {| b_timestamp := Some t |}) =>
      (t =? 0) || Date.invalidTime (t * 1000)
  | _ => true
  end.

Definition blockTime (web3 : Web3) (bn : option Z) : Z :=
  match getBlock web3 bn with
  | inr (Some {| b_timestamp := Some t |}) => t
  | _ => 0
  end.

Definition blockDate (E : Env) (web3 : Web3) (bn : option Z) (n : nat)
  : string * string :=
  if degraded web3 bn
  then (Date.format (clock E n), Date.format (clock E (S n)))
  else (Date.format (blockTime web3 bn * 1000), pretty (blockTime web3 bn)).

(** Every reading of the clock is a valid time value. *)
Definition clockValid (E : Env) : Prop :=
  forall n, Date.invalidTime (clock E n) = false.

(** * A small world to run the services in

    Stand-ins for the collaborators: a tagging function in place of
    keccak-256, an ABI coder that knows one payload, and endpoints with
    fixed answers. *)

Module Demo.

Definition tagged (s : string) : option string := Some ("keccak256:" +:+ s).

Definition depositedTopic : string := "keccak256:" +:+ depositedPrototype.

Definition redeemedTopic : string := "keccak256:" +:+ redeemedPrototype.

Definition decodeTopic (ty : string) (t : option string) : Exn + Value :=
  match t with
  | Some x => inr (VString x)
  | None => inl (Error "invalid topic")
  end.

Definition decodePayload (tys : list string) (d : string) : Exn + list Value :=
  if String.eqb d "0x01" then inr [VBigInt 100; VBigInt 200; VBigInt 3]
  else inl (Error "invalid data").

Definition vault : ContractConfig :=
  {| c_address := "0xVaultAddress"; c_name := "AlloVault" |}.

(** A Deposited log of the vault in block 1500. *)
Definition deposit : RawLog :=
  {| log_address := Some "0xVAULTaddress";
     topics := Some [depositedTopic; "0xUser"; "0xAsset"; "0xStable"];
     data := Some "0x01";
     blockNumber := Some 1500;
     transactionHash := Some "0xabc" |}.

(** A Redeemed log of the vault in block 2100. *)
Definition redemption : RawLog :=
  {| log_address := Some "0xvaultaddress";
     topics := Some [redeemedTopic; "0xUser"; "0xAsset"; "0xStable"];
     data := Some "0x01";
     blockNumber := Some 2100;
     transactionHash := Some "0xdef" |}.

(** A log of the vault with another event signature. *)
Definition transfer : RawLog :=
  {| log_address := Some "0xVaultAddress";
     topics := Some ["keccak256:Transfer(address,address,uint256)";
                     "0xFrom"; "0xTo"];
     data := Some "0x01";
     blockNumber := Some 1600;
     transactionHash := Some "0x123" |}.

(** A log with the Deposited signature and a single indexed argument. *)
Definition shortDeposit : RawLog :=
  {| log_address := Some "0xVaultAddress";
     topics := Some [depositedTopic; "0xUser"];
     data := Some "0x01";
     blockNumber := Some 1700;
     transactionHash := Some "0x456" |}.

Definition inWindow (f : LogFilter) (l : RawLog) (t : string) : bool :=
  match blockNumber l with
  | Some b => (fromBlock f <=? b) && (b <=? toBlock f)
              && bool_decide (f_topics f = [t])
  | None => false
  end.

Definition node : Web3 :=
  {| provider := true;
     getChainId := inr 56;
     getBlockNumber := inr 82500;
     getBlock := fun _ => inr (Some {| b_timestamp := Some 1700000000 |});
     getPastLogs := fun f =>
       inr ((if inWindow f deposit depositedTopic then [deposit] else []) ++
            (if inWindow f redemption redeemedTopic then [redemption] else []));
     subscribe := fun a => inr {| sub_address := a |} |}.

(** An endpoint that serves no block headers. *)
Definition pruned : Web3 :=
  {| provider := true;
     getChainId := inr 1;
     getBlockNumber := inr 2500;
     getBlock := fun _ => inl (Error "header not found");
     getPastLogs := fun _ => inr [];
     subscribe := fun a => inr {| sub_address := a |} |}.

(** An endpoint of a longer chain, with no logs of the vault. *)
Definition archive : Web3 :=
  {| provider := true;
     getChainId := inr 137;
     getBlockNumber := inr 182500;
     getBlock := fun _ => inr (Some {| b_timestamp := Some 1700000000 |});
     getPastLogs := fun _ => inr [];
     subscribe := fun a => inr {| sub_address := a |} |}.

(** An endpoint that cannot be reached. *)
Definition down : Web3 :=
  {| provider := true;
     getChainId := inl (Error "connect ECONNREFUSED");
     getBlockNumber := inl (Error "connection not open");
     getBlock := fun _ => inl (Error "connection not open");
     getPastLogs := fun _ => inl (Error "connection not open");
     subscribe := fun _ => inl (Error "connection not open") |}.

Definition env : Env :=
  {| sha3 := tagged;
     decodeParameter := decodeTopic;
     decodeParameters := decodePayload;
     WebsocketProvider := fun url =>
       if String.eqb url "wss://down.example" then down
       else if String.eqb url "wss://pruned.example" then pruned
       else node;
     clock := fun n => 1700000000000 + Z.of_nat n mod 86400000;
     undefinedKeyMatches := true |}.

(** What the ABI coder returns for the two logs above. *)
Definition decodedDeposit : Abi.Decoded :=
  [ ("user", VString "0xUser"); ("assetToken", VString "0xAsset");
    ("stablecoin", VString "0xStable"); ("amount", VBigInt 100);
    ("tokenAmount", VBigInt 200); ("fee", VBigInt 3) ].

Definition decodedRedemption : Abi.Decoded :=
  [ ("user", VString "0xUser"); ("assetToken", VString "0xAsset");
    ("stablecoin", VString "0xStable"); ("tokenAmount", VBigInt 100);
    ("amount", VBigInt 200); ("fee", VBigInt 3) ].

Definition bsc : BlockchainConfig :=
  {| cfg_name := "bsc"; wssUrl := "wss://bsc.example"; chainId := 56;
     contracts := [vault] |}.

Definition ethereum : BlockchainConfig :=
  {| cfg_name := "ethereum"; wssUrl := "wss://down.example"; chainId := 1;
     contracts := [vault] |}.

Definition base : BlockchainConfig :=
  {| cfg_name := "base"; wssUrl := "wss://base.example"; chainId := 8453;
     contracts := [vault] |}.

Definition polygon : BlockchainConfig :=
  {| cfg_name := "polygon"; wssUrl := "wss://polygon.example"; chainId := 137;
     contracts := [vault] |}.

(** A service after start-up: connected to [bsc] only, nothing stored. *)
Definition started {R : Type} : State R :=
  {| web3Connections := {[ "bsc" := node ]};
     subscriptions := ∅;
     connected := true;
     backfillInterval := Some 0%nat;
     blockchainConfigs := [bsc; ethereum];
     connectListeners := [("bsc", [vault])];
     rows := [];
     dbOnline := true;
     ticks := 0%nat;
     timerSeq := 1%nat;
     trace := [] |}.

Definition running : State StockManager.StockManagerEvent := started.

(** Closing calls of which the unsubscribe is rejected. *)
Definition closing : Closing :=
  {| unsubscribe := fun _ => inl (Error "connection not open");
     providerDisconnect := fun _ => inr tt |}.

Definition runningEvents : State Events.Event := started.

End Demo.

(** The queries of one reconciliation sweep over a network whose current
    block is [currentBlock]: for each contract in turn, the windows of
    [[max 0 (currentBlock - blockCount), currentBlock]]. *)
Definition sweepQueries (E : Env) (config : BlockchainConfig) (currentBlock : Z)
    (blockCount : number) : list LogFilter :=
  concat (map (fun contract =>
                 concat (map (windowQueries E contract)
                           (windowsOf
                              (Js.max (Num 0) (Js.sub (Num currentBlock) blockCount))
                              (Num currentBlock))))
            (contracts config)).

(** The queries of [backfillLastBlocks] given the connections of the
    service: none for a network that is not connected or whose block number
    cannot be read. *)
Definition backfillQueries (E : Env) (connections : gmap string Web3)
    (blockCount : number) (config : BlockchainConfig) : list LogFilter :=
  match connections !! cfg_name config with
  | Some web3 =>
      match getBlockNumber web3 with
      | inr c => sweepQueries E config c blockCount
      | inl _ => []
      end
  | None => []
  end.

(** * Runs of the stock-manager service

    The calls that reach the service object: its public methods, the
    listeners it registers with the provider and the subscription, the
    hourly timer, the two endpoints of the controller, and the database
    becoming unreachable or reachable again. *)

Inductive Call : Type :=
| CallConnectToMultipleChains (configs : list BlockchainConfig)
| CallProviderConnect (chainName : string) (contracts : list ContractConfig)
| CallSubscriptionData (chainName : string) (contracts : list ContractConfig)
    (log : option RawLog)
| CallStorePreviousEvents (configs : list BlockchainConfig)
    (fromBlock : option number)
| CallTriggerManualBackfill (blockCount : number)
| CallHourlyBackfill
| CallStopHourlyBackfill
| CallDisconnect
| CallOnModuleDestroy
| CallTriggerBackfillRequest (blockCount : option string)
| CallStorePreviousEventsRequest (body : Web3Controller.StorePreviousEventsDto)
    (fromBlock : option string)
| CallDatabase (online : bool).

Definition perform (E : Env) (C : Closing) (configured : list BlockchainConfig)
    (c : Call) : M StockManager.StockManagerEvent unit :=
  match c with
  | CallConnectToMultipleChains configs =>
      StockManager.connectToMultipleChains E configs
  | CallProviderConnect chainName contracts =>
      StockManager.onProviderConnect chainName contracts
  | CallSubscriptionData chainName contracts log =>
      StockManager.onSubscriptionData E chainName contracts log
  | CallStorePreviousEvents configs fromBlock =>
      StockManager.storePreviousEvents E configs fromBlock
  | CallTriggerManualBackfill blockCount =>
      StockManager.triggerManualBackfill E blockCount
  | CallHourlyBackfill => StockManager.performHourlyBackfill E
  | CallStopHourlyBackfill => StockManager.stopHourlyBackfill
  | CallDisconnect => StockManager.disconnect C
  | CallOnModuleDestroy => StockManager.onModuleDestroy C
  | CallTriggerBackfillRequest blockCount =>
      Web3Controller.triggerBackfill E blockCount ;; ret tt
  | CallStorePreviousEventsRequest body fromBlock =>
      Web3Controller.storePreviousEvents E configured body fromBlock ;; ret tt
  | CallDatabase online => setDbOnline online
  end.

(** The state after a sequence of calls, each one started in the state the
    previous one left, whether it returned or threw. *)
Definition run (E : Env) (C : Closing) (configured : list BlockchainConfig)
    (calls : list Call) (s : State StockManager.StockManagerEvent)
  : State StockManager.StockManagerEvent :=
  foldl (fun s c => exec (perform E C configured c) s) s calls.

(** The table and the availability of the database are unchanged. *)
Definition sameStore {R : Type} (s s' : State R) : Prop :=
  rows s' = rows s /\ dbOnline s' = dbOnline s.

(** The transaction hashes of the stored rows. *)
Definition storedHashes (table : list StockManager.StockManagerEvent)
  : list string :=
  omap StockManager.transaction_hash table.

Definition uniqueHashes (s s' : State StockManager.StockManagerEvent) : Prop :=
  NoDup (storedHashes (rows s)) -> NoDup (storedHashes (rows s')).

(** Rows are only appended, and the appended rows satisfy [P]. *)
Definition appends {R : Type} (P : R -> Prop) (s s' : State R) : Prop :=
  exists added, rows s' = rows s ++ added /\ Forall P added.

Definition isString (v : Value) : bool :=
  match v with
  | VString _ => true
  | _ => false
  end.

Definition isZeroString (v : Value) : bool :=
  match v with
  | VString x => String.eqb x "0"
  | _ => false
  end.

(** A complete row: a transaction hash, a block number, the three
    addresses, every amount a string, and the two columns of the other
    event kind zero. *)
Definition validRow (r : StockManager.StockManagerEvent) : bool :=
  Js.truthyOptString (StockManager.transaction_hash r)
  && Js.truthyNumber (StockManager.block_number r)
  && Js.truthy (StockManager.wallet_address r)
  && Js.truthy (StockManager.asset_token_address r)
  && Js.truthy (StockManager.stablecoin_address r)
  && isString (StockManager.amount_deposited r)
  && isString (StockManager.tokens_minted r)
  && isString (StockManager.tokens_redeemed r)
  && isString (StockManager.amount_returned r)
  && isString (StockManager.fee r)
  && ((String.eqb (StockManager.event_type r) "deposited"
       && isZeroString (StockManager.tokens_redeemed r)
       && isZeroString (StockManager.amount_returned r))
      || (String.eqb (StockManager.event_type r) "redeemed"
          && isZeroString (StockManager.amount_deposited r)
          && isZeroString (StockManager.tokens_minted r))).

Definition complete (r : StockManager.StockManagerEvent) : Prop :=
  validRow r = true.

(** While the database is unreachable the table does not change. *)
Definition offline {R : Type} (s s' : State R) : Prop :=
  dbOnline s = false -> rows s' = rows s /\ dbOnline s' = false.

(** The values a computation can return. *)
Definition returns {R A : Type} (m : M R A) (a : A) : Prop :=
  exists s, result m s = inr a.

(** The two calls that are HTTP requests to the controller. *)
Definition isRequest (c : Call) : bool :=
  match c with
  | CallTriggerBackfillRequest _ | CallStorePreviousEventsRequest _ _ => true
  | _ => false
  end.

(** ** Reconciliation sweeps *)

(** Every log that the endpoint returns for any historical query is found
    in the table by its transaction hash. *)
Definition covered (E : Env) (web3 : Web3)
    (table : list StockManager.StockManagerEvent) : Prop :=
  forall f logs l,
    getPastLogs web3 f = inr logs -> l ∈ logs ->
    exists r, findOne E StockManager.transaction_hash (transactionHash l) table
              = Some r.

(** The effects of a sweep that skips every log it finds: no decode, no
    block lookup, no write. *)
Definition skippingEffect {R : Type} (e : Effect R) : bool :=
  match e with
  | EGetBlockNumber | ESha3 _ | EGetPastLogs _ | EFindByTxHash _
  | ELogger _ _ => true
  | _ => false
  end.

Definition skips (E : Env) (web3 : Web3)
    (s s' : State StockManager.StockManagerEvent) : Prop :=
  covered E web3 (rows s) -> dbOnline s = true ->
  sameService s s' /\ rows s' = rows s /\ grows skippingEffect s s'.

(** Whether the endpoint answers a historical query. *)
Definition answered (web3 : Web3) (q : LogFilter) : bool :=
  match getPastLogs web3 q with
  | inr _ => true
  | inl _ => false
  end.

(** The queries of a plan that are issued when the plan is abandoned at the
    first query that fails. *)
Fixpoint untilFailure (web3 : Web3) (plan : list LogFilter) : list LogFilter :=
  match plan with
  | [] => []
  | q :: rest => q :: (if answered web3 q then untilFailure web3 rest else [])
  end.

(** The queries that a sweep of a network issues: each contract in turn,
    given up at its first query that fails. *)
Definition sweepIssued (E : Env) (web3 : Web3) (config : BlockchainConfig)
    (currentBlock : Z) (blockCount : number) : list LogFilter :=
  concat (map (fun contract =>
                 untilFailure web3
                   (concat (map (windowQueries E contract)
                              (windowsOf
                                 (Js.max (Num 0) (Js.sub (Num currentBlock) blockCount))
                                 (Num currentBlock)))))
            (contracts config)).

(** The queries that [backfillLastBlocks] issues given the connections of
    the service. *)
Definition backfillIssued (E : Env) (connections : gmap string Web3)
    (blockCount : number) (config : BlockchainConfig) : list LogFilter :=
  match connections !! cfg_name config with
  | Some web3 =>
      match getBlockNumber web3 with
      | inr c => sweepIssued E web3 config c blockCount
      | inl _ => []
      end
  | None => []
  end.

(** ** Timers *)

(** The interval timers that are set and not cleared, oldest first. *)
Definition liveIntervals {R : Type} (t : list (Effect R)) : list nat :=
  foldl (fun live e =>
           match e with
           | ESetInterval _ h => live ++ [h]
           | EClearInterval h => List.filter (fun x => negb (Nat.eqb x h)) live
           | _ => live
           end) [] t.

Definition timerEffect {R : Type} (e : Effect R) : bool :=
  match e with
  | ESetInterval _ _ | EClearInterval _ => true
  | _ => false
  end.

(** Neither the recorded timer handle nor the set of live timers changes. *)
Definition sameTimers {R : Type} (s s' : State R) : Prop :=
  backfillInterval s' = backfillInterval s /\
  grows (fun e => negb (timerEffect e)) s s'.

(** The live interval timers are exactly the one recorded in
    [backfillInterval], if any. *)
Definition timersRecorded {R : Type} (s : State R) : Prop :=
  liveIntervals (trace s) = option_list (backfillInterval s).

Definition recording {R : Type} (s s' : State R) : Prop :=
  timersRecorded s -> timersRecorded s'.

(** * The JavaScript helpers on examples *)

Example parseInt_decimal : Js.parseInt "10000" = Num 10000.
Proof. reflexivity. Qed.

Example parseInt_not_a_number : Js.parseInt "abc" = NaN.
Proof. reflexivity. Qed.

Example parseInt_hexadecimal : Js.parseInt " -0x1F rest" = Num (-31).
Proof. reflexivity. Qed.

Example trim_blank : Js.trim "  	 " = "".
Proof. reflexivity. Qed.

Example trim_no_break_space :
  Js.trim (String "194" (String "160" ("wss://node" +:+ String "226"
             (String "128" (String "168" " "))))) = "wss://node".
Proof. reflexivity. Qed.

Example trim_only_unicode_space :
  Js.trim (String "227" (String "128" (String "128" (String "194" (String "160" "")))))
  = "".
Proof. reflexivity. Qed.

Example parseInt_after_no_break_space :
  Js.parseInt (String "194" (String "160" "7")) = Num 7.
Proof. reflexivity. Qed.

Example toLowerCase_address : Js.toLowerCase "0xAbCdEF01" = "0xabcdef01".
Proof. reflexivity. Qed.

Example toISOString_epoch : Date.toISOString 0 = inr "1970-01-01T00:00:00.000Z".
Proof. reflexivity. Qed.

Example toISOString_block_time :
  Date.toISOString (1700000000 * 1000) = inr "2023-11-14T22:13:20.000Z".
Proof. reflexivity. Qed.

Example toISOString_leap_day :
  Date.toISOString 951782400000 = inr "2000-02-29T00:00:00.000Z".
Proof. reflexivity. Qed.

Example toISOString_last_time :
  Date.toISOString Date.maxTime = inr "+275760-09-13T00:00:00.000Z".
Proof. reflexivity. Qed.

Example toISOString_out_of_range :
  Date.toISOString (Date.maxTime + 1) = inl (Error "Invalid time value").
Proof. reflexivity. Qed.

Example windows_empty_range : windows 5 4 = [].
Proof. reflexivity. Qed.

Example windows_single_block : windows 7 7 = [(7, 7)].
Proof. reflexivity. Qed.

(** * The window loop *)

Lemma windows_step block toBlock :
  windows block toBlock =
  if decide (block <= toBlock)
  then (block, Z.min (block + batchSize - 1) toBlock) :: windows (block + batchSize) toBlock
  else [].
Proof.
  etransitivity; [apply windows_equation_1|].
  destruct (Z_le_gt_dec block toBlock); simpl; case_decide; try lia; reflexivity.
Qed.


Lemma windows_nth (k : nat) : forall block toBlock,
  windows block toBlock !! k =
  if decide (block + batchSize * Z.of_nat k <= toBlock)
  then Some (block + batchSize * Z.of_nat k,
             Z.min (block + batchSize * Z.of_nat k + batchSize - 1) toBlock)
  else None.
Proof.
  induction k as [|k IH]; intros block toBlock; rewrite windows_step.
  - replace (block + batchSize * Z.of_nat 0) with block by lia.
    case_decide; reflexivity.
  - unfold batchSize in *. case_decide.
    + simpl. rewrite IH. unfold batchSize.
      replace (block + 1000 + 1000 * Z.of_nat k) with (block + 1000 * Z.of_nat (S k)) by lia.
      reflexivity.
    + simpl. case_decide; [lia | reflexivity].
Qed.

Lemma windows_flatten block toBlock :
  block <= toBlock ->
  concat (map blocksOf (windows block toBlock)) = seqZ block (toBlock - block + 1).
Proof.
  intros Hle.
  remember (Z.to_nat (toBlock - block)) as n eqn:Hn.
  revert block Hle Hn.
  induction (lt_wf n) as [n _ IH]. intros block Hle Hn.
  rewrite windows_step. case_decide; [|lia].
  simpl. unfold blocksOf at 1. simpl. unfold batchSize in *.
  destruct (decide (block + 1000 <= toBlock)) as [Hmore|Hlast].
  - assert (Hlt : (Z.to_nat (toBlock - (block + 1000)) < n)%nat) by (subst n; lia).
    rewrite (IH _ Hlt (block + 1000) Hmore eq_refl).
    rewrite Z.min_l by lia.
    replace (toBlock - block + 1) with (1000 + (toBlock - (block + 1000) + 1)) by lia.
    rewrite (seqZ_app block 1000 (toBlock - (block + 1000) + 1)) by lia.
    f_equal. f_equal. lia.
  - rewrite (windows_step (block + 1000)). case_decide; [lia|].
    simpl. rewrite app_nil_r. rewrite Z.min_r by lia. reflexivity.
Qed.

(** * Reasoning about computations *)

Section Logic.

Context {R : Type}.

Implicit Types s : State R.


Lemma total_ret {A} (a : A) : total (ret a : M R A).
Proof. intros s. now exists a. Qed.

Lemma total_gets {A} (f : State R -> A) : total (gets f).
Proof. intros s. now exists (f s). Qed.

Lemma total_modify (f : State R -> State R) : total (modify f).
Proof. intros s. now exists tt. Qed.

Lemma total_emit (e : Effect R) : total (emit e).
Proof. apply total_modify. Qed.

Lemma total_logger lvl msg : total (logger lvl msg : M R unit).
Proof. apply total_emit. Qed.

Lemma total_bind {A B} (m : M R A) (k : A -> M R B) :
  total m -> (forall a, total (k a)) -> total (bind m k).
Proof.
  intros Hm Hk s. unfold result, bind.
  destruct (Hm s) as [a Ha]. unfold result in Ha.
  destruct (m s) as [[e|a'] s']; simpl in Ha; [discriminate|].
  apply Hk.
Qed.

Lemma total_tryCatch {A} (m : M R A) (h : Exn -> M R A) :
  (forall e, total (h e)) -> total (tryCatch m h).
Proof.
  intros Hh s. unfold result, tryCatch.
  destruct (m s) as [[e|a] s']; [apply Hh | now exists a].
Qed.

Lemma total_forOf {A} (l : list A) (body : A -> M R unit) :
  (forall x, total (body x)) -> total (forOf l body).
Proof.
  intros Hb. induction l as [|x l IH]; simpl.
  - apply total_ret.
  - apply total_bind; auto.
Qed.

Lemma run_eta {A} (m : M R A) s : m s = (result m s, exec m s).
Proof. unfold result, exec. now destruct (m s). Qed.

Lemma run_unit (m : M R unit) s : total m -> m s = (inr tt, exec m s).
Proof.
  intros H. rewrite (run_eta m s) at 1. destruct (H s) as [[] Hr]. now rewrite Hr.
Qed.

Lemma bind_ok {A B} (m : M R A) (k : A -> M R B) s a :
  result m s = inr a -> bind m k s = k a (exec m s).
Proof.
  unfold result, exec, bind. destruct (m s) as [[e|a'] s']; simpl; congruence.
Qed.

Lemma bind_throws {A B} (m : M R A) (k : A -> M R B) s e :
  result m s = inl e -> bind m k s = (inl e, exec m s).
Proof.
  unfold result, exec, bind. destruct (m s) as [[e'|a'] s']; simpl; congruence.
Qed.

Lemma tryCatch_total {A} (m : M R A) (h : Exn -> M R A) s :
  total m -> tryCatch m h s = m s.
Proof.
  intros Hm. unfold tryCatch. destruct (Hm s) as [a Ha]. unfold result in Ha.
  destruct (m s) as [[e|a'] s']; simpl in Ha; [discriminate | reflexivity].
Qed.

Section Keeps.

Variable I : State R -> State R -> Prop.
Hypothesis I_refl : forall s, I s s.
Hypothesis I_trans : forall a b c, I a b -> I b c -> I a c.

Lemma keeps_ret {A} (a : A) : keeps I (ret a : M R A).
Proof. intros s. apply I_refl. Qed.

Lemma keeps_throw {A} e : keeps I (throw e : M R A).
Proof. intros s. apply I_refl. Qed.

Lemma keeps_gets {A} (f : State R -> A) : keeps I (gets f).
Proof. intros s. apply I_refl. Qed.

Lemma keeps_settle {A} (r : Exn + A) : keeps I (fun s => (r, s) : (Exn + A) * State R).
Proof. intros s. apply I_refl. Qed.

Lemma keeps_bind {A B} (m : M R A) (k : A -> M R B) :
  keeps I m -> (forall a, keeps I (k a)) -> keeps I (bind m k).
Proof.
  intros Hm Hk s. unfold exec, bind. specialize (Hm s). unfold exec in Hm.
  destruct (m s) as [[e|a] s']; simpl in *; [assumption|].
  eapply I_trans; [eassumption | apply Hk].
Qed.

Lemma keeps_tryCatch {A} (m : M R A) (h : Exn -> M R A) :
  keeps I m -> (forall e, keeps I (h e)) -> keeps I (tryCatch m h).
Proof.
  intros Hm Hh s. unfold exec, tryCatch. specialize (Hm s). unfold exec in Hm.
  destruct (m s) as [[e|a] s']; simpl in *; [|assumption].
  eapply I_trans; [eassumption | apply Hh].
Qed.

Lemma keeps_forOf {A} (l : list A) (body : A -> M R unit) :
  (forall x, keeps I (body x)) -> keeps I (forOf l body).
Proof.
  intros Hb. induction l as [|x l IH]; simpl.
  - apply keeps_ret.
  - apply keeps_bind; auto.
Qed.


End Keeps.

End Logic.

(** * Frames: what a computation leaves alone *)

Section Frames.

Context {R : Type}.

Implicit Types s a b c : State R.

Lemma grows_refl (K : Effect R -> bool) s : grows K s s.
Proof. exists []. split; [now rewrite app_nil_r | constructor]. Qed.

Lemma grows_trans (K : Effect R -> bool) a b c : grows K a b -> grows K b c -> grows K a c.
Proof.
  intros (d1 & H1 & F1) (d2 & H2 & F2). exists (d1 ++ d2). split.
  - rewrite H2, H1. now rewrite app_assoc.
  - apply Forall_app. now split.
Qed.

Lemma grows_mono (K K' : Effect R -> bool) s s' :
  (forall e, K e = true -> K' e = true) -> grows K s s' -> grows K' s s'.
Proof.
  intros HK (d & Hd & Fd). exists d. split; [exact Hd|].
  eapply Forall_impl; [exact Fd | exact HK].
Qed.

Lemma grows_emit (K : Effect R -> bool) (e : Effect R) : K e = true -> keeps (grows K) (emit e).
Proof. intros He s. exists [e]. split; [reflexivity | constructor; [exact He | constructor]]. Qed.

Lemma grows_observe {X} (K : Effect R -> bool) (f : Effect R -> option X) s s' :
  (forall e, K e = true -> f e = None) ->
  grows K s s' -> omap f (trace s') = omap f (trace s).
Proof.
  intros Hf (d & Hd & Fd). rewrite Hd, omap_app.
  assert (Hnil : omap f d = []).
  { clear Hd. induction Fd as [|e d He _ IH]; [reflexivity|]. cbn. rewrite (Hf e He). exact IH. }
  rewrite Hnil. apply app_nil_r.
Qed.

Lemma storing_processing {A} (m : M R A) :
  keeps (grows storingEffect) m -> keeps (grows processingEffect) m.
Proof.
  intros H s. eapply grows_mono; [|apply H]. intros e. destruct e; simpl; congruence.
Qed.

Lemma sameService_refl s : sameService s s.
Proof. repeat split. Qed.

Lemma sameService_trans a b c : sameService a b -> sameService b c -> sameService a c.
Proof. unfold sameService. intuition congruence. Qed.

Lemma sameRows_refl s : sameRows s s.
Proof. reflexivity. Qed.

Lemma sameRows_trans a b c : sameRows a b -> sameRows b c -> sameRows a c.
Proof. unfold sameRows. congruence. Qed.

End Frames.

Create HintDb frames.

#[local] Hint Resolve grows_refl grows_trans sameService_refl sameService_trans
  sameRows_refl sameRows_trans storing_processing : frames.

Ltac keeps_leaf :=
  match goal with
  | |- keeps (grows _) (emit _) => apply grows_emit; reflexivity
  | |- keeps (grows _) _ =>
      intros ?; exists []; split; [symmetry; apply app_nil_r | constructor]
  | |- keeps sameService _ => intros ?; repeat split
  | |- keeps sameRows _ => intros ?; reflexivity
  end.

Ltac keeps_step :=
  match goal with
  | |- keeps _ (bind _ _) => apply keeps_bind; [eauto with frames .. | idtac | intros]
  | |- keeps _ (tryCatch _ _) => apply keeps_tryCatch; [eauto with frames .. | idtac | intros]
  | |- keeps _ (forOf _ _) => apply keeps_forOf; [eauto with frames .. | intros]
  | |- keeps _ (await _ _) => unfold await
  | |- keeps _ (logger _ _) => unfold logger
  | |- keeps _ (if ?b then _ else _) => destruct b
  | |- keeps _ (match ?x with _ => _ end) => destruct x
  | |- keeps _ (let _ := _ in _) => cbv zeta
  | |- keeps _ _ => solve [eauto with frames]
  | |- keeps _ _ => keeps_leaf
  end.

Ltac keeps_auto := repeat keeps_step.

(** * The stock-manager service *)

Section StockManagerFrames.

Variable E : Env.

Import StockManager.

Lemma findByTxHash_grows h : keeps (grows storingEffect) (findByTxHash E h).
Proof. unfold findByTxHash. keeps_auto. Qed.

Lemma findByTxHash_service h : keeps sameService (findByTxHash E h).
Proof. unfold findByTxHash. keeps_auto. Qed.

Lemma findByTxHash_rows h : keeps sameRows (findByTxHash E h).
Proof. unfold findByTxHash. keeps_auto. Qed.

Lemma create_grows r : keeps (grows storingEffect) (create r).
Proof. unfold create. keeps_auto. Qed.

Lemma create_service r : keeps sameService (create r).
Proof. unfold create. keeps_auto. Qed.

Lemma nowISOString_grows : keeps (grows storingEffect) (nowISOString E).
Proof. unfold nowISOString. keeps_auto. Qed.

Lemma nowISOString_service : keeps sameService (nowISOString E).
Proof. unfold nowISOString. keeps_auto. Qed.

Lemma nowISOString_rows : keeps sameRows (nowISOString E).
Proof. unfold nowISOString. keeps_auto. Qed.

#[local] Hint Resolve findByTxHash_grows findByTxHash_service findByTxHash_rows
  create_grows create_service nowISOString_grows nowISOString_service
  nowISOString_rows : frames.

Lemma getBlockDateFromTimestamp_grows web3 bn :
  keeps (grows storingEffect) (getBlockDateFromTimestamp E web3 bn).
Proof. unfold getBlockDateFromTimestamp. keeps_auto. Qed.

Lemma getBlockDateFromTimestamp_service web3 bn :
  keeps sameService (getBlockDateFromTimestamp E web3 bn).
Proof. unfold getBlockDateFromTimestamp. keeps_auto. Qed.

Lemma getBlockDateFromTimestamp_rows web3 bn :
  keeps sameRows (getBlockDateFromTimestamp E web3 bn).
Proof. unfold getBlockDateFromTimestamp. keeps_auto. Qed.

Lemma storeEventInDatabase_grows ev cn :
  keeps (grows storingEffect) (storeEventInDatabase E ev cn).
Proof. unfold storeEventInDatabase. keeps_auto. Qed.

Lemma storeEventInDatabase_service ev cn :
  keeps sameService (storeEventInDatabase E ev cn).
Proof. unfold storeEventInDatabase. keeps_auto. Qed.

#[local] Hint Resolve getBlockDateFromTimestamp_grows
  getBlockDateFromTimestamp_service getBlockDateFromTimestamp_rows
  storeEventInDatabase_grows storeEventInDatabase_service : frames.

Lemma processDepositedEvent_grows cn c log web3 :
  keeps (grows processingEffect) (processDepositedEvent E cn c log web3).
Proof. unfold processDepositedEvent, abi_decodeLog, toStringOf. keeps_auto. Qed.

Lemma processDepositedEvent_service cn c log web3 :
  keeps sameService (processDepositedEvent E cn c log web3).
Proof. unfold processDepositedEvent, abi_decodeLog, toStringOf. keeps_auto. Qed.

Lemma processRedeemedEvent_grows cn c log web3 :
  keeps (grows processingEffect) (processRedeemedEvent E cn c log web3).
Proof. unfold processRedeemedEvent, abi_decodeLog, toStringOf. keeps_auto. Qed.

Lemma processRedeemedEvent_service cn c log web3 :
  keeps sameService (processRedeemedEvent E cn c log web3).
Proof. unfold processRedeemedEvent, abi_decodeLog, toStringOf. keeps_auto. Qed.

#[local] Hint Resolve processDepositedEvent_grows processDepositedEvent_service
  processRedeemedEvent_grows processRedeemedEvent_service : frames.

Lemma processEventWithDeduplication_grows cn c log web3 ty :
  keeps (grows processingEffect) (processEventWithDeduplication E cn c log web3 ty).
Proof. unfold processEventWithDeduplication. keeps_auto. Qed.

Lemma processEventWithDeduplication_service cn c log web3 ty :
  keeps sameService (processEventWithDeduplication E cn c log web3 ty).
Proof. unfold processEventWithDeduplication. keeps_auto. Qed.

Lemma processDepositedEvent_total cn c log web3 :
  total (processDepositedEvent E cn c log web3).
Proof. apply total_tryCatch. intros e. apply total_logger. Qed.

Lemma processRedeemedEvent_total cn c log web3 :
  total (processRedeemedEvent E cn c log web3).
Proof. apply total_tryCatch. intros e. apply total_logger. Qed.

Lemma processEventWithDeduplication_total cn c log web3 ty :
  total (processEventWithDeduplication E cn c log web3 ty).
Proof.
  apply total_tryCatch. intros e.
  apply total_bind; [apply total_logger | intros; apply total_ret].
Qed.

End StockManagerFrames.

Section Issues.

Context {R : Type}.

Lemma processing_no_query (e : Effect R) :
  processingEffect e = true -> queryOf e = None.
Proof. destruct e; simpl; congruence. Qed.

Lemma processing_no_sha3 (e : Effect R) :
  processingEffect e = true -> sha3Of e = None.
Proof. destruct e; simpl; congruence. Qed.

Lemma issues_quiet {A} (m : M R A) :
  total m -> keeps (grows processingEffect) m -> issues m [].
Proof.
  intros Ht Hk s. split; [apply Ht|]. rewrite app_nil_r.
  apply (grows_observe processingEffect); [apply processing_no_query | apply Hk].
Qed.

Lemma issues_bind {A B} (m : M R A) (k : A -> M R B) q1 q2 :
  issues m q1 -> (forall a, issues (k a) q2) -> issues (bind m k) (q1 ++ q2).
Proof.
  intros Hm Hk s. destruct (Hm s) as [[a Ha] Hq].
  unfold result, exec. rewrite (bind_ok m k s a Ha).
  destruct (Hk a (exec m s)) as [Hr Hq']. split; [exact Hr|].
  unfold exec in Hq' at 1. rewrite Hq', Hq. now rewrite app_assoc.
Qed.

Lemma issues_forOf {A} (l : list A) (body : A -> M R unit) q :
  (forall x, issues (body x) (q x)) ->
  issues (forOf l body) (concat (map q l)).
Proof.
  intros Hb. induction l as [|x l IH]; simpl.
  - split; [now exists tt | now rewrite app_nil_r].
  - apply issues_bind; auto.
Qed.

Lemma issues_total {A} (m : M R A) q : issues m q -> total m.
Proof. intros H s. apply H. Qed.

Lemma issues_tryCatch {A} (m : M R A) (h : Exn -> M R A) q :
  issues m q -> issues (tryCatch m h) q.
Proof.
  intros Hm s. unfold result, exec.
  rewrite tryCatch_total by (eapply issues_total; exact Hm). apply Hm.
Qed.

End Issues.

Section StockManagerQueries.

Variable E : Env.

Import StockManager.

#[local] Hint Resolve processEventWithDeduplication_grows
  processDepositedEvent_grows processRedeemedEvent_grows : frames.

Lemma pastLogs_issues web3 contract b e p :
  answers web3 ->
  issues (pastLogs E web3 contract b e p)
    [ {| f_address := c_address contract; fromBlock := b; toBlock := e;
         f_topics := [topicOf E p] |} ].
Proof.
  intros Hans s. unfold pastLogs, signatureTopic, utils_sha3, await.
  destruct (Hans {| f_address := c_address contract; fromBlock := b; toBlock := e;
                    f_topics := [topicOf E p] |}) as [l Hl].
  unfold topicOf in *. unfold result, exec, bind, emit, modify, ret. simpl.
  rewrite Hl. simpl. split; [eauto|].
  unfold pastLogQueries. rewrite !omap_app. simpl. now rewrite app_nil_r.
Qed.

Lemma window_issues web3 contract w p1 p2 (k : list RawLog -> list RawLog -> M StockManagerEvent unit) :
  answers web3 ->
  (forall a b, total (k a b)) ->
  (forall a b, keeps (grows processingEffect) (k a b)) ->
  issues (a <- pastLogs E web3 contract (fst w) (snd w) p1 ;;
          b <- pastLogs E web3 contract (fst w) (snd w) p2 ;;
          k a b)
    [ {| f_address := c_address contract; fromBlock := fst w; toBlock := snd w;
         f_topics := [topicOf E p1] |};
      {| f_address := c_address contract; fromBlock := fst w; toBlock := snd w;
         f_topics := [topicOf E p2] |} ].
Proof.
  intros Hans Ht Hk.
  change [ {| f_address := c_address contract; fromBlock := fst w; toBlock := snd w;
              f_topics := [topicOf E p1] |};
           {| f_address := c_address contract; fromBlock := fst w; toBlock := snd w;
              f_topics := [topicOf E p2] |} ]
    with
      ([ {| f_address := c_address contract; fromBlock := fst w; toBlock := snd w;
            f_topics := [topicOf E p1] |} ] ++
       ([ {| f_address := c_address contract; fromBlock := fst w; toBlock := snd w;
             f_topics := [topicOf E p2] |} ] ++ [])).
  apply issues_bind; [now apply pastLogs_issues | intros a].
  apply issues_bind; [now apply pastLogs_issues | intros b].
  apply issues_quiet; auto.
Qed.

Lemma fetchAndStoreContractEventsWithDeduplication_issues web3 cn contract f t :
  answers web3 ->
  issues (fetchAndStoreContractEventsWithDeduplication E web3 cn contract f t)
    (concat (map (windowQueries E contract) (windowsOf f t))).
Proof.
  intros Hans. unfold fetchAndStoreContractEventsWithDeduplication.
  apply issues_tryCatch.
  rewrite <- (app_nil_r (concat _)).
  apply issues_bind.
  - apply issues_forOf. intros w. cbv zeta. unfold windowQueries.
    apply window_issues; [assumption | intros a b | intros a b].
    + repeat first [ apply total_bind; intros | apply total_forOf; intros
                   | apply processEventWithDeduplication_total
                   | apply total_ret | apply total_logger ].
    + keeps_auto.
  - intros _. apply issues_quiet; [apply total_logger | keeps_auto].
Qed.

Lemma fetchAndStoreContractEvents_issues web3 cn contract f t :
  answers web3 ->
  issues (fetchAndStoreContractEvents E web3 cn contract f t)
    (concat (map (windowQueries E contract) (windowsOf f t))).
Proof.
  intros Hans. unfold fetchAndStoreContractEvents.
  apply issues_tryCatch.
  apply issues_forOf. intros w. cbv zeta. unfold windowQueries.
  apply window_issues; [assumption | intros a b | intros a b].
  - repeat first [ apply total_bind; intros | apply total_forOf; intros
                 | apply processDepositedEvent_total
                 | apply processRedeemedEvent_total
                 | apply total_ret | apply total_logger ].
  - keeps_auto.
Qed.

End StockManagerQueries.

(** * Window coverage of the backfill loop *)

Lemma windows_length block toBlock :
  block <= toBlock ->
  Z.of_nat (length (windows block toBlock)) = (toBlock - block) / batchSize + 1.
Proof.
  intros Hle.
  remember (Z.to_nat (toBlock - block)) as n eqn:Hn.
  revert block Hle Hn.
  induction (lt_wf n) as [n _ IH]. intros block Hle Hn.
  rewrite windows_step. case_decide; [|lia].
  cbn [length]. unfold batchSize in *.
  destruct (decide (block + 1000 <= toBlock)) as [Hmore|Hlast].
  - assert (Hlt : (Z.to_nat (toBlock - (block + 1000)) < n)%nat) by (subst n; lia).
    rewrite Nat2Z.inj_succ, (IH _ Hlt (block + 1000) Hmore eq_refl).
    replace (toBlock - block) with (toBlock - (block + 1000) + 1 * 1000) by lia.
    rewrite Z.div_add by lia. lia.
  - rewrite (windows_step (block + 1000)). case_decide; [lia|].
    cbn [length]. rewrite Z.div_small by lia. reflexivity.
Qed.

Lemma backfill_windows_partition fromBlock toBlock b :
  fromBlock <= toBlock ->
  (b ∈ concat (map blocksOf (windows fromBlock toBlock)) <-> fromBlock <= b <= toBlock) /\
  NoDup (concat (map blocksOf (windows fromBlock toBlock))).
Proof.
  intros Hle. rewrite windows_flatten by assumption. split.
  - rewrite elem_of_seqZ. lia.
  - apply NoDup_seqZ.
Qed.

(** * Manual backfill *)

Section ManualBackfill.

Variable E : Env.

Import StockManager.

#[local] Hint Resolve processEventWithDeduplication_grows
  processEventWithDeduplication_service
  processDepositedEvent_grows processRedeemedEvent_grows
  processDepositedEvent_service processRedeemedEvent_service : frames.

Lemma fetchAndStoreContractEventsWithDeduplication_service web3 cn contract f t :
  keeps sameService
    (fetchAndStoreContractEventsWithDeduplication E web3 cn contract f t).
Proof.
  unfold fetchAndStoreContractEventsWithDeduplication, pastLogs, signatureTopic,
    utils_sha3.
  keeps_auto.
Qed.

Lemma fetchAndStoreContractEventsWithDeduplication_total web3 cn contract f t :
  total (fetchAndStoreContractEventsWithDeduplication E web3 cn contract f t).
Proof. apply total_tryCatch. intros e. apply total_logger. Qed.

#[local] Hint Resolve fetchAndStoreContractEventsWithDeduplication_service : frames.

Lemma backfillLastBlocks_service config n :
  keeps sameService (backfillLastBlocks E config n).
Proof. unfold backfillLastBlocks. keeps_auto. Qed.

Lemma backfillLastBlocks_total config n : total (backfillLastBlocks E config n).
Proof.
  unfold backfillLastBlocks. apply total_bind; [apply total_gets|].
  intros [web3|]; [|apply total_logger].
  apply total_tryCatch. intros e. apply total_logger.
Qed.

Lemma backfillLastBlocks_issuesAt config n s :
  (forall web3, web3Connections s !! cfg_name config = Some web3 -> answers web3) ->
  pastLogQueries (trace (exec (backfillLastBlocks E config n) s))
  = pastLogQueries (trace s) ++ backfillQueries E (web3Connections s) n config.
Proof.
  intros Hans. unfold backfillLastBlocks, backfillQueries.
  unfold exec at 1. rewrite (bind_ok _ _ s (web3Connections s !! cfg_name config))
    by reflexivity.
  change (exec (gets _) s) with s.
  destruct (web3Connections s !! cfg_name config) as [web3|] eqn:Hconn.
  - specialize (Hans web3 eq_refl).
    destruct (getBlockNumber web3) as [e|c] eqn:Hc.
    + unfold tryCatch, await, bind, emit, modify, logger. simpl.
      unfold pastLogQueries. rewrite !omap_app. simpl. now rewrite !app_nil_r.
    + unfold tryCatch. unfold await at 1.
      rewrite (bind_ok _ _ s c) by reflexivity.
      set (s1 := exec _ s).
      assert (Hq1 : pastLogQueries (trace s1) = pastLogQueries (trace s)).
      { subst s1. unfold exec, bind, emit, modify. simpl.
        unfold pastLogQueries. rewrite omap_app. simpl. apply app_nil_r. }
      clearbody s1. cbv zeta.
      pose proof (issues_forOf (contracts config)
        (fun contract =>
           fetchAndStoreContractEventsWithDeduplication E web3 (cfg_name config)
             contract (Js.max (Num 0) (Js.sub (Num c) n)) (Num c))
        (fun contract =>
           concat (map (windowQueries E contract)
                     (windowsOf (Js.max (Num 0) (Js.sub (Num c) n)) (Num c))))
        (fun contract =>
           fetchAndStoreContractEventsWithDeduplication_issues E web3
             (cfg_name config) contract _ _ Hans) s1) as [[a Ha] Hq].
      unfold result, exec in Ha, Hq.
      destruct (forOf _ _ s1) as [[e|a'] s2]; simpl in Ha, Hq; [discriminate|].
      simpl. rewrite Hq, Hq1. reflexivity.
  - unfold logger, emit, modify. simpl.
    unfold pastLogQueries. rewrite omap_app. simpl. reflexivity.
Qed.

Lemma sweep_issuesAt n configs s0 : forall s,
  sameService s0 s ->
  (forall config web3, config ∈ configs ->
     web3Connections s0 !! cfg_name config = Some web3 -> answers web3) ->
  (exists a, result (forOf configs (fun config => backfillLastBlocks E config n)) s
             = inr a) /\
  pastLogQueries
    (trace (exec (forOf configs (fun config => backfillLastBlocks E config n)) s))
  = pastLogQueries (trace s)
    ++ concat (map (backfillQueries E (web3Connections s0) n) configs) /\
  sameService s0
    (exec (forOf configs (fun config => backfillLastBlocks E config n)) s).
Proof.
  induction configs as [|config configs IH]; intros s Hs Hans.
  - simpl. split; [now exists tt|]. split; [now rewrite app_nil_r | exact Hs].
  - cbn [forOf map concat].
    destruct (backfillLastBlocks_total config n s) as [a Ha].
    unfold result, exec. rewrite (bind_ok _ _ s a Ha).
    set (s1 := exec (backfillLastBlocks E config n) s).
    assert (Hs1 : sameService s0 s1).
    { eapply sameService_trans; [exact Hs | apply backfillLastBlocks_service]. }
    destruct (IH s1 Hs1) as (Hr & Hq & Hsv).
    { intros c w Hc. apply Hans. now right. }
    split; [exact Hr|]. split; [|exact Hsv].
    unfold exec in Hq. rewrite Hq. subst s1.
    rewrite backfillLastBlocks_issuesAt.
    + destruct Hs as (Hconn & _). rewrite Hconn. now rewrite app_assoc.
    + intros w Hw. apply (Hans config); [now left|].
      destruct Hs as (Hconn & _). now rewrite <- Hconn.
Qed.

Lemma triggerManualBackfill_issuesAt n s :
  (forall config web3, config ∈ blockchainConfigs s ->
     web3Connections s !! cfg_name config = Some web3 -> answers web3) ->
  result (triggerManualBackfill E n) s = inr tt /\
  pastLogQueries (trace (exec (triggerManualBackfill E n) s))
  = pastLogQueries (trace s)
    ++ concat (map (backfillQueries E (web3Connections s) n) (blockchainConfigs s)).
Proof.
  intros Hans. unfold triggerManualBackfill.
  set (msg := "Manual backfill triggered for last " +:+ _).
  set (s1 := exec (logger LvlLog msg) s).
  assert (Hs1 : sameService s s1) by (repeat split).
  assert (Hq1 : pastLogQueries (trace s1) = pastLogQueries (trace s)).
  { subst s1. unfold exec, logger, emit, modify. simpl.
    unfold pastLogQueries. rewrite omap_app. simpl. apply app_nil_r. }
  destruct (sweep_issuesAt n (blockchainConfigs s) s s1 Hs1 Hans) as ([a Ha] & Hq & _).
  set (s2 := exec (forOf (blockchainConfigs s) _) s1) in *.
  assert (Heq : forall h,
    (logger LvlLog msg ;;
     tryCatch
       (configs <- gets blockchainConfigs ;;
        forOf configs (fun config => backfillLastBlocks E config n) ;;
        logger LvlLog "Manual backfill completed successfully") h) s
    = (inr tt, exec (logger LvlLog "Manual backfill completed successfully") s2)).
  { intros h. rewrite (bind_ok _ _ s tt) by reflexivity. fold s1.
    unfold tryCatch.
    rewrite (bind_ok _ _ s1 (blockchainConfigs s)) by reflexivity.
    change (exec (gets blockchainConfigs) s1) with s1.
    rewrite (bind_ok _ _ s1 a Ha). fold s2. reflexivity. }
  unfold result, exec at 1. rewrite Heq. simpl. split; [reflexivity|].
  unfold pastLogQueries in *. rewrite omap_app, Hq, Hq1. simpl. now rewrite app_nil_r.
Qed.

End ManualBackfill.

Section ControllerBounds.

Variable E : Env.

Import Web3Controller.

Lemma triggerBackfill_rejects bc n s :
  Js.truthyString bc = true ->
  Js.parseInt bc = Num n ->
  ~ (1 <= n <= 50000) ->
  result (triggerBackfill E (Some bc)) s = inl rejection /\
  trace (exec (triggerBackfill E (Some bc)) s) = trace s ++ rejectionLines.
Proof.
  intros Ht Hp Hn. unfold triggerBackfill, result, exec, tryCatch.
  rewrite (bind_ok _ _ s tt) by reflexivity.
  cbv beta zeta. simpl (Js.truthyOptString (Some bc)). simpl (default "" (Some bc)).
  rewrite Ht, Hp. cbn [Js.leb Js.gtb].
  assert (Hb : (n <=? 0) || (50000 <? n) = true).
  { apply orb_true_iff. rewrite Z.leb_le, Z.ltb_lt. lia. }
  rewrite Hb. unfold throw, logger, emit, modify, bind. simpl.
  split; [reflexivity | now rewrite <- app_assoc].
Qed.

Lemma triggerBackfill_accepts bc n s :
  (forall config web3, config ∈ blockchainConfigs s ->
     web3Connections s !! cfg_name config = Some web3 -> answers web3) ->
  Js.truthyString bc = true ->
  Js.parseInt bc = Num n ->
  1 <= n <= 50000 ->
  result (triggerBackfill E (Some bc)) s
  = inr {| success := true; r_message := "Backfill triggered successfully";
           r_blockCount := Some (Num n); r_error := None |} /\
  pastLogQueries (trace (exec (triggerBackfill E (Some bc)) s))
  = pastLogQueries (trace s)
    ++ concat (map (backfillQueries E (web3Connections s) (Num n))
                 (blockchainConfigs s)).
Proof.
  intros Hans Ht Hp Hn. unfold triggerBackfill, result, exec, tryCatch.
  rewrite (bind_ok _ _ s tt) by reflexivity.
  cbv beta zeta. simpl (Js.truthyOptString (Some bc)). simpl (default "" (Some bc)).
  rewrite Ht, Hp. cbn [Js.leb Js.gtb].
  assert (Hb : (n <=? 0) || (50000 <? n) = false).
  { apply orb_false_iff. rewrite Z.leb_gt, Z.ltb_ge. lia. }
  rewrite Hb.
  set (s1 := exec (logger LvlLog "Received request to trigger backfill") s).
  destruct (triggerManualBackfill_issuesAt E (Num n) s1) as [Hr Hq].
  { exact Hans. }
  rewrite (bind_ok _ _ s1 tt Hr). simpl. split; [reflexivity|].
  rewrite Hq. subst s1. unfold exec, logger, emit, modify. simpl.
  unfold pastLogQueries. rewrite omap_app. simpl. now rewrite app_nil_r.
Qed.

Lemma backfillQueries_connected (connections : gmap string Web3) config web3 c n :
  connections !! cfg_name config = Some web3 ->
  getBlockNumber web3 = inr c ->
  backfillQueries E connections (Num n) config
  = concat (map (fun contract =>
                   concat (map (windowQueries E contract)
                             (windows (Z.max 0 (c - n)) c)))
              (contracts config)).
Proof.
  intros Hconn Hc. unfold backfillQueries. rewrite Hconn, Hc. reflexivity.
Qed.

End ControllerBounds.

(** * Event-kind dispatch in [processLog] *)

Section Dispatch.

Variable E : Env.

Lemma observe_app {R X} (f : Effect R -> option X) (t d : list (Effect R)) :
  omap f d = [] -> omap f (t ++ d) = omap f t.
Proof. intros H. rewrite omap_app, H. apply app_nil_r. Qed.

Lemma stockManager_unknown_signature chainName contracts (l : RawLog)
    (s : State StockManager.StockManagerEvent) :
  Js.strictEq (StockManager.topic l 0) (sha3 E depositedPrototype) = false ->
  Js.strictEq (StockManager.topic l 0) (sha3 E redeemedPrototype) = false ->
  decodeCalls (trace (exec (StockManager.processLog E chainName contracts (Some l)) s))
    = decodeCalls (trace s) /\
  createCalls (trace (exec (StockManager.processLog E chainName contracts (Some l)) s))
    = createCalls (trace s) /\
  rows (exec (StockManager.processLog E chainName contracts (Some l)) s) = rows s /\
  result (StockManager.processLog E chainName contracts (Some l)) s = inr tt.
Proof.
  intros Hd Hr. unfold StockManager.processLog, StockManager.topic in *.
  destruct (negb (Js.truthyOptString (Js.toLowerCase <$> log_address l)));
    [repeat split; apply observe_app; reflexivity|].
  destruct (List.find _ contracts) as [contract|];
    [|repeat split; apply observe_app; reflexivity].
  unfold result, exec.
  rewrite (bind_ok _ _ s (web3Connections s !! chainName)) by reflexivity.
  change (exec (gets _) s) with s.
  destruct (web3Connections s !! chainName) as [web3|];
    [|repeat split; apply observe_app; reflexivity].
  unfold StockManager.topics0, StockManager.utils_sha3.
  destruct (topics l) as [ts|]; simpl in Hd, Hr.
  - unfold tryCatch, bind, ret, emit, modify, logger. simpl.
    rewrite Hd, Hr. simpl.
    repeat split; unfold decodeCalls, createCalls; rewrite !omap_app; simpl;
      now rewrite !app_nil_r.
  - repeat split; apply observe_app; reflexivity.
Qed.

Lemma events_unknown_signature chainName contracts (l : RawLog)
    (s : State Events.Event) :
  Js.strictEq (StockManager.topic l 0) (sha3 E depositedPrototype) = false ->
  Js.strictEq (StockManager.topic l 0) (sha3 E redeemedPrototype) = false ->
  decodeCalls (trace (exec (Events.processLog E chainName contracts (Some l)) s))
    = decodeCalls (trace s) /\
  createCalls (trace (exec (Events.processLog E chainName contracts (Some l)) s))
    = createCalls (trace s) /\
  rows (exec (Events.processLog E chainName contracts (Some l)) s) = rows s /\
  result (Events.processLog E chainName contracts (Some l)) s = inr tt.
Proof.
  intros Hd Hr. unfold Events.processLog, StockManager.topic in *.
  destruct (List.find _ contracts) as [contract|];
    [|repeat split; apply observe_app; reflexivity].
  unfold result, exec.
  rewrite (bind_ok _ _ s (web3Connections s !! chainName)) by reflexivity.
  change (exec (gets _) s) with s.
  destruct (web3Connections s !! chainName) as [web3|];
    [|repeat split; apply observe_app; reflexivity].
  unfold Events.topics0, Events.utils_sha3.
  destruct (topics l) as [ts|]; simpl in Hd, Hr.
  - unfold tryCatch, bind, ret, emit, modify, logger. simpl.
    rewrite Hd, Hr. simpl.
    repeat split; unfold decodeCalls, createCalls; rewrite !omap_app; simpl;
      now rewrite !app_nil_r.
  - repeat split; apply observe_app; reflexivity.
Qed.

Lemma stockManager_unknown_signature_debug chainName contracts (l : RawLog)
    (s : State StockManager.StockManagerEvent) contract web3 ts :
  Js.strictEq (ts !! 0%nat) (sha3 E depositedPrototype) = false ->
  Js.strictEq (ts !! 0%nat) (sha3 E redeemedPrototype) = false ->
  Js.truthyOptString (Js.toLowerCase <$> log_address l) = true ->
  List.find (fun c => Js.strictEq (Some (Js.toLowerCase (c_address c)))
                        (Js.toLowerCase <$> log_address l)) contracts
    = Some contract ->
  web3Connections s !! chainName = Some web3 ->
  topics l = Some ts ->
  trace (exec (StockManager.processLog E chainName contracts (Some l)) s)
  = trace s ++ unknownSignatureLines (ts !! 0%nat).
Proof.
  intros Hd Hr Ha Hf Hc Ht. unfold StockManager.processLog.
  rewrite Ha, Hf. cbn [negb]. unfold exec.
  rewrite (bind_ok _ _ s (web3Connections s !! chainName)) by reflexivity.
  change (exec (gets _) s) with s. rewrite Hc.
  unfold StockManager.topics0, StockManager.utils_sha3. rewrite Ht.
  unfold tryCatch, bind, ret, emit, modify, logger. simpl.
  rewrite Hd, Hr. simpl. now rewrite <- !app_assoc.
Qed.

Lemma events_unknown_signature_debug chainName contracts (l : RawLog)
    (s : State Events.Event) contract web3 ts :
  Js.strictEq (ts !! 0%nat) (sha3 E depositedPrototype) = false ->
  Js.strictEq (ts !! 0%nat) (sha3 E redeemedPrototype) = false ->
  List.find (fun c => Js.strictEq (Some (Js.toLowerCase (c_address c)))
                        (Js.toLowerCase <$> log_address l)) contracts
    = Some contract ->
  web3Connections s !! chainName = Some web3 ->
  topics l = Some ts ->
  trace (exec (Events.processLog E chainName contracts (Some l)) s)
  = trace s ++ unknownSignatureLines (ts !! 0%nat).
Proof.
  intros Hd Hr Hf Hc Ht. unfold Events.processLog.
  rewrite Hf. unfold exec.
  rewrite (bind_ok _ _ s (web3Connections s !! chainName)) by reflexivity.
  change (exec (gets _) s) with s. rewrite Hc.
  unfold Events.topics0, Events.utils_sha3. rewrite Ht.
  unfold tryCatch, bind, ret, emit, modify, logger. simpl.
  rewrite Hd, Hr. simpl. now rewrite <- !app_assoc.
Qed.

End Dispatch.

(** C5: a log whose [topics[0]] equals neither signature hash is never
    handed to the ABI decoder and nothing is stored for it, in both
    services; when it comes from a configured contract of a connected
    network, the only effects are the two hash computations and one
    debug-level line. *)
Theorem unknown_signature_dropped (E : Env) (chainName : string)
    (contracts : list ContractConfig) (l : RawLog) :
  Js.strictEq (StockManager.topic l 0) (sha3 E depositedPrototype) = false ->
  Js.strictEq (StockManager.topic l 0) (sha3 E redeemedPrototype) = false ->
  (forall s : State StockManager.StockManagerEvent,
     decodeCalls (trace (exec (StockManager.processLog E chainName contracts (Some l)) s))
       = decodeCalls (trace s) /\
     createCalls (trace (exec (StockManager.processLog E chainName contracts (Some l)) s))
       = createCalls (trace s) /\
     rows (exec (StockManager.processLog E chainName contracts (Some l)) s) = rows s /\
     result (StockManager.processLog E chainName contracts (Some l)) s = inr tt) /\
  (forall s : State Events.Event,
     decodeCalls (trace (exec (Events.processLog E chainName contracts (Some l)) s))
       = decodeCalls (trace s) /\
     createCalls (trace (exec (Events.processLog E chainName contracts (Some l)) s))
       = createCalls (trace s) /\
     rows (exec (Events.processLog E chainName contracts (Some l)) s) = rows s /\
     result (Events.processLog E chainName contracts (Some l)) s = inr tt) /\
  (forall (s : State StockManager.StockManagerEvent) contract web3 ts,
     Js.truthyOptString (Js.toLowerCase <$> log_address l) = true ->
     List.find (fun c => Js.strictEq (Some (Js.toLowerCase (c_address c)))
                           (Js.toLowerCase <$> log_address l)) contracts
       = Some contract ->
     web3Connections s !! chainName = Some web3 ->
     topics l = Some ts ->
     trace (exec (StockManager.processLog E chainName contracts (Some l)) s)
     = trace s ++ unknownSignatureLines (ts !! 0%nat)) /\
  (forall (s : State Events.Event) contract web3 ts,
     List.find (fun c => Js.strictEq (Some (Js.toLowerCase (c_address c)))
                           (Js.toLowerCase <$> log_address l)) contracts
       = Some contract ->
     web3Connections s !! chainName = Some web3 ->
     topics l = Some ts ->
     trace (exec (Events.processLog E chainName contracts (Some l)) s)
     = trace s ++ unknownSignatureLines (ts !! 0%nat)).
Proof.
  intros Hd Hr. refine (conj _ (conj _ (conj _ _))).
  - intros s. now apply stockManager_unknown_signature.
  - intros s. now apply events_unknown_signature.
  - intros s contract web3 ts Ha Hf Hc Ht.
    unfold StockManager.topic in Hd, Hr. rewrite Ht in Hd, Hr.
    now apply (stockManager_unknown_signature_debug E chainName contracts l s
                 contract web3 ts).
  - intros s contract web3 ts Hf Hc Ht.
    unfold StockManager.topic in Hd, Hr. rewrite Ht in Hd, Hr.
    now apply (events_unknown_signature_debug E chainName contracts l s
                 contract web3 ts).
Qed.

Lemma unknown_signature_dropped_witness :
  Js.strictEq (StockManager.topic Demo.transfer 0)
    (sha3 Demo.env depositedPrototype) = false /\
  Js.strictEq (StockManager.topic Demo.transfer 0)
    (sha3 Demo.env redeemedPrototype) = false /\
  rows (exec (StockManager.processLog Demo.env "bsc" [Demo.vault]
                (Some Demo.transfer)) Demo.running) = [] /\
  trace (exec (StockManager.processLog Demo.env "bsc" [Demo.vault]
                 (Some Demo.transfer)) Demo.running)
  = unknownSignatureLines (Some "keccak256:Transfer(address,address,uint256)").
Proof.
  assert (Hd : Js.strictEq (StockManager.topic Demo.transfer 0)
                 (sha3 Demo.env depositedPrototype) = false) by reflexivity.
  assert (Hr : Js.strictEq (StockManager.topic Demo.transfer 0)
                 (sha3 Demo.env redeemedPrototype) = false) by reflexivity.
  split; [exact Hd | split; [exact Hr|]].
  destruct (unknown_signature_dropped Demo.env "bsc" [Demo.vault] Demo.transfer
              Hd Hr) as (Hsm & _ & Hdbg & _).
  split.
  - apply (Hsm Demo.running).
  - apply (Hdbg Demo.running Demo.vault Demo.node
             ["keccak256:Transfer(address,address,uint256)"; "0xFrom"; "0xTo"]);
      reflexivity.
Defined.

Section AwaitLemmas.

Context {R : Type}.

Lemma tryCatch_await {A B} (e : Effect R) (r : Exn + A) (k : A -> M R B)
    (h : Exn -> M R B) (s : State R) :
  tryCatch (bind (await e r) k) h s =
  match r with
  | inr a => tryCatch (k a) h (exec (emit e) s)
  | inl err => h err (exec (emit e) s)
  end.
Proof. destruct r; reflexivity. Qed.

Lemma storing_no_decode (e : Effect R) : storingEffect e = true -> decodeOf e = None.
Proof. destruct e; simpl; congruence. Qed.

Lemma storing_no_sha3 (e : Effect R) : storingEffect e = true -> sha3Of e = None.
Proof. destruct e; simpl; congruence. Qed.

Lemma decodeCalls_emit (s : State R) i d ts :
  decodeCalls (trace (exec (emit (EDecodeLog i d ts)) s))
  = decodeCalls (trace s) ++ [(i, d, ts)].
Proof. unfold decodeCalls. simpl. now rewrite omap_app. Qed.

End AwaitLemmas.

Section StockManagerDecodes.

Variable E : Env.

Import StockManager.

#[local] Hint Resolve getBlockDateFromTimestamp_grows storeEventInDatabase_grows
  : frames.

Lemma processDepositedEvent_decodes cn c l web3 s :
  decodeCalls (trace (exec (processDepositedEvent E cn c (Some l) web3) s))
  = decodeCalls (trace s)
    ++ (if invalidLog (Some l) then []
        else [(depositedInputs, data l, [topic l 1; topic l 2; topic l 3])]).
Proof.
  unfold processDepositedEvent. destruct (invalidLog (Some l)).
  - rewrite app_nil_r. apply observe_app. reflexivity.
  - unfold abi_decodeLog, exec. rewrite tryCatch_await.
    destruct (Abi.decodeLog E depositedInputs (data l) _) as [err|d].
    + unfold logger, emit, modify. simpl. unfold decodeCalls.
      rewrite !omap_app. simpl. now rewrite app_nil_r.
    + rewrite <- decodeCalls_emit.
      apply (grows_observe storingEffect); [apply storing_no_decode|].
      match goal with
      | |- grows _ ?s0 (?m ?s0).2 =>
          let H := fresh in
          assert (H : keeps (grows storingEffect) m); [| exact (H s0)]
      end.
      unfold toStringOf. keeps_auto.
Qed.

Lemma processRedeemedEvent_decodes cn c l web3 s :
  decodeCalls (trace (exec (processRedeemedEvent E cn c (Some l) web3) s))
  = decodeCalls (trace s)
    ++ (if invalidLog (Some l) then []
        else [(redeemedInputs, data l, [topic l 1; topic l 2; topic l 3])]).
Proof.
  unfold processRedeemedEvent. destruct (invalidLog (Some l)).
  - rewrite app_nil_r. apply observe_app. reflexivity.
  - unfold abi_decodeLog, exec. rewrite tryCatch_await.
    destruct (Abi.decodeLog E redeemedInputs (data l) _) as [err|d].
    + unfold logger, emit, modify. simpl. unfold decodeCalls.
      rewrite !omap_app. simpl. now rewrite app_nil_r.
    + rewrite <- decodeCalls_emit.
      apply (grows_observe storingEffect); [apply storing_no_decode|].
      match goal with
      | |- grows _ ?s0 (?m ?s0).2 =>
          let H := fresh in
          assert (H : keeps (grows storingEffect) m); [| exact (H s0)]
      end.
      unfold toStringOf. keeps_auto.
Qed.

End StockManagerDecodes.

(** * The events-schema service *)

Section EventsFrames.

Variable E : Env.

Import Events.

Lemma events_findByTxHash_grows h : keeps (grows storingEffect) (findByTxHash E h).
Proof. unfold findByTxHash. keeps_auto. Qed.

Lemma events_create_grows r : keeps (grows storingEffect) (create r).
Proof. unfold create. keeps_auto. Qed.

Lemma events_nowISOString_grows : keeps (grows storingEffect) (nowISOString E).
Proof. unfold nowISOString. keeps_auto. Qed.

#[local] Hint Resolve events_findByTxHash_grows events_create_grows
  events_nowISOString_grows : frames.

Lemma events_getBlockDateFromTimestamp_grows web3 bn :
  keeps (grows storingEffect) (getBlockDateFromTimestamp E web3 bn).
Proof. unfold getBlockDateFromTimestamp. keeps_auto. Qed.

Lemma events_storeEventInDatabase_grows ev cn :
  keeps (grows storingEffect) (storeEventInDatabase E ev cn).
Proof. unfold storeEventInDatabase. keeps_auto. Qed.

#[local] Hint Resolve events_getBlockDateFromTimestamp_grows
  events_storeEventInDatabase_grows : frames.

(** The events-schema processors hand every log with a topic list to the
    decoder, whatever its length. *)
Lemma events_processDepositedEvent_decodes cn c l web3 s :
  decodeCalls (trace (exec (processDepositedEvent E cn c (Some l) web3) s))
  = decodeCalls (trace s)
    ++ match topics l with
       | Some ts => [(depositedInputs, data l, [ts !! 1%nat; ts !! 2%nat; ts !! 3%nat])]
       | None => []
       end.
Proof.
  unfold processDepositedEvent, decodeArguments. destruct (topics l) as [ts|].
  - unfold exec.
    match goal with
    | |- context [tryCatch (bind (ret ?x) ?k) ?h] =>
        change (tryCatch (bind (ret x) k) h) with (tryCatch (k x) h)
    end.
    cbv beta zeta. cbn [fst snd]. unfold abi_decodeLog. rewrite tryCatch_await.
    destruct (Abi.decodeLog E depositedInputs (data l) _) as [err|d].
    + unfold logger, emit, modify. simpl. unfold decodeCalls.
      rewrite !omap_app. simpl. now rewrite app_nil_r.
    + rewrite <- decodeCalls_emit.
      apply (grows_observe storingEffect); [apply storing_no_decode|].
      match goal with
      | |- grows _ ?s0 (?m ?s0).2 =>
          let H := fresh in
          assert (H : keeps (grows storingEffect) m); [| exact (H s0)]
      end.
      unfold toStringOf. keeps_auto.
  - rewrite app_nil_r. apply observe_app. reflexivity.
Qed.

Lemma events_processRedeemedEvent_decodes cn c l web3 s :
  decodeCalls (trace (exec (processRedeemedEvent E cn c (Some l) web3) s))
  = decodeCalls (trace s)
    ++ match topics l with
       | Some ts => [(redeemedInputs, data l, [ts !! 1%nat; ts !! 2%nat; ts !! 3%nat])]
       | None => []
       end.
Proof.
  unfold processRedeemedEvent, decodeArguments. destruct (topics l) as [ts|].
  - unfold exec.
    match goal with
    | |- context [tryCatch (bind (ret ?x) ?k) ?h] =>
        change (tryCatch (bind (ret x) k) h) with (tryCatch (k x) h)
    end.
    cbv beta zeta. cbn [fst snd]. unfold abi_decodeLog. rewrite tryCatch_await.
    destruct (Abi.decodeLog E redeemedInputs (data l) _) as [err|d].
    + unfold logger, emit, modify. simpl. unfold decodeCalls.
      rewrite !omap_app. simpl. now rewrite app_nil_r.
    + rewrite <- decodeCalls_emit.
      apply (grows_observe storingEffect); [apply storing_no_decode|].
      match goal with
      | |- grows _ ?s0 (?m ?s0).2 =>
          let H := fresh in
          assert (H : keeps (grows storingEffect) m); [| exact (H s0)]
      end.
      unfold toStringOf. keeps_auto.
  - rewrite app_nil_r. apply observe_app. reflexivity.
Qed.

Lemma events_processDepositedEvent_grows cn c log web3 :
  keeps (grows processingEffect) (processDepositedEvent E cn c log web3).
Proof.
  unfold processDepositedEvent, decodeArguments, abi_decodeLog, toStringOf.
  keeps_auto.
Qed.

Lemma events_processRedeemedEvent_grows cn c log web3 :
  keeps (grows processingEffect) (processRedeemedEvent E cn c log web3).
Proof.
  unfold processRedeemedEvent, decodeArguments, abi_decodeLog, toStringOf.
  keeps_auto.
Qed.

End EventsFrames.

Section KindBySignature.

Variable E : Env.

Lemma sha3Calls_hashes {R} (s : State R) :
  sha3Calls (trace (exec (emit (ESha3 depositedPrototype) ;;
                          emit (ESha3 redeemedPrototype)) s))
  = sha3Calls (trace s) ++ [depositedPrototype; redeemedPrototype].
Proof.
  unfold sha3Calls, exec, bind, emit, modify. simpl. rewrite !omap_app. simpl.
  now rewrite <- app_assoc.
Qed.

Lemma decodeCalls_hashes {R} (s : State R) :
  decodeCalls (trace (exec (emit (ESha3 depositedPrototype) ;;
                            emit (ESha3 redeemedPrototype)) s))
  = decodeCalls (trace s).
Proof.
  unfold decodeCalls, exec, bind, emit, modify. simpl. rewrite !omap_app. simpl.
  now rewrite !app_nil_r.
Qed.

Lemma stockManager_processLog_dispatch cn contracts l contract web3 ts
    (s : State StockManager.StockManagerEvent) :
  topics l = Some ts ->
  Js.truthyOptString (Js.toLowerCase <$> log_address l) = true ->
  List.find (fun c => Js.strictEq (Some (Js.toLowerCase (c_address c)))
                        (Js.toLowerCase <$> log_address l)) contracts
    = Some contract ->
  web3Connections s !! cn = Some web3 ->
  StockManager.processLog E cn contracts (Some l) s
  = (if Js.strictEq (ts !! 0%nat) (sha3 E depositedPrototype) then
       StockManager.processDepositedEvent E cn contract (Some l) web3
     else if Js.strictEq (ts !! 0%nat) (sha3 E redeemedPrototype) then
       StockManager.processRedeemedEvent E cn contract (Some l) web3
     else
       logger LvlDebug ("Unknown event signature: " +:+ Js.show (ts !! 0%nat)))
      (exec (emit (ESha3 depositedPrototype) ;; emit (ESha3 redeemedPrototype)) s).
Proof.
  intros Ht Ha Hf Hc. unfold StockManager.processLog.
  rewrite Ha, Hf. cbn [negb].
  rewrite (bind_ok _ _ s (web3Connections s !! cn)) by reflexivity.
  change (exec (gets _) s) with s. rewrite Hc.
  unfold StockManager.topics0. rewrite Ht.
  set (s2 := exec _ s).
  assert (Hbody : forall h,
    tryCatch
      (eventSignature <- ret (ts !! 0%nat) ;;
       depositedSignature <- StockManager.utils_sha3 E depositedPrototype ;;
       redeemedSignature <- StockManager.utils_sha3 E redeemedPrototype ;;
       if Js.strictEq eventSignature depositedSignature then
         StockManager.processDepositedEvent E cn contract (Some l) web3
       else if Js.strictEq eventSignature redeemedSignature then
         StockManager.processRedeemedEvent E cn contract (Some l) web3
       else
         logger LvlDebug ("Unknown event signature: " +:+ Js.show eventSignature))
      h s
    = tryCatch
        (if Js.strictEq (ts !! 0%nat) (sha3 E depositedPrototype) then
           StockManager.processDepositedEvent E cn contract (Some l) web3
         else if Js.strictEq (ts !! 0%nat) (sha3 E redeemedPrototype) then
           StockManager.processRedeemedEvent E cn contract (Some l) web3
         else
           logger LvlDebug ("Unknown event signature: " +:+ Js.show (ts !! 0%nat)))
        h s2) by reflexivity.
  rewrite Hbody. apply tryCatch_total.
  destruct (Js.strictEq _ _); [apply processDepositedEvent_total|].
  destruct (Js.strictEq _ _); [apply processRedeemedEvent_total | apply total_logger].
Qed.

Lemma events_processDepositedEvent_total cn c log web3 :
  total (Events.processDepositedEvent E cn c log web3).
Proof. apply total_tryCatch. intros e. apply total_logger. Qed.

Lemma events_processRedeemedEvent_total cn c log web3 :
  total (Events.processRedeemedEvent E cn c log web3).
Proof. apply total_tryCatch. intros e. apply total_logger. Qed.

Lemma events_processLog_dispatch cn contracts l contract web3 ts
    (s : State Events.Event) :
  topics l = Some ts ->
  List.find (fun c => Js.strictEq (Some (Js.toLowerCase (c_address c)))
                        (Js.toLowerCase <$> log_address l)) contracts
    = Some contract ->
  web3Connections s !! cn = Some web3 ->
  Events.processLog E cn contracts (Some l) s
  = (if Js.strictEq (ts !! 0%nat) (sha3 E depositedPrototype) then
       Events.processDepositedEvent E cn contract (Some l) web3
     else if Js.strictEq (ts !! 0%nat) (sha3 E redeemedPrototype) then
       Events.processRedeemedEvent E cn contract (Some l) web3
     else
       logger LvlDebug ("Unknown event signature: " +:+ Js.show (ts !! 0%nat)))
      (exec (emit (ESha3 depositedPrototype) ;; emit (ESha3 redeemedPrototype)) s).
Proof.
  intros Ht Hf Hc. unfold Events.processLog.
  rewrite Hf.
  rewrite (bind_ok _ _ s (web3Connections s !! cn)) by reflexivity.
  change (exec (gets _) s) with s. rewrite Hc.
  unfold Events.topics0. rewrite Ht.
  set (s2 := exec _ s).
  assert (Hbody : forall h,
    tryCatch
      (eventSignature <- ret (ts !! 0%nat) ;;
       depositedSignature <- Events.utils_sha3 E depositedPrototype ;;
       redeemedSignature <- Events.utils_sha3 E redeemedPrototype ;;
       if Js.strictEq eventSignature depositedSignature then
         Events.processDepositedEvent E cn contract (Some l) web3
       else if Js.strictEq eventSignature redeemedSignature then
         Events.processRedeemedEvent E cn contract (Some l) web3
       else
         logger LvlDebug ("Unknown event signature: " +:+ Js.show eventSignature))
      h s
    = tryCatch
        (if Js.strictEq (ts !! 0%nat) (sha3 E depositedPrototype) then
           Events.processDepositedEvent E cn contract (Some l) web3
         else if Js.strictEq (ts !! 0%nat) (sha3 E redeemedPrototype) then
           Events.processRedeemedEvent E cn contract (Some l) web3
         else
           logger LvlDebug ("Unknown event signature: " +:+ Js.show (ts !! 0%nat)))
        h s2) by reflexivity.
  rewrite Hbody. apply tryCatch_total.
  destruct (Js.strictEq _ _); [apply events_processDepositedEvent_total|].
  destruct (Js.strictEq _ _); [apply events_processRedeemedEvent_total | apply total_logger].
Qed.

Lemma stockManager_topic l ts i : topics l = Some ts -> StockManager.topic l i = ts !! i.
Proof. intros H. unfold StockManager.topic. now rewrite H. Qed.

End KindBySignature.

(** C6, as stated, fails: the two signature hashes are not computed once
    and reused, they are computed again for every log.  Two logs cost four
    hash computations. *)
Lemma signature_hashes_recomputed_per_log :
  sha3Calls (trace (exec
    (StockManager.processLog Demo.env "bsc" [Demo.vault] (Some Demo.deposit) ;;
     StockManager.processLog Demo.env "bsc" [Demo.vault] (Some Demo.transfer))
    Demo.running))
  = [depositedPrototype; redeemedPrototype; depositedPrototype; redeemedPrototype]
  /\
  sha3Calls (trace (exec
    (StockManager.processLog Demo.env "bsc" [Demo.vault] (Some Demo.deposit) ;;
     StockManager.processLog Demo.env "bsc" [Demo.vault] (Some Demo.transfer))
    Demo.running))
  <> sha3Calls (trace (exec
    (StockManager.processLog Demo.env "bsc" [Demo.vault] (Some Demo.deposit))
    Demo.running)).
Proof. split; vm_compute; [reflexivity | discriminate]. Qed.

(** C6 (amended): in both services the event kind of a log that reaches
    the comparison is decided by comparing [topics[0]] with the hashes of
    the two canonical prototype strings, Deposited first; both hashes are
    computed by [sha3] for that log (two hash computations per log), and the
    log is handed to the decoder with the Deposited layout when the first
    comparison succeeds, with the Redeemed layout when only the second
    does, and not at all otherwise. *)
Theorem event_kind_by_signature_hash (E : Env) (chainName : string)
    (contracts : list ContractConfig) (l : RawLog) (contract : ContractConfig)
    (web3 : Web3) (ts : list string) :
  topics l = Some ts ->
  List.find (fun c => Js.strictEq (Some (Js.toLowerCase (c_address c)))
                        (Js.toLowerCase <$> log_address l)) contracts
    = Some contract ->
  (forall s : State StockManager.StockManagerEvent,
     Js.truthyOptString (Js.toLowerCase <$> log_address l) = true ->
     web3Connections s !! chainName = Some web3 ->
     sha3Calls (trace (exec (StockManager.processLog E chainName contracts (Some l)) s))
     = sha3Calls (trace s) ++ [depositedPrototype; redeemedPrototype] /\
     decodeCalls (trace (exec (StockManager.processLog E chainName contracts (Some l)) s))
     = decodeCalls (trace s)
       ++ (if Js.strictEq (ts !! 0%nat) (sha3 E depositedPrototype) then
             if StockManager.invalidLog (Some l) then []
             else [(StockManager.depositedInputs, data l,
                    [ts !! 1%nat; ts !! 2%nat; ts !! 3%nat])]
           else if Js.strictEq (ts !! 0%nat) (sha3 E redeemedPrototype) then
             if StockManager.invalidLog (Some l) then []
             else [(StockManager.redeemedInputs, data l,
                    [ts !! 1%nat; ts !! 2%nat; ts !! 3%nat])]
           else [])) /\
  (forall s : State Events.Event,
     web3Connections s !! chainName = Some web3 ->
     sha3Calls (trace (exec (Events.processLog E chainName contracts (Some l)) s))
     = sha3Calls (trace s) ++ [depositedPrototype; redeemedPrototype] /\
     decodeCalls (trace (exec (Events.processLog E chainName contracts (Some l)) s))
     = decodeCalls (trace s)
       ++ (if Js.strictEq (ts !! 0%nat) (sha3 E depositedPrototype) then
             [(Events.depositedInputs, data l,
               [ts !! 1%nat; ts !! 2%nat; ts !! 3%nat])]
           else if Js.strictEq (ts !! 0%nat) (sha3 E redeemedPrototype) then
             [(Events.redeemedInputs, data l,
               [ts !! 1%nat; ts !! 2%nat; ts !! 3%nat])]
           else [])).
Proof.
  intros Ht Hf. split.
  - intros s Ha Hc. unfold exec.
    rewrite (stockManager_processLog_dispatch E chainName contracts l contract
               web3 ts s Ht Ha Hf Hc).
    set (s2 := exec _ s).
    assert (Hs : sha3Calls (trace s2)
                 = sha3Calls (trace s) ++ [depositedPrototype; redeemedPrototype])
      by apply sha3Calls_hashes.
    assert (Hd : decodeCalls (trace s2) = decodeCalls (trace s))
      by apply decodeCalls_hashes.
    clearbody s2.
    destruct (Js.strictEq (ts !! 0%nat) (sha3 E depositedPrototype)).
    { split.
      - rewrite <- Hs. apply (grows_observe processingEffect);
          [apply processing_no_sha3 | apply processDepositedEvent_grows].
      - pose proof (processDepositedEvent_decodes E chainName contract l web3 s2) as H.
        unfold exec in H. rewrite H, Hd.
        now rewrite !(stockManager_topic l ts _ Ht). }
    destruct (Js.strictEq (ts !! 0%nat) (sha3 E redeemedPrototype)).
    { split.
      - rewrite <- Hs. apply (grows_observe processingEffect);
          [apply processing_no_sha3 | apply processRedeemedEvent_grows].
      - pose proof (processRedeemedEvent_decodes E chainName contract l web3 s2) as H.
        unfold exec in H. rewrite H, Hd.
        now rewrite !(stockManager_topic l ts _ Ht). }
    split.
    + rewrite <- Hs. apply observe_app. reflexivity.
    + rewrite <- Hd, app_nil_r. apply observe_app. reflexivity.
  - intros s Hc. unfold exec.
    rewrite (events_processLog_dispatch E chainName contracts l contract
               web3 ts s Ht Hf Hc).
    set (s2 := exec _ s).
    assert (Hs : sha3Calls (trace s2)
                 = sha3Calls (trace s) ++ [depositedPrototype; redeemedPrototype])
      by apply sha3Calls_hashes.
    assert (Hd : decodeCalls (trace s2) = decodeCalls (trace s))
      by apply decodeCalls_hashes.
    clearbody s2.
    destruct (Js.strictEq (ts !! 0%nat) (sha3 E depositedPrototype)).
    { split.
      - rewrite <- Hs. apply (grows_observe processingEffect);
          [apply processing_no_sha3 | apply events_processDepositedEvent_grows].
      - pose proof (events_processDepositedEvent_decodes E chainName contract l web3 s2) as H.
        unfold exec in H. rewrite H, Hd, Ht. reflexivity. }
    destruct (Js.strictEq (ts !! 0%nat) (sha3 E redeemedPrototype)).
    { split.
      - rewrite <- Hs. apply (grows_observe processingEffect);
          [apply processing_no_sha3 | apply events_processRedeemedEvent_grows].
      - pose proof (events_processRedeemedEvent_decodes E chainName contract l web3 s2) as H.
        unfold exec in H. rewrite H, Hd, Ht. reflexivity. }
    split.
    + rewrite <- Hs. apply observe_app. reflexivity.
    + rewrite <- Hd, app_nil_r. apply observe_app. reflexivity.
Qed.

Lemma event_kind_by_signature_hash_witness :
  topics Demo.redemption
  = Some [Demo.redeemedTopic; "0xUser"; "0xAsset"; "0xStable"] /\
  List.find (fun c => Js.strictEq (Some (Js.toLowerCase (c_address c)))
                        (Js.toLowerCase <$> log_address Demo.redemption))
    [Demo.vault] = Some Demo.vault /\
  decodeCalls (trace (exec
    (StockManager.processLog Demo.env "bsc" [Demo.vault] (Some Demo.redemption))
    Demo.running))
  = [(StockManager.redeemedInputs, Some "0x01",
      [Some "0xUser"; Some "0xAsset"; Some "0xStable"])].
Proof.
  split; [reflexivity | split; [reflexivity|]].
  destruct (event_kind_by_signature_hash Demo.env "bsc" [Demo.vault]
              Demo.redemption Demo.vault Demo.node
              [Demo.redeemedTopic; "0xUser"; "0xAsset"; "0xStable"]
              eq_refl eq_refl) as [Hsm _].
  destruct (Hsm Demo.running eq_refl eq_refl) as [_ Hd].
  rewrite Hd. reflexivity.
Defined.

(** * Malformed logs *)

Section Malformed.

Variable E : Env.

Lemma invalidLog_missing (l : RawLog) :
  data l = None \/ topics l = None
  \/ (exists ts, topics l = Some ts /\ (length ts < 4)%nat)
  \/ blockNumber l = None \/ transactionHash l = None ->
  StockManager.invalidLog (Some l) = true.
Proof.
  unfold StockManager.invalidLog.
  intros [H | [H | [(ts & H & Hlen) | [H | H]]]]; rewrite H; simpl.
  - reflexivity.
  - apply orb_true_iff. left. apply orb_true_iff. left. apply orb_true_r.
  - apply Nat.ltb_lt in Hlen. rewrite Hlen.
    apply orb_true_iff. left. apply orb_true_iff. left. apply orb_true_r.
  - apply orb_true_iff. left. apply orb_true_r.
  - apply orb_true_r.
Qed.

(** The stock-manager service rejects a malformed log with a warning
    before anything else happens. *)
Lemma stockManager_rejects_malformed cn c log web3
    (s : State StockManager.StockManagerEvent) :
  StockManager.invalidLog log = true ->
  StockManager.processDepositedEvent E cn c log web3 s
  = (inr tt, exec (logger LvlWarn
                     "Invalid log object for Deposited event processing") s) /\
  StockManager.processRedeemedEvent E cn c log web3 s
  = (inr tt, exec (logger LvlWarn
                     "Invalid log object for Redeemed event processing") s).
Proof.
  intros H. unfold StockManager.processDepositedEvent,
    StockManager.processRedeemedEvent. rewrite H. split; reflexivity.
Qed.

End Malformed.

(** C7 at the failing input: the events-schema service has no validation
    guard.  A log with the Deposited signature and fewer than four topics is
    handed to the ABI decoder with undefined topics, and the only reaction
    is the decoder's own error. *)
Theorem events_service_decodes_malformed_log :
  trace (exec (Events.processLog Demo.env "bsc" [Demo.vault]
                 (Some Demo.shortDeposit)) Demo.runningEvents)
  = [ ESha3 depositedPrototype; ESha3 redeemedPrototype;
      EDecodeLog Events.depositedInputs (Some "0x01") [Some "0xUser"; None; None];
      ELogger LvlError "Error processing Deposited event: invalid topic" ] /\
  trace (exec (StockManager.processLog Demo.env "bsc" [Demo.vault]
                 (Some Demo.shortDeposit)) Demo.running)
  = [ ESha3 depositedPrototype; ESha3 redeemedPrototype;
      ELogger LvlWarn "Invalid log object for Deposited event processing" ].
Proof. split; vm_compute; reflexivity. Qed.

(** * Historical scans *)

Section PreviousEvents.

Variable E : Env.

Import StockManager.

Lemma storePreviousEventsForChain_issuesAt config fromBlock web3 c s :
  web3Connections s !! cfg_name config = Some web3 ->
  getBlockNumber web3 = inr c ->
  answers web3 ->
  pastLogQueries (trace (exec (storePreviousEventsForChain E config fromBlock) s))
  = pastLogQueries (trace s)
    ++ concat (map (fun contract =>
                      concat (map (windowQueries E contract)
                                (windowsOf (startBlockOf fromBlock c) (Num c))))
                 (contracts config)).
Proof.
  intros Hconn Hc Hans. unfold storePreviousEventsForChain.
  unfold exec at 1. rewrite (bind_ok _ _ s (web3Connections s !! cfg_name config))
    by reflexivity.
  change (exec (gets _) s) with s. rewrite Hconn, Hc.
  unfold tryCatch. unfold await at 1.
  rewrite (bind_ok _ _ s c) by reflexivity.
  set (s1 := exec _ s).
  assert (Hq1 : pastLogQueries (trace s1) = pastLogQueries (trace s)).
  { subst s1. unfold exec, bind, emit, modify. simpl.
    unfold pastLogQueries. rewrite omap_app. simpl. apply app_nil_r. }
  clearbody s1. cbv zeta.
  pose proof (issues_forOf (contracts config)
    (fun contract =>
       fetchAndStoreContractEvents E web3 (cfg_name config)
         contract (startBlockOf fromBlock c) (Num c))
    (fun contract =>
       concat (map (windowQueries E contract)
                 (windowsOf (startBlockOf fromBlock c) (Num c))))
    (fun contract =>
       fetchAndStoreContractEvents_issues E web3
         (cfg_name config) contract _ _ Hans) s1) as [[a Ha] Hq].
  unfold result, exec in Ha, Hq.
  destruct (forOf _ _ s1) as [[e|a'] s2]; simpl in Ha, Hq; [discriminate|].
  simpl. rewrite Hq, Hq1. reflexivity.
Qed.

End PreviousEvents.

(** * The connection pass *)

Section ConnectionPass.

Variable E : Env.

Lemma string_length_append (a b : string) :
  String.length (a +:+ b) = (String.length a + String.length b)%nat.
Proof. induction a as [|c a IH]; simpl; [reflexivity | now rewrite IH]. Qed.

Lemma string_append_cancel_r (a b t : string) : a +:+ t = b +:+ t -> a = b.
Proof.
  revert b. induction a as [|c a IH]; intros [|d b] H; simpl in H.
  - reflexivity.
  - apply (f_equal String.length) in H.
    rewrite !string_length_append in H. simpl in H. lia.
  - apply (f_equal String.length) in H.
    rewrite !string_length_append in H. simpl in H. lia.
  - injection H as -> H. f_equal. now apply IH.
Qed.

Lemma events_connectToChain_spec config (s : State Events.Event) :
  web3Connections (exec (Events.connectToChain E config) s)
    = connectStep E (web3Connections s) config /\
  subscriptions (exec (Events.connectToChain E config) s)
    = subscribeStep E (subscriptions s) config.
Proof.
  unfold Events.connectToChain, connectStep, subscribeStep, connectable. cbv zeta.
  destruct (negb (Js.truthyString (wssUrl config))
            || String.eqb (Js.trim (wssUrl config)) ""); cbn [negb andb].
  - split; reflexivity.
  - destruct (getChainId (WebsocketProvider E (wssUrl config))) as [e|i] eqn:Hid.
    + unfold exec, tryCatch, bind, await, emit, modify. simpl. try rewrite Hid.
      split; reflexivity.
    + unfold Events.subscribeToEvents.
      unfold exec, tryCatch, bind, await, emit, modify, setConnection, logger, gets.
      simpl. try rewrite Hid. simpl.
      destruct (provider (WebsocketProvider E (wssUrl config))); simpl;
        rewrite lookup_insert_eq; simpl;
        destruct (subscribe (WebsocketProvider E (wssUrl config)) _) as [e|sub];
        simpl; split; reflexivity.
Qed.

Lemma stockManager_connectToChain_spec config (s : State StockManager.StockManagerEvent) :
  web3Connections (exec (StockManager.connectToChain E config) s)
    = connectStep E (web3Connections s) config /\
  subscriptions (exec (StockManager.connectToChain E config) s)
    = subscriptions s /\
  connectListeners (exec (StockManager.connectToChain E config) s)
    = listenStep E (connectListeners s) config.
Proof.
  unfold StockManager.connectToChain, connectStep, listenStep, connectable. cbv zeta.
  destruct (negb (Js.truthyString (wssUrl config))
            || String.eqb (Js.trim (wssUrl config)) ""); cbn [negb andb].
  - repeat split.
  - destruct (getChainId (WebsocketProvider E (wssUrl config))) as [e|i] eqn:Hid.
    + unfold exec, tryCatch, bind, await, emit, modify. simpl. try rewrite Hid.
      repeat split.
    + unfold exec, tryCatch, bind, await, emit, modify, setConnection, logger,
        addConnectListener.
      simpl. try rewrite Hid. simpl.
      destruct (provider (WebsocketProvider E (wssUrl config))); simpl;
        repeat split.
Qed.

Lemma connectStep_other (m : gmap string Web3) configs k :
  k ∉ map cfg_name configs ->
  foldl (connectStep E) m configs !! k = m !! k.
Proof.
  revert m. induction configs as [|x rest IH]; intros m Hk; [reflexivity|].
  cbn [foldl]. rewrite IH by (intros H; apply Hk; now right).
  unfold connectStep. destruct (connectable E x); [|reflexivity].
  apply lookup_insert_ne. intros Heq. apply Hk. rewrite <- Heq. now left.
Qed.

Lemma connectStep_lookup (m : gmap string Web3) configs config :
  NoDup (map cfg_name configs) ->
  config ∈ configs ->
  connectable E config = true ->
  foldl (connectStep E) m configs !! cfg_name config
  = Some (WebsocketProvider E (wssUrl config)).
Proof.
  revert m. induction configs as [|x rest IH]; intros m Hnd Hin Hc.
  - now apply elem_of_nil in Hin.
  - cbn [map] in Hnd. apply NoDup_cons in Hnd as [Hx Hnd].
    apply elem_of_cons in Hin as [-> | Hin].
    + cbn [foldl]. rewrite connectStep_other by exact Hx.
      unfold connectStep. rewrite Hc. apply lookup_insert_eq.
    + cbn [foldl]. now apply IH.
Qed.

Lemma subscribeStep_other (m : gmap string Subscription) configs k :
  k ∉ map cfg_name configs ->
  foldl (subscribeStep E) m configs !! (k +:+ "-logs") = m !! (k +:+ "-logs").
Proof.
  revert m. induction configs as [|x rest IH]; intros m Hk; [reflexivity|].
  cbn [foldl]. rewrite IH by (intros H; apply Hk; now right).
  unfold subscribeStep. destruct (connectable E x); [|reflexivity].
  destruct (subscribe _ _); [reflexivity|].
  apply lookup_insert_ne. intros H. apply string_append_cancel_r in H.
  apply Hk. rewrite <- H. now left.
Qed.

Lemma subscribeStep_lookup (m : gmap string Subscription) configs config sub :
  NoDup (map cfg_name configs) ->
  config ∈ configs ->
  connectable E config = true ->
  subscribe (WebsocketProvider E (wssUrl config)) (map c_address (contracts config))
    = inr sub ->
  foldl (subscribeStep E) m configs !! (cfg_name config +:+ "-logs") = Some sub.
Proof.
  revert m. induction configs as [|x rest IH]; intros m Hnd Hin Hc Hsub.
  - now apply elem_of_nil in Hin.
  - cbn [map] in Hnd. apply NoDup_cons in Hnd as [Hx Hnd].
    apply elem_of_cons in Hin as [-> | Hin].
    + cbn [foldl]. rewrite subscribeStep_other by exact Hx.
      unfold subscribeStep. rewrite Hc, Hsub. apply lookup_insert_eq.
    + cbn [foldl]. now apply IH.
Qed.

Lemma listenStep_prefix ls configs x :
  x ∈ ls -> x ∈ foldl (listenStep E) ls configs.
Proof.
  revert ls. induction configs as [|c rest IH]; intros ls Hx; [exact Hx|].
  cbn [foldl]. apply IH. unfold listenStep.
  destruct (_ && _); [|exact Hx]. apply elem_of_app. now left.
Qed.

Lemma listenStep_elem ls configs config :
  config ∈ configs ->
  connectable E config = true ->
  provider (WebsocketProvider E (wssUrl config)) = true ->
  (cfg_name config, contracts config) ∈ foldl (listenStep E) ls configs.
Proof.
  revert ls. induction configs as [|x rest IH]; intros ls Hin Hc Hp.
  - now apply elem_of_nil in Hin.
  - apply elem_of_cons in Hin as [-> | Hin].
    + cbn [foldl]. apply listenStep_prefix. unfold listenStep.
      rewrite Hc, Hp. apply elem_of_app. right. now left.
    + cbn [foldl]. now apply IH.
Qed.

Lemma events_pass_spec configs : forall s : State Events.Event,
  (exists a, result (forOf configs (fun config =>
       tryCatch (Events.connectToChain E config)
         (fun error =>
            logger LvlError
              ("Failed to connect to " +:+ cfg_name config +:+ ": " +:+
               message error)))) s = inr a) /\
  web3Connections (exec (forOf configs (fun config =>
       tryCatch (Events.connectToChain E config)
         (fun error =>
            logger LvlError
              ("Failed to connect to " +:+ cfg_name config +:+ ": " +:+
               message error)))) s)
  = foldl (connectStep E) (web3Connections s) configs /\
  subscriptions (exec (forOf configs (fun config =>
       tryCatch (Events.connectToChain E config)
         (fun error =>
            logger LvlError
              ("Failed to connect to " +:+ cfg_name config +:+ ": " +:+
               message error)))) s)
  = foldl (subscribeStep E) (subscriptions s) configs.
Proof.
  induction configs as [|config rest IH]; intros s.
  - split; [now exists tt | split; reflexivity].
  - cbn [forOf foldl].
    set (iter := tryCatch (Events.connectToChain E config) _).
    assert (Hiter : exists a, result iter s = inr a).
    { subst iter. apply total_tryCatch. intros e. apply total_logger. }
    destruct Hiter as [a Ha].
    assert (Hmaps : web3Connections (exec iter s) = connectStep E (web3Connections s) config
                    /\ subscriptions (exec iter s) = subscribeStep E (subscriptions s) config).
    { destruct (events_connectToChain_spec config s) as [H1 H2].
      subst iter. unfold exec, tryCatch in *.
      destruct (Events.connectToChain E config s) as [[e|u] s']; simpl in *;
        now split. }
    destruct Hmaps as [H1 H2].
    destruct (IH (exec iter s)) as (Hr & Hc & Hs).
    rewrite <- H1, <- H2. unfold result, exec. rewrite (bind_ok _ _ s a Ha).
    split; [exact Hr | split; [exact Hc | exact Hs]].
Qed.

Lemma stockManager_pass_spec configs : forall s : State StockManager.StockManagerEvent,
  (exists a, result (forOf configs (fun config =>
       tryCatch (StockManager.connectToChain E config)
         (fun error =>
            logger LvlError
              ("Failed to connect to " +:+ cfg_name config +:+ ": " +:+
               message error)))) s = inr a) /\
  web3Connections (exec (forOf configs (fun config =>
       tryCatch (StockManager.connectToChain E config)
         (fun error =>
            logger LvlError
              ("Failed to connect to " +:+ cfg_name config +:+ ": " +:+
               message error)))) s)
  = foldl (connectStep E) (web3Connections s) configs /\
  subscriptions (exec (forOf configs (fun config =>
       tryCatch (StockManager.connectToChain E config)
         (fun error =>
            logger LvlError
              ("Failed to connect to " +:+ cfg_name config +:+ ": " +:+
               message error)))) s)
  = subscriptions s /\
  connectListeners (exec (forOf configs (fun config =>
       tryCatch (StockManager.connectToChain E config)
         (fun error =>
            logger LvlError
              ("Failed to connect to " +:+ cfg_name config +:+ ": " +:+
               message error)))) s)
  = foldl (listenStep E) (connectListeners s) configs.
Proof.
  induction configs as [|config rest IH]; intros s.
  - split; [now exists tt | repeat split].
  - cbn [forOf foldl].
    set (iter := tryCatch (StockManager.connectToChain E config) _).
    assert (Hiter : exists a, result iter s = inr a).
    { subst iter. apply total_tryCatch. intros e. apply total_logger. }
    destruct Hiter as [a Ha].
    assert (Hmaps : web3Connections (exec iter s) = connectStep E (web3Connections s) config
                    /\ subscriptions (exec iter s) = subscriptions s
                    /\ connectListeners (exec iter s)
                       = listenStep E (connectListeners s) config).
    { destruct (stockManager_connectToChain_spec config s) as (H1 & H2 & H3).
      subst iter. unfold exec, tryCatch in *.
      destruct (StockManager.connectToChain E config s) as [[e|u] s']; simpl in *;
        repeat split; assumption. }
    destruct Hmaps as (H1 & H2 & H3).
    destruct (IH (exec iter s)) as (Hr & Hc & Hs & Hl).
    rewrite <- H1, <- H2, <- H3. unfold result, exec. rewrite (bind_ok _ _ s a Ha).
    split; [exact Hr | split; [exact Hc | split; [exact Hs | exact Hl]]].
Qed.

Lemma events_connectToMultipleChains_spec configs (s : State Events.Event) :
  result (Events.connectToMultipleChains E configs) s = inr tt /\
  web3Connections (exec (Events.connectToMultipleChains E configs) s)
  = foldl (connectStep E) (web3Connections s) configs /\
  subscriptions (exec (Events.connectToMultipleChains E configs) s)
  = foldl (subscribeStep E) (subscriptions s) configs.
Proof.
  unfold Events.connectToMultipleChains, result, exec.
  rewrite (bind_ok _ _ s tt) by reflexivity.
  set (s1 := exec (logger LvlLog "Connecting to blockchains") s).
  destruct (events_pass_spec configs s1) as ([a Ha] & Hc & Hs).
  rewrite (bind_ok _ _ s1 a Ha).
  split; [reflexivity|].
  split; [etransitivity; [|exact Hc] | etransitivity; [|exact Hs]]; reflexivity.
Qed.

Lemma stockManager_connectToMultipleChains_spec configs
    (s : State StockManager.StockManagerEvent) :
  result (StockManager.connectToMultipleChains E configs) s = inr tt /\
  web3Connections (exec (StockManager.connectToMultipleChains E configs) s)
  = foldl (connectStep E) (web3Connections s) configs /\
  subscriptions (exec (StockManager.connectToMultipleChains E configs) s)
  = subscriptions s /\
  connectListeners (exec (StockManager.connectToMultipleChains E configs) s)
  = foldl (listenStep E) (connectListeners s) configs.
Proof.
  unfold StockManager.connectToMultipleChains, result, exec.
  rewrite (bind_ok _ _ s tt) by reflexivity.
  rewrite (bind_ok _ _ _ tt) by reflexivity.
  set (s1 := exec (setBlockchainConfigs configs) _).
  destruct (stockManager_pass_spec configs s1) as ([a Ha] & Hc & Hs & Hl).
  rewrite (bind_ok _ _ s1 a Ha).
  set (s2 := exec (forOf configs _) s1) in *.
  unfold StockManager.startHourlyBackfill, setConnected, logger, emit, modify,
    bind, gets, freshTimer, setBackfillInterval.
  simpl.
  destruct (backfillInterval s2); simpl;
    (split; [reflexivity|]);
    (split; [exact Hc | split; [exact Hs | exact Hl]]).
Qed.

Lemma stockManager_onProviderConnect_spec name cs web3 sub
    (s : State StockManager.StockManagerEvent) :
  web3Connections s !! name = Some web3 ->
  subscribe web3 (map c_address cs) = inr sub ->
  subscriptions (exec (StockManager.onProviderConnect name cs) s)
  = <[name +:+ "-logs" := sub]> (subscriptions s).
Proof.
  intros Hc Hsub. unfold StockManager.onProviderConnect, StockManager.subscribeToEvents.
  unfold exec, bind, gets, tryCatch, await, logger, emit, modify, setSubscription.
  simpl. rewrite Hc. simpl. rewrite Hsub. reflexivity.
Qed.

End ConnectionPass.

(** * Dating and storing a decoded event (stock-manager service) *)

Section StorePath.

Variable E : Env.

Import StockManager.

Lemma tryCatch_bind_ok {R A B} (m : M R A) (k : A -> M R B) (h : Exn -> M R B)
    (s : State R) a :
  result m s = inr a ->
  tryCatch (bind m k) h s = tryCatch (k a) h (exec m s).
Proof. intros H. unfold tryCatch. now rewrite (bind_ok m k s a H). Qed.

Lemma nowISOString_spec (s : State StockManagerEvent) :
  Date.invalidTime (clock E (ticks s)) = false ->
  result (nowISOString E) s = inr (Date.format (clock E (ticks s))) /\
  ticks (exec (nowISOString E) s) = S (ticks s).
Proof.
  intros H. unfold nowISOString, result, exec, bind, tick, emit, modify,
    Date.toISOString. simpl. rewrite H. split; reflexivity.
Qed.

Lemma fallback_spec (s : State StockManagerEvent) :
  clockValid E ->
  result (d <- nowISOString E ;; t' <- nowISOString E ;; ret (d, t')) s
  = inr (Date.format (clock E (ticks s)), Date.format (clock E (S (ticks s)))).
Proof.
  intros Hc. destruct (nowISOString_spec s (Hc _)) as [Hr1 Ht1].
  unfold result. rewrite (bind_ok _ _ s _ Hr1).
  destruct (nowISOString_spec (exec (nowISOString E) s) (Hc _)) as [Hr2 Ht2].
  rewrite (bind_ok _ _ _ _ Hr2). rewrite Ht1. reflexivity.
Qed.

Lemma getBlockDateFromTimestamp_result web3 bn (s : State StockManagerEvent) :
  clockValid E ->
  result (getBlockDateFromTimestamp E web3 bn) s
  = inr (blockDate E web3 bn (ticks s)).
Proof.
  intros Hc. unfold getBlockDateFromTimestamp, blockDate, degraded, blockTime.
  unfold result. rewrite tryCatch_await.
  assert (Hfb : forall s0 : State StockManagerEvent, ticks s0 = ticks s ->
            (d <- nowISOString E ;; t' <- nowISOString E ;; ret (d, t')) s0
            = (inr (Date.format (clock E (ticks s)),
                    Date.format (clock E (S (ticks s)))),
               exec (d <- nowISOString E ;; t' <- nowISOString E ;; ret (d, t')) s0)).
  { intros s0 Hs0. rewrite (run_eta _ s0) at 1.
    rewrite (fallback_spec s0 Hc), Hs0. reflexivity. }
  destruct (getBlock web3 bn) as [e | [[[t|]]|]].
  - unfold logger. unfold bind at 1. cbn [emit modify]. cbv beta iota.
    rewrite Hfb by reflexivity. reflexivity.
  - destruct (t =? 0) eqn:Ht0; cbn [negb orb].
    + unfold tryCatch. rewrite Hfb by reflexivity. reflexivity.
    + unfold Date.toISOString.
      destruct (Date.invalidTime (t * 1000)) eqn:Hinv.
      * unfold tryCatch, bind at 1. cbv beta iota.
        unfold logger. unfold bind at 1. cbn [emit modify]. cbv beta iota.
        rewrite Hfb by reflexivity. reflexivity.
      * reflexivity.
  - unfold tryCatch. rewrite Hfb by reflexivity. reflexivity.
  - unfold tryCatch. rewrite Hfb by reflexivity. reflexivity.
Qed.

Lemma findByTxHash_spec h (s : State StockManagerEvent) :
  dbOnline s = true ->
  findByTxHash E h s
  = (inr (findOne E transaction_hash h (rows s)), exec (emit (EFindByTxHash h)) s).
Proof.
  intros Hon. unfold findByTxHash, bind, emit, modify, gets, ret, exec. simpl.
  rewrite Hon. reflexivity.
Qed.

Lemma storeEventInDatabase_duplicate ev cn r0 (s : State StockManagerEvent) :
  dbOnline s = true ->
  findOne E transaction_hash (txHash ev) (rows s) = Some r0 ->
  storeEventInDatabase E ev cn s
  = (inr tt,
     exec (emit (EFindByTxHash (txHash ev)) ;;
           logger LvlWarn
             ("Duplicate event detected, skipping: " +:+ Js.show (txHash ev))) s).
Proof.
  intros Hon Hfind. unfold storeEventInDatabase, tryCatch.
  unfold bind at 1. rewrite (findByTxHash_spec _ s Hon), Hfind. reflexivity.
Qed.

Lemma storeEventInDatabase_new kind cn chain contract l d dt
    (s : State StockManagerEvent) :
  dbOnline s = true ->
  findOne E transaction_hash (transactionHash l) (rows s) = None ->
  storeEventInDatabase E (eventDataOf kind chain contract l d dt) cn s
  = (inr tt,
     exec (emit (EFindByTxHash (transactionHash l)) ;;
           emit (ECreate (dbEventOf kind (eventDataOf kind chain contract l d dt))) ;;
           insertRow (dbEventOf kind (eventDataOf kind chain contract l d dt)) ;;
           logger LvlLog
             (showEventType kind +:+ " event stored in database: " +:+
              Js.show (transactionHash l))) s).
Proof.
  intros Hon Hfind. unfold storeEventInDatabase, tryCatch.
  unfold bind at 1. rewrite (findByTxHash_spec _ s Hon). cbn [txHash eventDataOf].
  rewrite Hfind. cbv beta iota zeta.
  unfold create, bind, emit, modify, gets, insertRow, ret, logger, exec. simpl.
  rewrite Hon. destruct kind; reflexivity.
Qed.

Lemma toStringOf_ok (v : Value) :
  Js.isUndefined v = false -> toStringOf v = ret (VString (Js.str v)).
Proof. destruct v; [discriminate | reflexivity | reflexivity]. Qed.

Lemma bind_ret {R A B} (a : A) (k : A -> M R B) : bind (ret a) k = k a.
Proof. reflexivity. Qed.

Lemma storeEventInDatabase_total ev cn : total (storeEventInDatabase E ev cn).
Proof. apply total_tryCatch. intros e. apply total_logger. Qed.

(** A well-formed, decodable log reaches the store call with the event
    built from the decoded fields and the dating of its block. *)
Lemma processor_run kind cn contract l web3 d (s : State StockManagerEvent) :
  invalidLog (Some l) = false ->
  decoded E kind l = inr d ->
  wellDecoded d ->
  clockValid E ->
  processorOf E kind cn contract (Some l) web3 s
  = (inr tt,
     exec (storeEventInDatabase E
             (eventDataOf kind cn contract l d
                (blockDate E web3 (blockNumber l) (ticks s)))
             (c_name contract) ;;
           logger LvlLog
             (showEventType kind +:+ " event from " +:+ c_name contract +:+
              " on " +:+ cn))
       (exec (getBlockDateFromTimestamp E web3 (blockNumber l))
          (exec (emit (EDecodeLog (inputsOf kind) (data l)
                         [topic l 1; topic l 2; topic l 3])) s))).
Proof.
  intros Hvalid Hdec (Hu & Ha & Hs & Ham & Hta & Hfee) Hclock.
  unfold decoded in Hdec.
  set (s1 := exec (emit _) s).
  assert (Hdt : result (getBlockDateFromTimestamp E web3 (blockNumber l)) s1
                = inr (blockDate E web3 (blockNumber l) (ticks s))).
  { apply (getBlockDateFromTimestamp_result web3 (blockNumber l) s1 Hclock). }
  destruct kind; cbn [processorOf inputsOf showEventType] in *.
  - unfold processDepositedEvent. rewrite Hvalid. unfold abi_decodeLog.
    rewrite tryCatch_await, Hdec. fold s1.
    rewrite Hu, Ha, Hs, Ham, Hta, Hfee. cbn [negb orb].
    rewrite (tryCatch_bind_ok _ _ _ s1 _ Hdt).
    rewrite (toStringOf_ok _ Ham), bind_ret.
    rewrite (toStringOf_ok _ Hta), bind_ret.
    rewrite (toStringOf_ok _ Hfee), bind_ret.
    assert (Htot : forall ev msg,
              total (storeEventInDatabase E ev (c_name contract) ;;
                     logger LvlLog msg)).
    { intros ev msg. apply total_bind;
        [apply storeEventInDatabase_total | intros; apply total_logger]. }
    rewrite tryCatch_total by apply Htot. apply run_unit, Htot.
  - unfold processRedeemedEvent. rewrite Hvalid. unfold abi_decodeLog.
    rewrite tryCatch_await, Hdec. fold s1.
    rewrite Hu, Ha, Hs, Ham, Hta, Hfee. cbn [negb orb].
    rewrite (tryCatch_bind_ok _ _ _ s1 _ Hdt).
    rewrite (toStringOf_ok _ Hta), bind_ret.
    rewrite (toStringOf_ok _ Ham), bind_ret.
    rewrite (toStringOf_ok _ Hfee), bind_ret.
    assert (Htot : forall ev msg,
              total (storeEventInDatabase E ev (c_name contract) ;;
                     logger LvlLog msg)).
    { intros ev msg. apply total_bind;
        [apply storeEventInDatabase_total | intros; apply total_logger]. }
    rewrite tryCatch_total by apply Htot. apply run_unit, Htot.
Qed.

Lemma nowISOString_dating : keeps (grows datingEffect) (nowISOString E).
Proof. unfold nowISOString. keeps_auto. Qed.

Lemma getBlockDateFromTimestamp_dating web3 bn :
  keeps (grows datingEffect) (getBlockDateFromTimestamp E web3 bn).
Proof.
  pose proof nowISOString_dating.
  unfold getBlockDateFromTimestamp. keeps_auto.
Qed.

Lemma dating_no_create {R} (e : Effect R) : datingEffect e = true -> createOf e = None.
Proof. destruct e; simpl; congruence. Qed.

Lemma findOne_none_iff h table :
  findOne E transaction_hash (Some h) table = None <-> storedUnder h table = [].
Proof.
  unfold findOne, storedUnder. induction table as [|r table IH]; simpl; [tauto|].
  destruct (Js.strictEq (transaction_hash r) (Some h)); [split; discriminate | exact IH].
Qed.

Lemma findOne_appended h table r :
  storedUnder h table = [] ->
  transaction_hash r = Some h ->
  findOne E transaction_hash (Some h) (table ++ [r]) = Some r.
Proof.
  unfold findOne, storedUnder. intros Hnone Hr.
  induction table as [|x table IH]; simpl in *.
  - rewrite Hr. simpl. now rewrite String.eqb_refl.
  - destruct (Js.strictEq (transaction_hash x) (Some h)); [discriminate | now apply IH].
Qed.

Lemma storedUnder_appended h table r :
  storedUnder h table = [] ->
  transaction_hash r = Some h ->
  storedUnder h (table ++ [r]) = [r].
Proof.
  unfold storedUnder. intros Hnone Hr. rewrite List.filter_app, Hnone. simpl.
  rewrite Hr. simpl. now rewrite String.eqb_refl.
Qed.

Lemma dated_frame kind l web3 s :
  rows (dated E kind l web3 s) = rows s /\
  sameService s (dated E kind l web3 s) /\
  createCalls (trace (dated E kind l web3 s)) = createCalls (trace s).
Proof.
  unfold dated. set (s1 := exec (emit _) s).
  split; [|split].
  - apply (getBlockDateFromTimestamp_rows E web3 (blockNumber l) s1).
  - apply (getBlockDateFromTimestamp_service E web3 (blockNumber l) s1).
  - transitivity (createCalls (trace s1)).
    + apply (grows_observe datingEffect); [apply dating_no_create|].
      apply getBlockDateFromTimestamp_dating.
    + apply observe_app. reflexivity.
Qed.

(** First ingestion: the row is written. *)
Lemma processor_stores kind cn contract l web3 d h (s : State StockManagerEvent) :
  invalidLog (Some l) = false ->
  transactionHash l = Some h ->
  decoded E kind l = inr d ->
  wellDecoded d ->
  clockValid E ->
  dbOnline s = true ->
  storedUnder h (rows s) = [] ->
  result (processorOf E kind cn contract (Some l) web3) s = inr tt /\
  rows (exec (processorOf E kind cn contract (Some l) web3) s)
  = rows s ++ [dbEventOf kind (eventDataOf kind cn contract l d
                                 (blockDate E web3 (blockNumber l) (ticks s)))] /\
  createCalls (trace (exec (processorOf E kind cn contract (Some l) web3) s))
  = createCalls (trace s)
    ++ [dbEventOf kind (eventDataOf kind cn contract l d
                          (blockDate E web3 (blockNumber l) (ticks s)))].
Proof.
  intros Hvalid Hh Hdec Hwell Hclock Hon Hnone.
  unfold result, exec.
  rewrite (processor_run kind cn contract l web3 d s Hvalid Hdec Hwell Hclock).
  fold (dated E kind l web3 s).
  destruct (dated_frame kind l web3 s) as (Hrows & Hsv & Hcr).
  set (s2 := dated E kind l web3 s) in *.
  assert (Hon2 : dbOnline s2 = true).
  { destruct Hsv as (_ & _ & _ & _ & _ & _ & Hdb). now rewrite Hdb. }
  assert (Hnone2 : findOne E transaction_hash (transactionHash l) (rows s2) = None).
  { rewrite Hh, Hrows. now apply findOne_none_iff. }
  pose proof (storeEventInDatabase_new kind (c_name contract) cn contract l d
                (blockDate E web3 (blockNumber l) (ticks s)) s2 Hon2 Hnone2) as Hst.
  match goal with
  | |- context [exec (bind ?m ?k) s2] =>
      assert (Hfinal : exec (bind m k) s2 = exec (k tt) (snd (m s2)))
        by (unfold exec at 1; unfold bind at 1; now rewrite Hst);
      rewrite Hfinal, Hst
  end.
  clearbody s2. cbn [fst snd].
  split; [reflexivity|]. split.
  - simpl. now rewrite Hrows.
  - unfold createCalls in *. simpl. rewrite !omap_app. simpl.
    rewrite Hcr. now rewrite !app_nil_r.
Qed.

(** Ingestion of a hash that is already stored: nothing is written. *)
Lemma processor_skips kind cn contract l web3 d h (s : State StockManager.StockManagerEvent) :
  invalidLog (Some l) = false ->
  transactionHash l = Some h ->
  decoded E kind l = inr d ->
  wellDecoded d ->
  clockValid E ->
  dbOnline s = true ->
  storedUnder h (rows s) <> [] ->
  result (processorOf E kind cn contract (Some l) web3) s = inr tt /\
  rows (exec (processorOf E kind cn contract (Some l) web3) s) = rows s /\
  createCalls (trace (exec (processorOf E kind cn contract (Some l) web3) s))
  = createCalls (trace s) /\
  trace (exec (processorOf E kind cn contract (Some l) web3) s)
  = trace (dated E kind l web3 s)
    ++ [ EFindByTxHash (Some h);
         ELogger LvlWarn ("Duplicate event detected, skipping: " +:+ h);
         ELogger LvlLog (showEventType kind +:+ " event from " +:+
                         c_name contract +:+ " on " +:+ cn) ].
Proof.
  intros Hvalid Hh Hdec Hwell Hclock Hon Hsome.
  unfold result, exec.
  rewrite (processor_run kind cn contract l web3 d s Hvalid Hdec Hwell Hclock).
  fold (dated E kind l web3 s).
  destruct (dated_frame kind l web3 s) as (Hrows & Hsv & Hcr).
  set (s2 := dated E kind l web3 s) in *.
  assert (Hon2 : dbOnline s2 = true).
  { destruct Hsv as (_ & _ & _ & _ & _ & _ & Hdb). now rewrite Hdb. }
  destruct (findOne E transaction_hash (Some h) (rows s2)) as [r0|] eqn:Hfind.
  2:{ apply findOne_none_iff in Hfind. rewrite Hrows in Hfind. contradiction. }
  pose proof (storeEventInDatabase_duplicate
                (eventDataOf kind cn contract l d
                   (blockDate E web3 (blockNumber l) (ticks s)))
                (c_name contract) r0 s2 Hon2) as Hst.
  cbn [txHash eventDataOf] in Hst. rewrite Hh in Hst. specialize (Hst Hfind).
  match goal with
  | |- context [exec (bind ?m ?k) s2] =>
      assert (Hfinal : exec (bind m k) s2 = exec (k tt) (snd (m s2)))
        by (unfold exec at 1; unfold bind at 1; now rewrite Hst);
      rewrite Hfinal, Hst
  end.
  clearbody s2. cbn [fst snd].
  split; [reflexivity|]. split; [|split].
  - simpl. now rewrite Hrows.
  - unfold createCalls in *. simpl. rewrite !omap_app. simpl.
    rewrite Hcr. now rewrite !app_nil_r.
  - simpl. now rewrite <- !app_assoc.
Qed.

End StorePath.

(** * Degraded timestamps *)

Section Timestamps.

Variable E : Env.

Lemma includes_app c (a b : string) :
  Js.includes c (a +:+ b) = Js.includes c a || Js.includes c b.
Proof.
  induction a as [|x a IH]; simpl; [reflexivity|]. rewrite IH. apply orb_assoc.
Qed.

Lemma pretty_N_char_not_T x : Ascii.eqb (pretty_N_char x) "T" = false.
Proof. unfold pretty_N_char. repeat case_match; reflexivity. Qed.

Lemma pretty_N_go_includes_T x : forall s,
  Js.includes "T" (pretty_N_go x s) = Js.includes "T" s.
Proof.
  induction (N.lt_wf_0 x) as [x _ IH]; intros s.
  assert (x = 0 \/ 0 < x)%N as [-> | Hpos] by lia.
  - now rewrite pretty_N_go_0.
  - rewrite pretty_N_go_step by exact Hpos.
    rewrite IH by (now apply N.div_lt). simpl.
    now rewrite pretty_N_char_not_T.
Qed.

Lemma pretty_N_no_T (n : N) : Js.includes "T" (pretty n) = false.
Proof.
  unfold pretty, pretty_N. case_decide; [reflexivity|].
  now rewrite pretty_N_go_includes_T.
Qed.

Lemma pretty_Z_no_T (z : Z) : Js.includes "T" (pretty z) = false.
Proof.
  unfold pretty, pretty_Z. destruct z as [|p|p]; [reflexivity | |].
  - apply (pretty_N_no_T (Npos p)).
  - simpl. apply (pretty_N_no_T (Npos p)).
Qed.

Lemma format_has_T ms : Js.includes "T" (Date.format ms) = true.
Proof.
  unfold Date.format. destruct (Date.civilFromDays _) as [[y m] d].
  rewrite !includes_app. simpl. rewrite !orb_true_r. reflexivity.
Qed.

(** An ISO date string is never the decimal numeral of a block timestamp. *)
Lemma format_not_numeral ms (z : Z) : Date.format ms <> pretty z.
Proof.
  intros H. pose proof (format_has_T ms) as Hf. rewrite H, pretty_Z_no_T in Hf.
  discriminate.
Qed.

Lemma degraded_cases web3 bn :
  (forall e, getBlock web3 bn = inl e -> degraded web3 bn = true) /\
  (getBlock web3 bn = inr None -> degraded web3 bn = true) /\
  (getBlock web3 bn = inr (Some {| b_timestamp := None |}) ->
   degraded web3 bn = true) /\
  (forall t, getBlock web3 bn = inr (Some {| b_timestamp := Some t |}) ->
   degraded web3 bn = (t =? 0) || Date.invalidTime (t * 1000)).
Proof.
  unfold degraded. repeat split; intros; rewrite H; reflexivity.
Qed.

Lemma events_nowISOString_spec (s : State Events.Event) :
  Date.invalidTime (clock E (ticks s)) = false ->
  result (Events.nowISOString E) s = inr (Date.format (clock E (ticks s))) /\
  ticks (exec (Events.nowISOString E) s) = S (ticks s).
Proof.
  intros H. unfold Events.nowISOString, result, exec, bind, tick, emit, modify,
    Date.toISOString. simpl. rewrite H. split; reflexivity.
Qed.

Lemma events_fallback_spec (s : State Events.Event) :
  clockValid E ->
  result (d <- Events.nowISOString E ;; t' <- Events.nowISOString E ;; ret (d, t')) s
  = inr (Date.format (clock E (ticks s)), Date.format (clock E (S (ticks s)))).
Proof.
  intros Hc. destruct (events_nowISOString_spec s (Hc _)) as [Hr1 Ht1].
  unfold result. rewrite (bind_ok _ _ s _ Hr1).
  destruct (events_nowISOString_spec (exec (Events.nowISOString E) s) (Hc _))
    as [Hr2 Ht2].
  rewrite (bind_ok _ _ _ _ Hr2). rewrite Ht1. reflexivity.
Qed.

Lemma events_getBlockDateFromTimestamp_result web3 bn (s : State Events.Event) :
  clockValid E ->
  result (Events.getBlockDateFromTimestamp E web3 bn) s
  = inr (blockDate E web3 bn (ticks s)).
Proof.
  intros Hc. unfold Events.getBlockDateFromTimestamp, blockDate, degraded, blockTime.
  unfold result. rewrite tryCatch_await.
  assert (Hfb : forall s0 : State Events.Event, ticks s0 = ticks s ->
            (d <- Events.nowISOString E ;; t' <- Events.nowISOString E ;; ret (d, t')) s0
            = (inr (Date.format (clock E (ticks s)),
                    Date.format (clock E (S (ticks s)))),
               exec (d <- Events.nowISOString E ;; t' <- Events.nowISOString E ;;
                     ret (d, t')) s0)).
  { intros s0 Hs0. rewrite (run_eta _ s0) at 1.
    rewrite (events_fallback_spec s0 Hc), Hs0. reflexivity. }
  destruct (getBlock web3 bn) as [e | [[[t|]]|]].
  - unfold logger. unfold bind at 1. cbn [emit modify]. cbv beta iota.
    rewrite Hfb by reflexivity. reflexivity.
  - destruct (t =? 0) eqn:Ht0; cbn [negb orb].
    + unfold tryCatch. rewrite Hfb by reflexivity. reflexivity.
    + unfold Date.toISOString.
      destruct (Date.invalidTime (t * 1000)) eqn:Hinv.
      * unfold tryCatch, bind at 1. cbv beta iota.
        unfold logger. unfold bind at 1. cbn [emit modify]. cbv beta iota.
        rewrite Hfb by reflexivity. reflexivity.
      * reflexivity.
  - unfold tryCatch. rewrite Hfb by reflexivity. reflexivity.
  - unfold tryCatch. rewrite Hfb by reflexivity. reflexivity.
Qed.

End Timestamps.

(** C8: the block-timestamp lookup never aborts the processing of a
    decoded event.  [getBlockDateFromTimestamp] always returns, in both
    services; when the lookup throws, or the block or its timestamp is
    absent (or zero, or not a valid time), it returns two readings of the
    wall clock as ISO strings.  The event is stored with both fields, [date]
    and [timestamp]: for a degraded lookup both hold wall-clock ISO
    strings, and the [timestamp] column is then not a decimal numeral;
    otherwise [date] is the block time and [timestamp] is the raw block
    timestamp in decimal. *)
Theorem timestamp_lookup_degrades (E : Env) (kind : StockManager.EventType)
    (chainName : string) (contract : ContractConfig) (l : RawLog) (web3 : Web3)
    (d : Abi.Decoded) (h : string) (s : State StockManager.StockManagerEvent) :
  StockManager.invalidLog (Some l) = false ->
  transactionHash l = Some h ->
  decoded E kind l = inr d ->
  wellDecoded d ->
  clockValid E ->
  dbOnline s = true ->
  storedUnder h (rows s) = [] ->
  (forall bn (s0 : State StockManager.StockManagerEvent),
     result (StockManager.getBlockDateFromTimestamp E web3 bn) s0
     = inr (blockDate E web3 bn (ticks s0))) /\
  (forall bn (s0 : State Events.Event),
     result (Events.getBlockDateFromTimestamp E web3 bn) s0
     = inr (blockDate E web3 bn (ticks s0))) /\
  ((forall e, getBlock web3 (blockNumber l) = inl e ->
      degraded web3 (blockNumber l) = true) /\
   (getBlock web3 (blockNumber l) = inr None ->
      degraded web3 (blockNumber l) = true) /\
   (getBlock web3 (blockNumber l) = inr (Some {| b_timestamp := None |}) ->
      degraded web3 (blockNumber l) = true) /\
   (forall t, getBlock web3 (blockNumber l) = inr (Some {| b_timestamp := Some t |}) ->
      degraded web3 (blockNumber l) = (t =? 0) || Date.invalidTime (t * 1000))) /\
  exists r,
    rows (exec (processorOf E kind chainName contract (Some l) web3) s)
    = rows s ++ [r] /\
    (degraded web3 (blockNumber l) = true ->
       StockManager.date r = NewDate (Date.format (clock E (ticks s))) /\
       StockManager.timestamp r = Date.format (clock E (S (ticks s))) /\
       forall z : Z, StockManager.timestamp r <> pretty z) /\
    (degraded web3 (blockNumber l) = false ->
       StockManager.date r
       = NewDate (Date.format (blockTime web3 (blockNumber l) * 1000)) /\
       StockManager.timestamp r = pretty (blockTime web3 (blockNumber l))).
Proof.
  intros Hvalid Hh Hdec Hwell Hclock Hon Hnone.
  refine (conj _ (conj _ (conj _ _))).
  - intros bn s0. now apply getBlockDateFromTimestamp_result.
  - intros bn s0. now apply events_getBlockDateFromTimestamp_result.
  - apply degraded_cases.
  - destruct (processor_stores E kind chainName contract l web3 d h s
                Hvalid Hh Hdec Hwell Hclock Hon Hnone) as (_ & Hrows & _).
    eexists. split; [exact Hrows|].
    unfold blockDate. split; intros Hdeg; rewrite Hdeg; cbn.
    + split; [reflexivity|]. split; [reflexivity|].
      intros z. apply format_not_numeral.
    + split; reflexivity.
Qed.

Lemma demo_clockValid : clockValid Demo.env.
Proof.
  intros n. unfold Date.invalidTime, Date.maxTime. cbn [clock Demo.env].
  pose proof (Z.mod_pos_bound (Z.of_nat n) 86400000 ltac:(lia)).
  apply orb_false_iff. split; apply Z.ltb_ge; lia.
Qed.

Lemma demo_wellDecoded :
  wellDecoded Demo.decodedDeposit /\ wellDecoded Demo.decodedRedemption.
Proof. split; repeat split. Qed.

Lemma timestamp_lookup_degrades_witness :
  StockManager.invalidLog (Some Demo.deposit) = false /\
  transactionHash Demo.deposit = Some "0xabc" /\
  decoded Demo.env StockManager.Deposited Demo.deposit = inr Demo.decodedDeposit /\
  wellDecoded Demo.decodedDeposit /\
  clockValid Demo.env /\
  dbOnline Demo.running = true /\
  storedUnder "0xabc" (rows Demo.running) = [] /\
  degraded Demo.pruned (Some 1500) = true /\
  exists r,
    rows (exec (StockManager.processDepositedEvent Demo.env "bsc" Demo.vault
                  (Some Demo.deposit) Demo.pruned) Demo.running) = [r] /\
    StockManager.date r = NewDate "2023-11-14T22:13:20.000Z" /\
    StockManager.timestamp r = "2023-11-14T22:13:20.001Z".
Proof.
  refine (conj eq_refl (conj eq_refl (conj eq_refl
            (conj (proj1 demo_wellDecoded) (conj demo_clockValid
               (conj eq_refl (conj eq_refl (conj eq_refl _)))))))).
  destruct (timestamp_lookup_degrades Demo.env StockManager.Deposited "bsc"
              Demo.vault Demo.deposit Demo.pruned Demo.decodedDeposit "0xabc"
              Demo.running eq_refl eq_refl eq_refl (proj1 demo_wellDecoded)
              demo_clockValid eq_refl eq_refl)
    as (_ & _ & _ & r & Hrows & Hdeg & _).
  exists r. split; [exact Hrows|].
  destruct (Hdeg eq_refl) as (Hd & Ht & _). split; [exact Hd | exact Ht].
Defined.

(** * Field mirroring *)

Section Mirroring.

Variable E : Env.

(** The ABI layouts put the payload words in the order (amount,
    tokenAmount, fee) for Deposited and (tokenAmount, amount, fee) for
    Redeemed. *)
Lemma decodeLog_positions (payload : string) (t1 t2 t3 : option string)
    (a1 a2 a3 w1 w2 w3 : Value) :
  Js.truthyString payload = true ->
  decodeParameters E ["uint256"; "uint256"; "uint256"] payload = inr [w1; w2; w3] ->
  decodeParameter E "address" t1 = inr a1 ->
  decodeParameter E "address" t2 = inr a2 ->
  decodeParameter E "address" t3 = inr a3 ->
  Abi.decodeLog E StockManager.depositedInputs (Some payload) [t1; t2; t3]
  = inr [ ("user", a1); ("assetToken", a2); ("stablecoin", a3);
          ("amount", w1); ("tokenAmount", w2); ("fee", w3) ] /\
  Abi.decodeLog E StockManager.redeemedInputs (Some payload) [t1; t2; t3]
  = inr [ ("user", a1); ("assetToken", a2); ("stablecoin", a3);
          ("tokenAmount", w1); ("amount", w2); ("fee", w3) ].
Proof.
  intros Hp Hw H1 H2 H3. unfold Abi.decodeLog. cbn.
  rewrite Hp, Hw. cbn. rewrite H1, H2, H3. split; reflexivity.
Qed.

End Mirroring.

(** C2: a successfully decoded Deposited log with decoded amount [A],
    tokenAmount [B] and fee [F] is persisted with amount_deposited = A,
    tokens_minted = B, tokens_redeemed = 0, amount_returned = 0 and
    fee = F; a successfully decoded Redeemed log, whose payload is laid out
    as (tokenAmount, amount, fee), is persisted with
    tokens_redeemed = tokenAmount, amount_returned = amount,
    amount_deposited = 0 and tokens_minted = 0.  The numbers are stored as
    decimal strings. *)
Theorem field_mirroring (E : Env) (chainName : string) (contract : ContractConfig)
    (l : RawLog) (web3 : Web3) (d : Abi.Decoded) (h : string)
    (A B F : Z) (s : State StockManager.StockManagerEvent) :
  StockManager.invalidLog (Some l) = false ->
  transactionHash l = Some h ->
  wellDecoded d ->
  Abi.get d "amount" = VBigInt A ->
  Abi.get d "tokenAmount" = VBigInt B ->
  Abi.get d "fee" = VBigInt F ->
  clockValid E ->
  dbOnline s = true ->
  storedUnder h (rows s) = [] ->
  (decoded E StockManager.Deposited l = inr d ->
   exists r,
     rows (exec (StockManager.processDepositedEvent E chainName contract
                   (Some l) web3) s) = rows s ++ [r] /\
     StockManager.event_type r = "deposited" /\
     StockManager.amount_deposited r = VString (pretty A) /\
     StockManager.tokens_minted r = VString (pretty B) /\
     StockManager.tokens_redeemed r = VString "0" /\
     StockManager.amount_returned r = VString "0" /\
     StockManager.fee r = VString (pretty F)) /\
  (decoded E StockManager.Redeemed l = inr d ->
   exists r,
     rows (exec (StockManager.processRedeemedEvent E chainName contract
                   (Some l) web3) s) = rows s ++ [r] /\
     StockManager.event_type r = "redeemed" /\
     StockManager.tokens_redeemed r = VString (pretty B) /\
     StockManager.amount_returned r = VString (pretty A) /\
     StockManager.amount_deposited r = VString "0" /\
     StockManager.tokens_minted r = VString "0" /\
     StockManager.fee r = VString (pretty F)) /\
  map abi_name (List.filter (fun i => negb (indexed i)) StockManager.depositedInputs)
    = ["amount"; "tokenAmount"; "fee"] /\
  map abi_name (List.filter (fun i => negb (indexed i)) StockManager.redeemedInputs)
    = ["tokenAmount"; "amount"; "fee"].
Proof.
  intros Hvalid Hh Hwell HA HB HF Hclock Hon Hnone.
  refine (conj _ (conj _ (conj _ _))).
  - intros Hdec.
    destruct (processor_stores E StockManager.Deposited chainName contract l web3
                d h s Hvalid Hh Hdec Hwell Hclock Hon Hnone) as (_ & Hrows & _).
    eexists. split; [exact Hrows|]. cbn. rewrite HA, HB, HF.
    repeat split.
  - intros Hdec.
    destruct (processor_stores E StockManager.Redeemed chainName contract l web3
                d h s Hvalid Hh Hdec Hwell Hclock Hon Hnone) as (_ & Hrows & _).
    eexists. split; [exact Hrows|]. cbn. rewrite HA, HB, HF.
    repeat split.
  - reflexivity.
  - reflexivity.
Qed.

Lemma field_mirroring_witness :
  StockManager.invalidLog (Some Demo.redemption) = false /\
  transactionHash Demo.redemption = Some "0xdef" /\
  wellDecoded Demo.decodedRedemption /\
  Abi.get Demo.decodedRedemption "amount" = VBigInt 200 /\
  Abi.get Demo.decodedRedemption "tokenAmount" = VBigInt 100 /\
  Abi.get Demo.decodedRedemption "fee" = VBigInt 3 /\
  clockValid Demo.env /\
  dbOnline Demo.running = true /\
  storedUnder "0xdef" (rows Demo.running) = [] /\
  decoded Demo.env StockManager.Redeemed Demo.redemption
    = inr Demo.decodedRedemption /\
  exists r,
    rows (exec (StockManager.processRedeemedEvent Demo.env "bsc" Demo.vault
                  (Some Demo.redemption) Demo.node) Demo.running) = [r] /\
    StockManager.tokens_redeemed r = VString "100" /\
    StockManager.amount_returned r = VString "200" /\
    StockManager.amount_deposited r = VString "0" /\
    StockManager.tokens_minted r = VString "0".
Proof.
  refine (conj eq_refl (conj eq_refl (conj (proj2 demo_wellDecoded)
            (conj eq_refl (conj eq_refl (conj eq_refl (conj demo_clockValid
               (conj eq_refl (conj eq_refl (conj eq_refl _)))))))))).
  destruct (field_mirroring Demo.env "bsc" Demo.vault Demo.redemption Demo.node
              Demo.decodedRedemption "0xdef" 200 100 3 Demo.running
              eq_refl eq_refl (proj2 demo_wellDecoded) eq_refl eq_refl eq_refl
              demo_clockValid eq_refl eq_refl) as (_ & Hred & _).
  destruct (Hred eq_refl) as (r & Hrows & _ & Htr & Har & Had & Htm & _).
  exists r. repeat split; assumption.
Defined.

(** * Idempotent ingestion *)

Section Idempotence.

Variable E : Env.

Import StockManager.

Lemma processLog_as_processor kind cn contracts contract l web3 ts
    (s : State StockManagerEvent) :
  topics l = Some ts ->
  routed cn contracts l contract web3 s ->
  selects E (ts !! 0%nat) kind ->
  processLog E cn contracts (Some l) s
  = processorOf E kind cn contract (Some l) web3
      (exec (emit (ESha3 depositedPrototype) ;; emit (ESha3 redeemedPrototype)) s).
Proof.
  intros Ht (Ha & Hf & Hc) Hsel.
  rewrite (stockManager_processLog_dispatch E cn contracts l contract web3 ts s
             Ht Ha Hf Hc).
  destruct kind; cbn [selects processorOf] in *.
  - now rewrite Hsel.
  - destruct Hsel as [Hd Hr]. now rewrite Hd, Hr.
Qed.

Lemma processorOf_service kind cn contract log web3 :
  keeps sameService (processorOf E kind cn contract log web3).
Proof.
  destruct kind; [apply processDepositedEvent_service
                 | apply processRedeemedEvent_service].
Qed.

Lemma hashed_frame (s : State StockManagerEvent) :
  rows (exec (emit (ESha3 depositedPrototype) ;; emit (ESha3 redeemedPrototype)) s)
    = rows s /\
  dbOnline (exec (emit (ESha3 depositedPrototype) ;; emit (ESha3 redeemedPrototype)) s)
    = dbOnline s /\
  web3Connections
    (exec (emit (ESha3 depositedPrototype) ;; emit (ESha3 redeemedPrototype)) s)
    = web3Connections s /\
  ticks (exec (emit (ESha3 depositedPrototype) ;; emit (ESha3 redeemedPrototype)) s)
    = ticks s /\
  createCalls (trace
    (exec (emit (ESha3 depositedPrototype) ;; emit (ESha3 redeemedPrototype)) s))
    = createCalls (trace s).
Proof.
  repeat split. unfold createCalls, exec, bind, emit, modify. simpl.
  rewrite !omap_app. simpl. now rewrite !app_nil_r.
Qed.

Lemma processEventWithDeduplication_skips cn contract l web3 kind h r
    (s : State StockManagerEvent) :
  transactionHash l = Some h ->
  dbOnline s = true ->
  findOne E transaction_hash (Some h) (rows s) = Some r ->
  processEventWithDeduplication E cn contract (Some l) web3 kind s
  = (inr false, exec (emit (EFindByTxHash (Some h))) s).
Proof.
  intros Hh Hon Hfind. unfold processEventWithDeduplication, tryCatch.
  rewrite Hh. unfold bind at 1. rewrite (findByTxHash_spec E _ s Hon), Hfind.
  reflexivity.
Qed.

End Idempotence.


(** * Invariants of the store under every call *)

Section MoreLogic.

Context {R : Type}.

Variable I : State R -> State R -> Prop.
Hypothesis I_trans : forall a b c, I a b -> I b c -> I a c.

(** The continuation need only be considered on the values the first
    computation can return. *)
Lemma keeps_bind_returns {A B} (m : M R A) (k : A -> M R B) :
  keeps I m -> (forall a, returns m a -> keeps I (k a)) -> keeps I (bind m k).
Proof.
  intros Hm Hk s. unfold exec, bind. specialize (Hm s). unfold exec in Hm.
  destruct (m s) as [[e|a] s'] eqn:Hms; simpl in *; [assumption|].
  eapply I_trans; [eassumption|]. apply Hk. exists s. unfold result. now rewrite Hms.
Qed.

Lemma keeps_forOf_elem {A} (l : list A) (body : A -> M R unit) :
  (forall s, I s s) ->
  (forall x, x ∈ l -> keeps I (body x)) -> keeps I (forOf l body).
Proof.
  intros I_refl. induction l as [|x l IH]; intros Hb; simpl.
  - intros s. apply I_refl.
  - apply keeps_bind; [exact I_trans | apply Hb; left |].
    intros _. apply IH. intros y Hy. apply Hb. now right.
Qed.

End MoreLogic.

Section SameStore.

Context {R : Type}.

Implicit Types s a b c : State R.

Lemma sameStore_refl s : sameStore s s.
Proof. split; reflexivity. Qed.

Lemma sameStore_trans a b c : sameStore a b -> sameStore b c -> sameStore a c.
Proof. unfold sameStore. intuition congruence. Qed.

Lemma appends_refl (P : R -> Prop) s : appends P s s.
Proof. exists []. split; [now rewrite app_nil_r | constructor]. Qed.

Lemma appends_trans (P : R -> Prop) a b c :
  appends P a b -> appends P b c -> appends P a c.
Proof.
  intros (d1 & H1 & F1) (d2 & H2 & F2). exists (d1 ++ d2). split.
  - rewrite H2, H1. now rewrite app_assoc.
  - apply Forall_app. now split.
Qed.

Lemma appends_sameStore (P : R -> Prop) s s' : sameStore s s' -> appends P s s'.
Proof. intros [Hr _]. exists []. split; [now rewrite app_nil_r | constructor]. Qed.

Lemma offline_refl s : offline s s.
Proof. intros H. now split. Qed.

Lemma offline_trans a b c : offline a b -> offline b c -> offline a c.
Proof.
  intros H1 H2 Ha. destruct (H1 Ha) as [Hr1 Hb]. destruct (H2 Hb) as [Hr2 Hc].
  split; [congruence | exact Hc].
Qed.

Lemma offline_sameStore s s' : sameStore s s' -> offline s s'.
Proof. intros [Hr Hd] H. split; [exact Hr | congruence]. Qed.

End SameStore.

Lemma uniqueHashes_refl s : uniqueHashes s s.
Proof. intros H. exact H. Qed.

Lemma uniqueHashes_trans a b c : uniqueHashes a b -> uniqueHashes b c -> uniqueHashes a c.
Proof. unfold uniqueHashes. auto. Qed.

Lemma uniqueHashes_sameStore s s' : sameStore s s' -> uniqueHashes s s'.
Proof. intros [Hr _] H. now rewrite Hr. Qed.

#[local] Hint Resolve sameStore_refl sameStore_trans appends_refl appends_trans
  offline_refl offline_trans uniqueHashes_refl uniqueHashes_trans : frames.

(** A step that touches neither the table nor the database flag. *)
Ltac store_leaf := intros ?; split; reflexivity.

Ltac walk leaf :=
  repeat match goal with
  | |- keeps _ (bind _ _) => apply keeps_bind; [eauto with frames .. | idtac | intros]
  | |- keeps _ (tryCatch _ _) => apply keeps_tryCatch; [eauto with frames .. | idtac | intros]
  | |- keeps _ (forOf _ _) => apply keeps_forOf; [eauto with frames .. | intros]
  | |- keeps _ (await _ _) => unfold await
  | |- keeps _ (logger _ _) => unfold logger
  | |- keeps _ (if ?b then _ else _) => destruct b
  | |- keeps _ (match ?x with _ => _ end) => destruct x
  | |- keeps _ (let _ := _ in _) => cbv zeta
  | |- keeps _ _ => solve [eauto with frames]
  | |- keeps _ _ => leaf
  end.

(** ** What never touches the store *)

Section StoreFrames.

Variable E : Env.

Variable C : Closing.

Import StockManager.

Lemma findByTxHash_store h : keeps sameStore (findByTxHash E h).
Proof. unfold findByTxHash. walk store_leaf. Qed.

Lemma getBlockDateFromTimestamp_store web3 bn :
  keeps sameStore (getBlockDateFromTimestamp E web3 bn).
Proof. unfold getBlockDateFromTimestamp, nowISOString. walk store_leaf. Qed.

Lemma pastLogs_store web3 contract b e p :
  keeps sameStore (pastLogs E web3 contract b e p).
Proof. unfold pastLogs, signatureTopic, utils_sha3. walk store_leaf. Qed.

Lemma subscribeToEvents_store cn cs : keeps sameStore (subscribeToEvents cn cs).
Proof. unfold subscribeToEvents. walk store_leaf. Qed.

Lemma onProviderConnect_store cn cs : keeps sameStore (onProviderConnect cn cs).
Proof.
  unfold onProviderConnect. pose proof subscribeToEvents_store. walk store_leaf.
Qed.

Lemma connectToChain_store config : keeps sameStore (connectToChain E config).
Proof. unfold connectToChain. walk store_leaf. Qed.

Lemma startHourlyBackfill_store : keeps sameStore (startHourlyBackfill).
Proof. unfold startHourlyBackfill. walk store_leaf. Qed.

Lemma stopHourlyBackfill_store : keeps sameStore (stopHourlyBackfill).
Proof. unfold stopHourlyBackfill. walk store_leaf. Qed.

Lemma connectToMultipleChains_store configs :
  keeps sameStore (connectToMultipleChains E configs).
Proof.
  pose proof connectToChain_store. pose proof startHourlyBackfill_store.
  unfold connectToMultipleChains. walk store_leaf.
Qed.

Lemma disconnect_store : keeps sameStore (disconnect C).
Proof. unfold disconnect. walk store_leaf. Qed.

Lemma onModuleDestroy_store : keeps sameStore (onModuleDestroy C).
Proof.
  pose proof disconnect_store. pose proof stopHourlyBackfill_store.
  unfold onModuleDestroy. walk store_leaf.
Qed.

End StoreFrames.

(** ** From the two processors to every call

    All writes go through [processDepositedEvent] and
    [processRedeemedEvent]: a relation between states that holds across
    these two, and across every step that leaves the store alone, holds
    across every call. *)

Section CallsKeep.

Variable E : Env.

Variable C : Closing.

Variable configured : list BlockchainConfig.

Variable I : State StockManager.StockManagerEvent
             -> State StockManager.StockManagerEvent -> Prop.

Hypothesis I_refl : forall s, I s s.
Hypothesis I_trans : forall a b c, I a b -> I b c -> I a c.
Hypothesis I_store : forall s s', sameStore s s' -> I s s'.

Hypothesis I_deposited : forall cn c log web3,
  keeps I (StockManager.processDepositedEvent E cn c log web3).

Hypothesis I_redeemed : forall cn c log web3,
  keeps I (StockManager.processRedeemedEvent E cn c log web3).

Import StockManager.

Lemma keeps_of_sameStore {A} (m : M StockManagerEvent A) :
  keeps sameStore m -> keeps I m.
Proof. intros H s. apply I_store, H. Qed.

#[local] Hint Resolve findByTxHash_store getBlockDateFromTimestamp_store
  pastLogs_store subscribeToEvents_store onProviderConnect_store
  connectToChain_store startHourlyBackfill_store stopHourlyBackfill_store
  connectToMultipleChains_store disconnect_store onModuleDestroy_store : frames.

Ltac call_leaf :=
  apply keeps_of_sameStore; first [solve [eauto with frames] | store_leaf].

Lemma processLog_keeps cn cs log : keeps I (processLog E cn cs log).
Proof. unfold processLog, topics0, utils_sha3. walk call_leaf. Qed.

Lemma onSubscriptionData_keeps cn cs log : keeps I (onSubscriptionData E cn cs log).
Proof. pose proof processLog_keeps. unfold onSubscriptionData. walk call_leaf. Qed.

Lemma processEventWithDeduplication_keeps cn c log web3 ty :
  keeps I (processEventWithDeduplication E cn c log web3 ty).
Proof. unfold processEventWithDeduplication. walk call_leaf. Qed.

Lemma fetchAndStoreContractEvents_keeps web3 cn c f t :
  keeps I (fetchAndStoreContractEvents E web3 cn c f t).
Proof. unfold fetchAndStoreContractEvents. walk call_leaf. Qed.

Lemma fetchAndStoreContractEventsWithDeduplication_keeps web3 cn c f t :
  keeps I (fetchAndStoreContractEventsWithDeduplication E web3 cn c f t).
Proof.
  pose proof processEventWithDeduplication_keeps.
  unfold fetchAndStoreContractEventsWithDeduplication. walk call_leaf.
Qed.

Lemma storePreviousEvents_keeps configs fb : keeps I (storePreviousEvents E configs fb).
Proof.
  pose proof fetchAndStoreContractEvents_keeps.
  unfold storePreviousEvents, storePreviousEventsForChain. walk call_leaf.
Qed.

Lemma backfillLastBlocks_keeps config n : keeps I (backfillLastBlocks E config n).
Proof.
  pose proof fetchAndStoreContractEventsWithDeduplication_keeps.
  unfold backfillLastBlocks. walk call_leaf.
Qed.

Lemma performHourlyBackfill_keeps : keeps I (performHourlyBackfill E).
Proof.
  pose proof backfillLastBlocks_keeps. unfold performHourlyBackfill. walk call_leaf.
Qed.

Lemma triggerManualBackfill_keeps n : keeps I (triggerManualBackfill E n).
Proof.
  pose proof backfillLastBlocks_keeps. unfold triggerManualBackfill. walk call_leaf.
Qed.

Lemma triggerBackfill_keeps bc : keeps I (Web3Controller.triggerBackfill E bc).
Proof.
  pose proof triggerManualBackfill_keeps.
  unfold Web3Controller.triggerBackfill. walk call_leaf.
Qed.

Lemma controller_storePreviousEvents_keeps body fb :
  keeps I (Web3Controller.storePreviousEvents E configured body fb).
Proof.
  pose proof storePreviousEvents_keeps.
  unfold Web3Controller.storePreviousEvents. walk call_leaf.
Qed.

Lemma perform_keeps c :
  (forall b, c = CallDatabase b -> keeps I (setDbOnline b)) ->
  keeps I (perform E C configured c).
Proof.
  intros Hdb.
  pose proof onSubscriptionData_keeps. pose proof storePreviousEvents_keeps.
  pose proof triggerManualBackfill_keeps. pose proof performHourlyBackfill_keeps.
  pose proof triggerBackfill_keeps. pose proof controller_storePreviousEvents_keeps.
  destruct c; cbn [perform]; try (apply Hdb; reflexivity); walk call_leaf.
Qed.

Lemma run_keeps calls :
  (forall b, CallDatabase b ∈ calls -> keeps I (setDbOnline b)) ->
  forall s, I s (run E C configured calls s).
Proof.
  induction calls as [|c calls IH]; intros Hdb s; [apply I_refl|].
  cbn [run foldl]. eapply I_trans.
  - apply (perform_keeps c). intros b ->. apply Hdb. left.
  - apply IH. intros b Hb. apply Hdb. now right.
Qed.

End CallsKeep.

(** ** No two rows with the same transaction hash *)

Section UniqueHashes.

Variable E : Env.

Import StockManager.

Lemma findOne_none_not_stored h table :
  findOne E transaction_hash (Some h) table = None -> h ∉ storedHashes table.
Proof.
  unfold findOne, storedHashes. induction table as [|r table IH]; cbn.
  - intros _ Hin. inversion Hin.
  - destruct (transaction_hash r) as [x|] eqn:Hx; cbn.
    + destruct (String.eqb x h) eqn:Hxh; [discriminate|].
      intros Hnone Hin. apply elem_of_cons in Hin as [-> | Hin].
      * now rewrite String.eqb_refl in Hxh.
      * now apply IH.
    + exact IH.
Qed.

Lemma storedHashes_snoc table r :
  storedHashes (table ++ [r])
  = storedHashes table ++ match transaction_hash r with
                          | Some h => [h]
                          | None => []
                          end.
Proof.
  unfold storedHashes. rewrite omap_app. cbn.
  now destruct (transaction_hash r).
Qed.

Lemma storeEventInDatabase_unique ev cn :
  keeps uniqueHashes (storeEventInDatabase E ev cn).
Proof.
  intros s Hnd.
  unfold storeEventInDatabase, tryCatch, findByTxHash, create, logger, bind,
    emit, modify, gets, insertRow, ret, throw, exec. cbn.
  destruct (dbOnline s) eqn:Hon; cbn; [|exact Hnd].
  destruct (findOne E transaction_hash (txHash ev) (rows s)) as [r0|] eqn:Hfind;
    cbn; [exact Hnd|].
  rewrite storedHashes_snoc. cbn.
  destruct (txHash ev) as [h|]; [|now rewrite app_nil_r].
  apply NoDup_app. split; [exact Hnd|]. split; [|apply NoDup_singleton].
  intros x Hx Hin. apply list_elem_of_singleton in Hin as ->.
  now apply (findOne_none_not_stored h (rows s)).
Qed.

#[local] Hint Resolve findByTxHash_store getBlockDateFromTimestamp_store
  storeEventInDatabase_unique : frames.

Ltac unique_leaf :=
  intros ?; apply uniqueHashes_sameStore;
  first [ solve [eapply findByTxHash_store]
        | solve [eapply getBlockDateFromTimestamp_store]
        | split; reflexivity ].

Lemma processDepositedEvent_unique cn c log web3 :
  keeps uniqueHashes (processDepositedEvent E cn c log web3).
Proof. unfold processDepositedEvent, abi_decodeLog, toStringOf. walk unique_leaf. Qed.

Lemma processRedeemedEvent_unique cn c log web3 :
  keeps uniqueHashes (processRedeemedEvent E cn c log web3).
Proof. unfold processRedeemedEvent, abi_decodeLog, toStringOf. walk unique_leaf. Qed.

End UniqueHashes.



(** ** A database outage *)

Section Outage.

Variable E : Env.

Import StockManager.

Lemma storeEventInDatabase_offline ev cn :
  keeps offline (storeEventInDatabase E ev cn).
Proof.
  intros s Hoff.
  unfold storeEventInDatabase, tryCatch, findByTxHash, logger, bind, emit,
    modify, gets, throw, exec. cbn. rewrite Hoff. cbn. now split.
Qed.

#[local] Hint Resolve storeEventInDatabase_offline : frames.

Ltac offline_leaf :=
  intros ?; apply offline_sameStore;
  first [ solve [eapply findByTxHash_store]
        | solve [eapply getBlockDateFromTimestamp_store]
        | split; reflexivity ].

Lemma processDepositedEvent_offline cn c log web3 :
  keeps offline (processDepositedEvent E cn c log web3).
Proof. unfold processDepositedEvent, abi_decodeLog, toStringOf. walk offline_leaf. Qed.

Lemma processRedeemedEvent_offline cn c log web3 :
  keeps offline (processRedeemedEvent E cn c log web3).
Proof. unfold processRedeemedEvent, abi_decodeLog, toStringOf. walk offline_leaf. Qed.

End Outage.



(** ** Only complete rows are stored *)

Section ValidRows.

Variable E : Env.

Import StockManager.

Lemma storeEventInDatabase_appends kind ev cn :
  eventName ev = showEventType kind ->
  validRow (dbEventOf kind ev) = true ->
  keeps (appends complete) (storeEventInDatabase E ev cn).
Proof.
  intros Hname Hvalid s.
  unfold storeEventInDatabase, tryCatch, findByTxHash, create, logger, bind,
    emit, modify, gets, insertRow, ret, throw, exec. cbn.
  assert (Hsame : forall s' : State StockManagerEvent,
            rows s' = rows s -> appends complete s s').
  { intros s' Hs'. exists []. split; [now rewrite app_nil_r | constructor]. }
  destruct (dbOnline s) eqn:Hon; cbn; [|now apply Hsame].
  destruct (findOne E transaction_hash (txHash ev) (rows s)) as [r0|] eqn:Hfind;
    cbn; [now apply Hsame|].
  eexists. split; [reflexivity|]. constructor; [|constructor].
  unfold complete. unfold dbEventOf in Hvalid. rewrite Hname in *.
  destruct kind; exact Hvalid.
Qed.

Lemma toStringOf_returns v a : returns (toStringOf v) a -> isString a = true.
Proof.
  intros [s Hs]. unfold toStringOf, result in Hs. cbn in Hs.
  destruct (Js.toString v); inversion Hs. reflexivity.
Qed.

Lemma invalidLog_false l :
  invalidLog (Some l) = false ->
  Js.truthyOptString (transactionHash l) = true /\
  Js.truthyOptZ (blockNumber l) = true.
Proof.
  unfold invalidLog. intros H.
  apply orb_false_elim in H as [H Hh]. apply orb_false_elim in H as [H Hb].
  apply negb_false_iff in Hh, Hb. now split.
Qed.

Ltac valid_leaf :=
  intros ?; apply appends_sameStore;
  first [ solve [eapply findByTxHash_store]
        | solve [eapply getBlockDateFromTimestamp_store]
        | split; reflexivity ].

Ltac valid_bind :=
  apply keeps_bind; [apply appends_trans | | intros].

Lemma processDepositedEvent_appends cn c log web3 :
  keeps (appends complete) (processDepositedEvent E cn c log web3).
Proof.
  unfold processDepositedEvent.
  apply keeps_tryCatch; [apply appends_trans | | intros; valid_leaf].
  destruct (invalidLog log) eqn:Hv; [valid_leaf|].
  destruct log as [l|]; [|valid_leaf].
  destruct (invalidLog_false l Hv) as [Hh Hb].
  unfold abi_decodeLog, await. valid_bind; [walk valid_leaf|].
  match goal with |- keeps _ (if ?b then _ else _) => destruct b eqn:Hchk end;
    [valid_leaf|].
  repeat (apply orb_false_elim in Hchk as [Hchk ?]).
  valid_bind; [valid_leaf|].
  apply keeps_bind_returns; [apply appends_trans | valid_leaf | intros amount Ha].
  apply keeps_bind_returns; [apply appends_trans | valid_leaf | intros tokenAmount Hta].
  apply keeps_bind_returns; [apply appends_trans | valid_leaf | intros fee Hfee].
  apply toStringOf_returns in Ha, Hta, Hfee.
  cbv zeta. valid_bind; [|valid_leaf].
  apply (storeEventInDatabase_appends Deposited); [reflexivity|].
  unfold validRow. cbn.
  repeat match goal with H : negb _ = false |- _ => apply negb_false_iff in H end.
  destruct (blockNumber l) as [z|]; [|discriminate].
  cbn in Hb. rewrite Hh. cbn. unfold Js.truthyNumber. rewrite Hb. cbn.
  repeat match goal with H : _ = true |- _ => rewrite H end.
  reflexivity.
Qed.

Lemma processRedeemedEvent_appends cn c log web3 :
  keeps (appends complete) (processRedeemedEvent E cn c log web3).
Proof.
  unfold processRedeemedEvent.
  apply keeps_tryCatch; [apply appends_trans | | intros; valid_leaf].
  destruct (invalidLog log) eqn:Hv; [valid_leaf|].
  destruct log as [l|]; [|valid_leaf].
  destruct (invalidLog_false l Hv) as [Hh Hb].
  unfold abi_decodeLog, await. valid_bind; [walk valid_leaf|].
  match goal with |- keeps _ (if ?b then _ else _) => destruct b eqn:Hchk end;
    [valid_leaf|].
  repeat (apply orb_false_elim in Hchk as [Hchk ?]).
  valid_bind; [valid_leaf|].
  apply keeps_bind_returns; [apply appends_trans | valid_leaf | intros tokenAmount Hta].
  apply keeps_bind_returns; [apply appends_trans | valid_leaf | intros amount Ha].
  apply keeps_bind_returns; [apply appends_trans | valid_leaf | intros fee Hfee].
  apply toStringOf_returns in Ha, Hta, Hfee.
  cbv zeta. valid_bind; [|valid_leaf].
  apply (storeEventInDatabase_appends Redeemed); [reflexivity|].
  unfold validRow. cbn.
  repeat match goal with H : negb _ = false |- _ => apply negb_false_iff in H end.
  destruct (blockNumber l) as [z|]; [|discriminate].
  cbn in Hb. rewrite Hh. cbn. unfold Js.truthyNumber. rewrite Hb. cbn.
  repeat match goal with H : _ = true |- _ => rewrite H end.
  reflexivity.
Qed.

End ValidRows.

(** X3.  Rows are only ever appended, and every row that any call stores is
    complete: it has a transaction hash and a block number, its three
    addresses are present, every amount is a string, its event type is
    [deposited] or [redeemed], and the two columns of the other kind hold
    the string 0. *)
Theorem stored_rows_are_complete (E : Env) (C : Closing)
    (configured : list BlockchainConfig) (calls : list Call)
    (s : State StockManager.StockManagerEvent) :
  exists added,
    rows (run E C configured calls s) = rows s ++ added /\
    Forall (fun r => validRow r = true) added.
Proof.
  revert s.
  apply (run_keeps E C configured (appends complete)
           (appends_refl _) (appends_trans _) (appends_sameStore _)
           (processDepositedEvent_appends E) (processRedeemedEvent_appends E)).
  intros b _ s. exists []. split; [now rewrite app_nil_r | constructor].
Qed.

(** ** What a processor needs in order to write *)

Section Writes.

Variable E : Env.

Import StockManager.

Lemma tryCatch_bind_throws {R A B} (m : M R A) (k : A -> M R B) (h : Exn -> M R B)
    (s : State R) e :
  result m s = inl e ->
  tryCatch (bind m k) h s = h e (exec m s).
Proof. intros H. unfold tryCatch. now rewrite (bind_throws m k s e H). Qed.

Lemma storeEventInDatabase_rows kind cn chain contract l d dt
    (s : State StockManagerEvent) :
  rows (exec (storeEventInDatabase E (eventDataOf kind chain contract l d dt) cn) s)
  = if dbOnline s
    then match findOne E transaction_hash (transactionHash l) (rows s) with
         | None => rows s ++ [dbEventOf kind (eventDataOf kind chain contract l d dt)]
         | Some _ => rows s
         end
    else rows s.
Proof.
  destruct (dbOnline s) eqn:Hon.
  - destruct (findOne E transaction_hash (transactionHash l) (rows s)) as [r0|] eqn:Hf.
    + unfold exec.
      rewrite (storeEventInDatabase_duplicate E
                 (eventDataOf kind chain contract l d dt) cn r0 s Hon Hf).
      reflexivity.
    + unfold exec.
      rewrite (storeEventInDatabase_new E kind cn chain contract l d dt s Hon Hf).
      reflexivity.
  - apply (storeEventInDatabase_offline E _ cn s Hon).
Qed.

(** A log that passes the guard, decodes to complete fields and whose block
    is dated reaches the store call. *)
Lemma processor_reaches_store kind cn contract l web3 d dt
    (s : State StockManagerEvent) :
  invalidLog (Some l) = false ->
  decoded E kind l = inr d ->
  wellDecoded d ->
  result (getBlockDateFromTimestamp E web3 (blockNumber l))
    (exec (emit (EDecodeLog (inputsOf kind) (data l)
                   [topic l 1; topic l 2; topic l 3])) s) = inr dt ->
  processorOf E kind cn contract (Some l) web3 s
  = (inr tt,
     exec (storeEventInDatabase E (eventDataOf kind cn contract l d dt)
             (c_name contract) ;;
           logger LvlLog
             (showEventType kind +:+ " event from " +:+ c_name contract +:+
              " on " +:+ cn))
       (dated E kind l web3 s)).
Proof.
  intros Hvalid Hdec (Hu & Ha & Hs & Ham & Hta & Hfee) Hdt.
  unfold decoded in Hdec. unfold dated.
  set (s1 := exec (emit _) s) in *.
  assert (Htot : forall ev msg,
            total (storeEventInDatabase E ev (c_name contract) ;;
                   logger LvlLog msg)).
  { intros ev msg. apply total_bind;
      [apply storeEventInDatabase_total | intros; apply total_logger]. }
  destruct kind; cbn [processorOf inputsOf showEventType] in *.
  - unfold processDepositedEvent. rewrite Hvalid. unfold abi_decodeLog.
    rewrite tryCatch_await, Hdec. fold s1.
    rewrite Hu, Ha, Hs, Ham, Hta, Hfee. cbn [negb orb].
    rewrite (tryCatch_bind_ok _ _ _ s1 _ Hdt).
    rewrite (toStringOf_ok _ Ham), bind_ret.
    rewrite (toStringOf_ok _ Hta), bind_ret.
    rewrite (toStringOf_ok _ Hfee), bind_ret.
    rewrite tryCatch_total by apply Htot. apply run_unit, Htot.
  - unfold processRedeemedEvent. rewrite Hvalid. unfold abi_decodeLog.
    rewrite tryCatch_await, Hdec. fold s1.
    rewrite Hu, Ha, Hs, Ham, Hta, Hfee. cbn [negb orb].
    rewrite (tryCatch_bind_ok _ _ _ s1 _ Hdt).
    rewrite (toStringOf_ok _ Hta), bind_ret.
    rewrite (toStringOf_ok _ Ham), bind_ret.
    rewrite (toStringOf_ok _ Hfee), bind_ret.
    rewrite tryCatch_total by apply Htot. apply run_unit, Htot.
Qed.

(** The check of the decoded fields, in the order of either processor. *)
Lemma wellDecoded_iff d :
  wellDecoded d <->
  negb (Js.truthy (Abi.get d "user")) || negb (Js.truthy (Abi.get d "assetToken"))
  || negb (Js.truthy (Abi.get d "stablecoin")) || Js.isUndefined (Abi.get d "amount")
  || Js.isUndefined (Abi.get d "tokenAmount") || Js.isUndefined (Abi.get d "fee")
  = false.
Proof.
  unfold wellDecoded.
  destruct (Js.truthy (Abi.get d "user")), (Js.truthy (Abi.get d "assetToken")),
    (Js.truthy (Abi.get d "stablecoin")), (Js.isUndefined (Abi.get d "amount")),
    (Js.isUndefined (Abi.get d "tokenAmount")), (Js.isUndefined (Abi.get d "fee"));
    cbn; intuition congruence.
Qed.

Lemma wellDecoded_iff' d :
  wellDecoded d <->
  negb (Js.truthy (Abi.get d "user")) || negb (Js.truthy (Abi.get d "assetToken"))
  || negb (Js.truthy (Abi.get d "stablecoin")) || Js.isUndefined (Abi.get d "tokenAmount")
  || Js.isUndefined (Abi.get d "amount") || Js.isUndefined (Abi.get d "fee")
  = false.
Proof.
  unfold wellDecoded.
  destruct (Js.truthy (Abi.get d "user")), (Js.truthy (Abi.get d "assetToken")),
    (Js.truthy (Abi.get d "stablecoin")), (Js.isUndefined (Abi.get d "amount")),
    (Js.isUndefined (Abi.get d "tokenAmount")), (Js.isUndefined (Abi.get d "fee"));
    cbn; intuition congruence.
Qed.

(** What a processor does to the table: nothing, or it appends the row of
    a log that passes the guard, decodes to complete fields and is not
    stored yet, the database being reachable. *)
Lemma processor_rows kind cn contract log web3 (s : State StockManagerEvent) :
  rows (exec (processorOf E kind cn contract log web3) s) = rows s \/
  exists l d dt,
    log = Some l /\ invalidLog (Some l) = false /\
    decoded E kind l = inr d /\ wellDecoded d /\
    dbOnline s = true /\
    findOne E transaction_hash (transactionHash l) (rows s) = None /\
    rows (exec (processorOf E kind cn contract log web3) s)
    = rows s ++ [dbEventOf kind (eventDataOf kind cn contract l d dt)].
Proof.
  destruct (invalidLog log) eqn:Hv.
  { left. destruct kind; cbn [processorOf];
      unfold processDepositedEvent, processRedeemedEvent; rewrite Hv; reflexivity. }
  destruct log as [l|]; [|discriminate].
  destruct (decoded E kind l) as [e|d] eqn:Hdec.
  { left. unfold decoded in Hdec.
    destruct kind; cbn [processorOf inputsOf] in *;
      unfold processDepositedEvent, processRedeemedEvent, abi_decodeLog, exec;
      rewrite Hv, tryCatch_await, Hdec; reflexivity. }
  assert (Hwell : wellDecoded d \/
            rows (exec (processorOf E kind cn contract (Some l) web3) s) = rows s).
  { destruct kind;
      [ destruct (negb (Js.truthy (Abi.get d "user"))
                  || negb (Js.truthy (Abi.get d "assetToken"))
                  || negb (Js.truthy (Abi.get d "stablecoin"))
                  || Js.isUndefined (Abi.get d "amount")
                  || Js.isUndefined (Abi.get d "tokenAmount")
                  || Js.isUndefined (Abi.get d "fee")) eqn:Hchk;
        [right | left; now apply wellDecoded_iff]
      | destruct (negb (Js.truthy (Abi.get d "user"))
                  || negb (Js.truthy (Abi.get d "assetToken"))
                  || negb (Js.truthy (Abi.get d "stablecoin"))
                  || Js.isUndefined (Abi.get d "tokenAmount")
                  || Js.isUndefined (Abi.get d "amount")
                  || Js.isUndefined (Abi.get d "fee")) eqn:Hchk;
        [right | left; now apply wellDecoded_iff'] ];
      unfold decoded in Hdec; cbn [processorOf inputsOf] in *;
      unfold processDepositedEvent, processRedeemedEvent, abi_decodeLog, exec;
      rewrite Hv, tryCatch_await, Hdec, Hchk; reflexivity. }
  destruct Hwell as [Hwell | Hsame]; [|now left].
  set (s1 := exec (emit (EDecodeLog (inputsOf kind) (data l)
                           [topic l 1; topic l 2; topic l 3])) s).
  destruct (result (getBlockDateFromTimestamp E web3 (blockNumber l)) s1)
    as [e|dt] eqn:Hdt.
  { left.
    pose proof (getBlockDateFromTimestamp_rows E web3 (blockNumber l) s1) as Hr.
    unfold sameRows in Hr. destruct Hwell as (Hu & Ha & Hs & Ham & Hta & Hfee).
    unfold decoded in Hdec. subst s1.
    destruct kind; cbn [processorOf inputsOf] in *;
      unfold processDepositedEvent, processRedeemedEvent, abi_decodeLog, exec;
      rewrite Hv, tryCatch_await, Hdec, Hu, Ha, Hs, Ham, Hta, Hfee; cbn [negb orb];
      rewrite (tryCatch_bind_throws _ _ _ _ _ Hdt); exact Hr. }
  pose proof (processor_reaches_store kind cn contract l web3 d dt s Hv Hdec Hwell Hdt)
    as Hrun.
  destruct (dated_frame E kind l web3 s) as (Hrows & Hsv & _).
  assert (Hon2 : dbOnline (dated E kind l web3 s) = dbOnline s).
  { now destruct Hsv as (_ & _ & _ & _ & _ & _ & Hdb). }
  assert (Hfinal : rows (exec (processorOf E kind cn contract (Some l) web3) s)
    = rows (exec (storeEventInDatabase E (eventDataOf kind cn contract l d dt)
                    (c_name contract)) (dated E kind l web3 s))).
  { unfold exec at 1. rewrite Hrun. cbn [snd].
    destruct (storeEventInDatabase_total E (eventDataOf kind cn contract l d dt)
                (c_name contract) (dated E kind l web3 s)) as [a Ha].
    unfold exec at 1. rewrite (bind_ok _ _ _ a Ha). reflexivity. }
  rewrite Hfinal. rewrite storeEventInDatabase_rows.
  rewrite Hon2, Hrows.
  destruct (dbOnline s) eqn:Hon; [|now left].
  destruct (findOne E transaction_hash (transactionHash l) (rows s)) eqn:Hfind;
    [now left|].
  right. exists l, d, dt.
  repeat (split; [first [reflexivity | assumption]|]). reflexivity.
Qed.

End Writes.

(** What [processLog] does to the table: nothing, or it appends the row of
    a log that it accepts. *)
Lemma processLog_rows (E : Env) (chainName : string)
    (contracts : list ContractConfig) (log : option RawLog)
    (s : State StockManager.StockManagerEvent) :
  rows (exec (StockManager.processLog E chainName contracts log) s) = rows s \/
  exists l contract web3 ts kind d dt,
    log = Some l /\
    routed chainName contracts l contract web3 s /\
    topics l = Some ts /\
    selects E (ts !! 0%nat) kind /\
    StockManager.invalidLog (Some l) = false /\
    decoded E kind l = inr d /\
    wellDecoded d /\
    dbOnline s = true /\
    findOne E StockManager.transaction_hash (transactionHash l) (rows s) = None /\
    rows (exec (StockManager.processLog E chainName contracts log) s)
    = rows s ++ [dbEventOf kind (eventDataOf kind chainName contract l d dt)].
Proof.
  destruct log as [l|]; [|left; reflexivity].
  destruct (Js.truthyOptString (Js.toLowerCase <$> log_address l)) eqn:Ha.
  2:{ left. unfold StockManager.processLog. rewrite Ha. reflexivity. }
  destruct (List.find (fun c => Js.strictEq (Some (Js.toLowerCase (c_address c)))
                                  (Js.toLowerCase <$> log_address l)) contracts)
    as [contract|] eqn:Hf.
  2:{ left. unfold StockManager.processLog. rewrite Ha, Hf. reflexivity. }
  destruct (web3Connections s !! chainName) as [web3|] eqn:Hc.
  2:{ left. unfold StockManager.processLog. rewrite Ha, Hf.
      cbn [negb]. unfold exec.
      rewrite (bind_ok _ _ s (web3Connections s !! chainName)) by reflexivity.
      rewrite Hc. reflexivity. }
  destruct (topics l) as [ts|] eqn:Ht.
  2:{ left. unfold StockManager.processLog. rewrite Ha, Hf.
      cbn [negb]. unfold exec.
      rewrite (bind_ok _ _ s (web3Connections s !! chainName)) by reflexivity.
      rewrite Hc. unfold StockManager.topics0. rewrite Ht. reflexivity. }
  assert (Hrouted : routed chainName contracts l contract web3 s)
    by (repeat split; assumption).
  destruct (hashed_frame s) as (Hrows & Hon & _).
  set (s1 := exec (emit (ESha3 depositedPrototype) ;; emit (ESha3 redeemedPrototype)) s)
    in *.
  assert (Hcases :
    (exists kind, selects E (ts !! 0%nat) kind) \/
    (Js.strictEq (ts !! 0%nat) (sha3 E depositedPrototype) = false /\
     Js.strictEq (ts !! 0%nat) (sha3 E redeemedPrototype) = false)).
  { destruct (Js.strictEq (ts !! 0%nat) (sha3 E depositedPrototype)) eqn:Hd.
    - left. exists StockManager.Deposited. exact Hd.
    - destruct (Js.strictEq (ts !! 0%nat) (sha3 E redeemedPrototype)) eqn:Hr.
      + left. exists StockManager.Redeemed. split; assumption.
      + right. split; reflexivity. }
  destruct Hcases as [[kind Hsel] | [Hd Hr]].
  2:{ left. unfold exec.
      rewrite (stockManager_processLog_dispatch E chainName contracts l contract
                 web3 ts s Ht Ha Hf Hc), Hd, Hr.
      exact Hrows. }
  pose proof (processLog_as_processor E kind chainName contracts contract l web3
                ts s Ht Hrouted Hsel) as Heq.
  assert (Hexec : exec (StockManager.processLog E chainName contracts (Some l)) s
                  = exec (processorOf E kind chainName contract (Some l) web3) s1).
  { unfold exec. now rewrite Heq. }
  rewrite Hexec. rewrite <- Hrows.
  destruct (processor_rows E kind chainName contract (Some l) web3 s1)
    as [Hsame | (l' & d & dt & Hl & Hv & Hdec & Hwell & Hon1 & Hfind & Hfinal)];
    [now left|].
  inversion Hl; subst l'. right.
  exists l, contract, web3, ts, kind, d, dt.
  rewrite Hon in Hon1.
  repeat (split; [first [reflexivity | assumption]|]).
  exact Hfinal.
Qed.

(** A log that is not acceptable is dropped: the table is as before. *)
Lemma processLog_drops (E : Env) (chainName : string)
    (contracts : list ContractConfig) (log : option RawLog)
    (s : State StockManager.StockManagerEvent) :
  (forall l, log = Some l -> ~ acceptable E contracts l) ->
  rows (exec (StockManager.processLog E chainName contracts log) s) = rows s.
Proof.
  intros Hdrop.
  destruct (processLog_rows E chainName contracts log s)
    as [Hsame | (l & contract & web3 & ts & kind & d & dt & Hl & Hr & Ht & Hsel
                 & Hv & Hdec & Hwell & _)]; [exact Hsame|].
  exfalso. apply (Hdrop l Hl). destruct Hr as (Ha & Hf & _).
  exists contract, ts, kind, d. repeat (split; [assumption|]). exact Hwell.
Qed.

(** X4.  [processLog] writes at most one row, and only for a log that it
    accepts: the log comes from a configured contract (addresses compared
    in lower case) of a connected network, its first topic is the hash of
    one of the two event prototypes, it passes the guard of the processor,
    it decodes to complete fields, its transaction hash is not yet stored
    and the database is reachable.  The row written is the one built from
    the decoded fields. *)
Theorem processLog_writes_only_accepted_logs (E : Env) (chainName : string)
    (contracts : list ContractConfig) (log : option RawLog)
    (s : State StockManager.StockManagerEvent) :
  rows (exec (StockManager.processLog E chainName contracts log) s) <> rows s ->
  exists l contract web3 ts kind d dt,
    log = Some l /\
    routed chainName contracts l contract web3 s /\
    topics l = Some ts /\
    selects E (ts !! 0%nat) kind /\
    StockManager.invalidLog (Some l) = false /\
    decoded E kind l = inr d /\
    wellDecoded d /\
    dbOnline s = true /\
    findOne E StockManager.transaction_hash (transactionHash l) (rows s) = None /\
    rows (exec (StockManager.processLog E chainName contracts log) s)
    = rows s ++ [dbEventOf kind (eventDataOf kind chainName contract l d dt)].
Proof.
  intros Hne.
  destruct (processLog_rows E chainName contracts log s) as [Hsame | Hw];
    [contradiction | exact Hw].
Qed.

Lemma processLog_writes_only_accepted_logs_witness :
  exists l contract web3 ts kind d dt,
    Some Demo.deposit = Some l /\
    routed "bsc" [Demo.vault] l contract web3 Demo.running /\
    topics l = Some ts /\
    selects Demo.env (ts !! 0%nat) kind /\
    StockManager.invalidLog (Some l) = false /\
    decoded Demo.env kind l = inr d /\
    wellDecoded d /\
    dbOnline Demo.running = true /\
    findOne Demo.env StockManager.transaction_hash (transactionHash l)
      (rows Demo.running) = None /\
    rows (exec (StockManager.processLog Demo.env "bsc" [Demo.vault]
                  (Some Demo.deposit)) Demo.running)
    = rows Demo.running
      ++ [dbEventOf kind (eventDataOf kind "bsc" contract l d dt)].
Proof.
  apply (processLog_writes_only_accepted_logs Demo.env "bsc" [Demo.vault]
           (Some Demo.deposit) Demo.running).
  vm_compute. discriminate.
Defined.

(** ** Error containment *)

Section Containment.

Variable E : Env.

Variable C : Closing.

Variable configured : list BlockchainConfig.

Import StockManager.

Lemma total_tryCatch_body {R A} (m : M R A) (h : Exn -> M R A) :
  total m -> total (tryCatch m h).
Proof. intros Hm s. unfold result. rewrite tryCatch_total by exact Hm. apply Hm. Qed.

Ltac total_walk :=
  repeat first
    [ apply total_logger | apply total_ret | apply total_gets | apply total_emit
    | apply total_modify
    | apply total_bind; [|intros]
    | apply total_forOf; intros
    | apply total_tryCatch; intros
    | match goal with
      | |- total (if ?b then _ else _) => destruct b
      | |- total (match ?x with _ => _ end) => destruct x
      | |- total (let _ := _ in _) => cbv zeta
      end ].

Lemma processLog_total cn cs log : total (processLog E cn cs log).
Proof. unfold processLog. total_walk. Qed.

Lemma onSubscriptionData_total cn cs log : total (onSubscriptionData E cn cs log).
Proof. unfold onSubscriptionData. total_walk. Qed.

Lemma subscribeToEvents_total cn cs : total (subscribeToEvents cn cs).
Proof. unfold subscribeToEvents. total_walk. Qed.

Lemma onProviderConnect_total cn cs : total (onProviderConnect cn cs).
Proof.
  unfold onProviderConnect. apply total_bind; [apply total_logger|].
  intros _. apply subscribeToEvents_total.
Qed.

Lemma storePreviousEvents_total configs fb : total (storePreviousEvents E configs fb).
Proof. unfold storePreviousEvents. total_walk. Qed.

Lemma sweep_total n :
  total (configs <- gets blockchainConfigs ;;
         forOf configs (fun config => backfillLastBlocks E config n) ;;
         (logger LvlLog "Manual backfill completed successfully"
            : M StockManagerEvent unit)).
Proof.
  apply total_bind; [apply total_gets | intros configs].
  apply total_bind; [|intros; apply total_logger].
  apply total_forOf. intros config. apply backfillLastBlocks_total.
Qed.

Lemma triggerManualBackfill_total n : total (triggerManualBackfill E n).
Proof.
  unfold triggerManualBackfill. apply total_bind; [apply total_logger | intros _].
  apply total_tryCatch_body, sweep_total.
Qed.

Lemma performHourlyBackfill_total : total (performHourlyBackfill E).
Proof. unfold performHourlyBackfill. total_walk. Qed.

Lemma stopHourlyBackfill_total : total stopHourlyBackfill.
Proof. unfold stopHourlyBackfill. total_walk. Qed.

Lemma disconnect_total : total (disconnect C).
Proof. unfold disconnect, clearSubscriptions, clearConnections, setConnected. total_walk. Qed.

Lemma onModuleDestroy_total : total (onModuleDestroy C).
Proof.
  unfold onModuleDestroy. apply total_bind; [apply stopHourlyBackfill_total|].
  intros _. apply disconnect_total.
Qed.

Lemma connectToMultipleChains_total configs : total (connectToMultipleChains E configs).
Proof.
  intros s. exists tt. apply (stockManager_connectToMultipleChains_spec E configs s).
Qed.

(** The handler of both endpoints rethrows a [BadRequestException] and
    turns any other error into a response. *)
Lemma endpoint_result {A} (body : M StockManagerEvent A) msg (failure : Exn -> A)
    (s : State StockManagerEvent) e :
  result (tryCatch body
            (fun error =>
               logger LvlError msg ;;
               if isBadRequestException error then throw error
               else ret (failure error))) s = inl e ->
  isBadRequestException e = true.
Proof.
  unfold result, tryCatch. destruct (body s) as [[e0|a] s']; cbn; [|discriminate].
  unfold bind, logger, emit, modify. cbn.
  destruct (isBadRequestException e0) eqn:Hb; cbn; [|discriminate].
  intros H. inversion H. now subst.
Qed.

End Containment.

(** X5.  No call to the stock-manager service fails: every method, listener
    and timer callback completes whatever the nodes, the decoder and the
    database do.  The only exception that leaves the application is the
    [BadRequestException] with which the two endpoints of the controller
    reject a request. *)
Theorem only_bad_requests_fail (E : Env) (C : Closing)
    (configured : list BlockchainConfig) (c : Call)
    (s : State StockManager.StockManagerEvent) :
  match result (perform E C configured c) s with
  | inr _ => True
  | inl e => isRequest c = true /\ isBadRequestException e = true
  end.
Proof.
  assert (Htotal : forall m : M StockManager.StockManagerEvent unit,
            total m ->
            match result m s with
            | inr _ => True
            | inl e => false = true /\ isBadRequestException e = true
            end).
  { intros m Hm. destruct (Hm s) as [a Ha]. now rewrite Ha. }
  assert (Hreq : forall A (m : M StockManager.StockManagerEvent A),
            (forall e, result m s = inl e -> isBadRequestException e = true) ->
            match result (m ;; ret tt) s with
            | inr _ => True
            | inl e => true = true /\ isBadRequestException e = true
            end).
  { intros A m Hm. unfold result, bind in *.
    destruct (m s) as [[e|a] s']; cbn in *; [|exact Logic.I].
    split; [reflexivity | now apply Hm]. }
  destruct c; cbn [perform isRequest].
  - apply Htotal, connectToMultipleChains_total.
  - apply Htotal, onProviderConnect_total.
  - apply Htotal, onSubscriptionData_total.
  - apply Htotal, storePreviousEvents_total.
  - apply Htotal, triggerManualBackfill_total.
  - apply Htotal, performHourlyBackfill_total.
  - apply Htotal, stopHourlyBackfill_total.
  - apply Htotal, disconnect_total.
  - apply Htotal, onModuleDestroy_total.
  - apply Hreq. intros e. apply endpoint_result.
  - apply Hreq. intros e. apply endpoint_result.
  - apply Htotal. intros s0. now exists tt.
Qed.

(** ** Sweeping a range whose logs are all stored *)

Section Skipping.

Variable E : Env.

Variable web3 : Web3.

Import StockManager.

Lemma skips_refl s : skips E web3 s s.
Proof.
  intros _ _. split; [apply sameService_refl|]. split; [reflexivity | apply grows_refl].
Qed.

Lemma skips_trans a b c : skips E web3 a b -> skips E web3 b c -> skips E web3 a c.
Proof.
  intros Hab Hbc Hcov Hon. destruct (Hab Hcov Hon) as (Hsv & Hrows & Hg).
  assert (Hon' : dbOnline b = true).
  { destruct Hsv as (_ & _ & _ & _ & _ & _ & Hdb). now rewrite Hdb. }
  rewrite <- Hrows in Hcov. destruct (Hbc Hcov Hon') as (Hsv' & Hrows' & Hg').
  split; [eapply sameService_trans; eassumption|].
  split; [congruence | eapply grows_trans; eassumption].
Qed.

#[local] Hint Resolve skips_refl skips_trans : frames.

Ltac skip_leaf :=
  intros ? _ _; split; [repeat split|]; split; [reflexivity|];
  first [ apply grows_refl
        | eexists [_]; split; [reflexivity | repeat constructor] ].

Lemma pastLogs_skips contract b e p :
  keeps (skips E web3) (pastLogs E web3 contract b e p).
Proof. unfold pastLogs, signatureTopic, utils_sha3. walk skip_leaf. Qed.

Lemma pastLogs_returns contract b e p logs :
  returns (pastLogs E web3 contract b e p) logs ->
  exists f, getPastLogs web3 f = inr logs.
Proof.
  intros [s Hs]. unfold pastLogs, signatureTopic, utils_sha3, await, result, bind,
    emit, modify, ret in Hs. cbn in Hs. eexists. exact Hs.
Qed.

Lemma processEventWithDeduplication_skipsStored cn contract l ty :
  (exists f logs, getPastLogs web3 f = inr logs /\ l ∈ logs) ->
  keeps (skips E web3) (processEventWithDeduplication E cn contract (Some l) web3 ty).
Proof.
  intros (f & logs & Hget & Hin) s Hcov Hon.
  destruct (Hcov f logs l Hget Hin) as [r Hr].
  assert (Heq : processEventWithDeduplication E cn contract (Some l) web3 ty s
                = (inr false, exec (emit (EFindByTxHash (transactionHash l))) s)).
  { unfold processEventWithDeduplication, tryCatch.
    unfold bind at 1. rewrite (findByTxHash_spec E _ s Hon), Hr. reflexivity. }
  unfold exec at 1 2 3. rewrite Heq. cbn [snd].
  split; [repeat split|]. split; [reflexivity|].
  eexists [_]. split; [reflexivity | repeat constructor].
Qed.

Lemma fetchAndStoreContractEventsWithDeduplication_skips cn contract f t :
  keeps (skips E web3)
    (fetchAndStoreContractEventsWithDeduplication E web3 cn contract f t).
Proof.
  unfold fetchAndStoreContractEventsWithDeduplication.
  apply keeps_tryCatch; [apply skips_trans | | intros; unfold logger; skip_leaf].
  apply keeps_bind; [apply skips_trans | | intros; unfold logger; skip_leaf].
  apply keeps_forOf; [apply skips_refl | apply skips_trans | intros w].
  cbv zeta.
  apply keeps_bind_returns; [apply skips_trans | apply pastLogs_skips |].
  intros deposited Hd. apply pastLogs_returns in Hd as [fd Hd].
  apply keeps_bind_returns; [apply skips_trans | apply pastLogs_skips |].
  intros redeemed Hr. apply pastLogs_returns in Hr as [fr Hr].
  apply keeps_bind; [apply skips_trans | | intros _].
  { apply keeps_forOf_elem; [apply skips_trans | apply skips_refl |].
    intros l Hl. apply keeps_bind; [apply skips_trans | | intros; skip_leaf].
    apply processEventWithDeduplication_skipsStored. eauto. }
  apply keeps_bind; [apply skips_trans | | intros _; unfold logger; skip_leaf].
  apply keeps_forOf_elem; [apply skips_trans | apply skips_refl |].
  intros l Hl. apply keeps_bind; [apply skips_trans | | intros; skip_leaf].
  apply processEventWithDeduplication_skipsStored. eauto.
Qed.

End Skipping.

Section SkippingSweep.

Variable E : Env.

Import StockManager.

Lemma backfillLastBlocks_skips config n (s : State StockManagerEvent) :
  dbOnline s = true ->
  (forall web3, web3Connections s !! cfg_name config = Some web3 ->
                covered E web3 (rows s)) ->
  sameService s (exec (backfillLastBlocks E config n) s) /\
  rows (exec (backfillLastBlocks E config n) s) = rows s /\
  grows skippingEffect s (exec (backfillLastBlocks E config n) s).
Proof.
  intros Hon Hcov. unfold backfillLastBlocks. unfold exec at 1 2 3.
  rewrite (bind_ok _ _ s (web3Connections s !! cfg_name config)) by reflexivity.
  change (exec (gets _) s) with s.
  destruct (web3Connections s !! cfg_name config) as [web3|] eqn:Hconn.
  - specialize (Hcov web3 eq_refl).
    match goal with
    | |- context [snd (?m s)] =>
        assert (Hk : keeps (skips E web3) m); [|exact (Hk s Hcov Hon)]
    end.
    apply keeps_tryCatch;
      [apply skips_trans | | intros; unfold logger;
                             intros ? _ _; split; [repeat split|];
                             split; [reflexivity|];
                             eexists [_]; split; [reflexivity | repeat constructor]].
    apply keeps_bind; [apply skips_trans | |intros c].
    + unfold await. apply keeps_bind; [apply skips_trans | |intros].
      * intros ? _ _. split; [repeat split|]. split; [reflexivity|].
        eexists [_]. split; [reflexivity | repeat constructor].
      * intros ? _ _. split; [repeat split|]. split; [reflexivity|].
        apply grows_refl.
    + cbv zeta. apply keeps_forOf; [apply skips_refl | apply skips_trans |].
      intros contract. apply fetchAndStoreContractEventsWithDeduplication_skips.
  - cbn. split; [repeat split|]. split; [reflexivity|].
    eexists [_]. split; [reflexivity | repeat constructor].
Qed.

Lemma sweep_skips n configs : forall s : State StockManagerEvent,
  dbOnline s = true ->
  (forall config web3, config ∈ configs ->
     web3Connections s !! cfg_name config = Some web3 -> covered E web3 (rows s)) ->
  sameService s (exec (forOf configs (fun config => backfillLastBlocks E config n)) s) /\
  rows (exec (forOf configs (fun config => backfillLastBlocks E config n)) s) = rows s /\
  grows skippingEffect s
    (exec (forOf configs (fun config => backfillLastBlocks E config n)) s).
Proof.
  induction configs as [|config configs IH]; intros s Hon Hcov.
  - cbn. split; [apply sameService_refl|]. split; [reflexivity | apply grows_refl].
  - cbn [forOf].
    destruct (backfillLastBlocks_total E config n s) as [a Ha].
    unfold exec at 1 2 3. rewrite (bind_ok _ _ s a Ha).
    destruct (backfillLastBlocks_skips config n s Hon) as (Hsv & Hrows & Hg).
    { intros web3. apply Hcov. left. }
    set (s1 := exec (backfillLastBlocks E config n) s) in *.
    assert (Hon1 : dbOnline s1 = true).
    { destruct Hsv as (_ & _ & _ & _ & _ & _ & Hdb). now rewrite Hdb. }
    destruct (IH s1 Hon1) as (Hsv' & Hrows' & Hg').
    { intros c w Hc Hw. rewrite Hrows. apply (Hcov c w); [now right|].
      destruct Hsv as (Hconn & _). now rewrite <- Hconn. }
    split; [eapply sameService_trans; eassumption|].
    split; [unfold exec in Hrows'; congruence | eapply grows_trans; eassumption].
Qed.

Lemma skipping_no_decode {R} (e : Effect R) : skippingEffect e = true -> decodeOf e = None.
Proof. destruct e; cbn; congruence. Qed.

Lemma skipping_no_create {R} (e : Effect R) : skippingEffect e = true -> createOf e = None.
Proof. destruct e; cbn; congruence. Qed.

End SkippingSweep.

(** X6.  A reconciliation sweep over logs that are all stored already is a
    no-op on the store and costs no decoding: if every log that the
    connected endpoints return is found by its transaction hash, then a
    manual backfill leaves the table and the service as they are, decodes
    nothing, looks up no block and writes nothing; all it does is ask for
    the block number, hash the prototypes, query the windows, look every
    log up and write log lines. *)
Theorem backfill_of_stored_logs_is_noop (E : Env) (blockCount : number)
    (s : State StockManager.StockManagerEvent) :
  dbOnline s = true ->
  (forall config web3, config ∈ blockchainConfigs s ->
     web3Connections s !! cfg_name config = Some web3 -> covered E web3 (rows s)) ->
  let s' := exec (StockManager.triggerManualBackfill E blockCount) s in
  result (StockManager.triggerManualBackfill E blockCount) s = inr tt /\
  rows s' = rows s /\
  sameService s s' /\
  grows skippingEffect s s' /\
  decodeCalls (trace s') = decodeCalls (trace s) /\
  createCalls (trace s') = createCalls (trace s).
Proof.
  intros Hon Hcov s'.
  assert (Hmain : sameService s s' /\ rows s' = rows s /\ grows skippingEffect s s').
  { subst s'. unfold StockManager.triggerManualBackfill.
    set (msg := "Manual backfill triggered for last " +:+ _).
    unfold exec at 1 2 3. rewrite (bind_ok _ _ s tt) by reflexivity.
    set (s1 := exec (logger LvlLog msg) s).
    rewrite tryCatch_total by apply sweep_total.
    rewrite (bind_ok _ _ s1 (blockchainConfigs s)) by reflexivity.
    change (exec (gets blockchainConfigs) s1) with s1.
    destruct (sweep_skips E blockCount (blockchainConfigs s) s1) as (Hsv & Hrows & Hg).
    { exact Hon. }
    { exact Hcov. }
    destruct (total_forOf (blockchainConfigs s)
                (fun config => StockManager.backfillLastBlocks E config blockCount)
                (fun config => backfillLastBlocks_total E config blockCount) s1)
      as [a Ha].
    rewrite (bind_ok _ _ s1 a Ha).
    set (s2 := exec (forOf _ _) s1) in *. cbn.
    split; [|split].
    - destruct Hsv as (H1 & H2 & H3 & H4 & H5 & H6 & H7). repeat split; assumption.
    - exact Hrows.
    - eapply grows_trans; [|eapply grows_trans; [exact Hg|]].
      + eexists [_]. split; [reflexivity | repeat constructor].
      + eexists [_]. split; [reflexivity | repeat constructor]. }
  destruct Hmain as (Hsv & Hrows & Hg).
  split.
  { destruct (triggerManualBackfill_total E blockCount s) as [[] Ha]. exact Ha. }
  split; [exact Hrows|]. split; [exact Hsv|]. split; [exact Hg|]. split.
  - apply (grows_observe skippingEffect); [apply skipping_no_decode | exact Hg].
  - apply (grows_observe skippingEffect); [apply skipping_no_create | exact Hg].
Qed.

Lemma triggerManualBackfill_service (E : Env) n :
  keeps sameService (StockManager.triggerManualBackfill E n).
Proof.
  pose proof (backfillLastBlocks_service E).
  unfold StockManager.triggerManualBackfill. keeps_auto.
Qed.

Lemma backfill_of_stored_logs_is_noop_witness :
  let s := exec (StockManager.triggerManualBackfill Demo.env (Num 82000))
             Demo.running in
  let s' := exec (StockManager.triggerManualBackfill Demo.env (Num 82000)) s in
  length (rows s) = 2%nat /\
  rows s' = rows s /\
  decodeCalls (trace s') = decodeCalls (trace s) /\
  createCalls (trace s') = createCalls (trace s).
Proof.
  intros s s'. split; [vm_compute; reflexivity|].
  assert (Hon : dbOnline s = true) by (vm_compute; reflexivity).
  assert (Hcov : forall config web3, config ∈ blockchainConfigs s ->
            web3Connections s !! cfg_name config = Some web3 ->
            covered Demo.env web3 (rows s)).
  { intros config web3 _ Hw.
    destruct (triggerManualBackfill_service Demo.env (Num 82000) Demo.running)
      as (Hconn & _).
    fold s in Hconn. rewrite Hconn in Hw.
    change (web3Connections Demo.running)
      with ({[ "bsc" := Demo.node ]} : gmap string Web3) in Hw.
    apply lookup_singleton_Some in Hw as [_ <-].
    intros f logs l Hget Hl. unfold Demo.node in Hget. cbn [getPastLogs] in Hget.
    inversion Hget; subst logs; clear Hget.
    apply elem_of_app in Hl as [Hl | Hl].
    - destruct (Demo.inWindow f Demo.deposit Demo.depositedTopic);
        [|inversion Hl].
      apply list_elem_of_singleton in Hl as ->. eexists. vm_compute. reflexivity.
    - destruct (Demo.inWindow f Demo.redemption Demo.redeemedTopic);
        [|inversion Hl].
      apply list_elem_of_singleton in Hl as ->. eexists. vm_compute. reflexivity. }
  destruct (backfill_of_stored_logs_is_noop Demo.env (Num 82000) s Hon Hcov)
    as (_ & Hrows & _ & _ & Hdec & Hcr).
  split; [exact Hrows|]. split; [exact Hdec | exact Hcr].
Defined.
(** ** A sweep is abandoned at the first query that fails *)

Section Abandon.

Context {R : Type}.

Variable E : Env.

Variable web3 : Web3.

Lemma untilFailure_app a b :
  untilFailure web3 (a ++ b)
  = if forallb (answered web3) a then a ++ untilFailure web3 b
    else untilFailure web3 a.
Proof.
  induction a as [|q a IH]; cbn; [reflexivity|].
  destruct (answered web3 q); cbn; [|reflexivity].
  rewrite IH. now destruct (forallb (answered web3) a).
Qed.

Lemma answers_answered plan :
  answers web3 -> forallb (answered web3) plan = true.
Proof.
  intros Hans. induction plan as [|q plan IH]; [reflexivity|].
  cbn. unfold answered at 1. destruct (Hans q) as [l Hl]. now rewrite Hl.
Qed.

Lemma untilFailure_answered plan :
  forallb (answered web3) plan = true -> untilFailure web3 plan = plan.
Proof.
  induction plan as [|q plan IH]; cbn; [reflexivity|].
  intros H. apply andb_prop in H as [Hq Hp]. now rewrite Hq, IH.
Qed.

Lemma queries_emit (s : State R) e :
  pastLogQueries (trace (exec (emit e) s))
  = pastLogQueries (trace s) ++ match queryOf e with
                                | Some q => [q]
                                | None => []
                                end.
Proof.
  unfold pastLogQueries, exec, emit, modify. cbn. rewrite omap_app. cbn.
  now destruct (queryOf e).
Qed.

(** The two queries of a window, then a continuation that issues none.
    [pastLogs] is the historical query of either service: it is issued,
    and it returns or throws as the endpoint answers. *)
Lemma window_run
    (pastLogs : ContractConfig -> Z -> Z -> string -> M R (list RawLog))
    contract (w : Z * Z) (k : list RawLog -> list RawLog -> M R unit) (s : State R) :
  (forall b e p (s0 : State R),
     result (pastLogs contract b e p) s0
     = getPastLogs web3 {| f_address := c_address contract; fromBlock := b;
                           toBlock := e; f_topics := [topicOf E p] |} /\
     pastLogQueries (trace (exec (pastLogs contract b e p) s0))
     = pastLogQueries (trace s0)
       ++ [ {| f_address := c_address contract; fromBlock := b; toBlock := e;
               f_topics := [topicOf E p] |} ]) ->
  (forall a b, total (k a b)) ->
  (forall a b, keeps (grows processingEffect) (k a b)) ->
  let m := (a <- pastLogs contract (fst w) (snd w) depositedPrototype ;;
            b <- pastLogs contract (fst w) (snd w) redeemedPrototype ;;
            k a b) in
  pastLogQueries (trace (exec m s))
  = pastLogQueries (trace s) ++ untilFailure web3 (windowQueries E contract w) /\
  (forallb (answered web3) (windowQueries E contract w) = true ->
   result m s = inr tt) /\
  (forallb (answered web3) (windowQueries E contract w) = false ->
   exists e, result m s = inl e).
Proof.
  intros Hrun Ht Hk m. subst m. unfold windowQueries. cbn [untilFailure forallb].
  destruct (Hrun (fst w) (snd w) depositedPrototype s) as [Hr1 Hq1].
  unfold answered at 1 3 5.
  destruct (getPastLogs web3 _) as [e1|a] eqn:Ha in Hr1 |- *.
  - unfold result, exec. rewrite (bind_throws _ _ s e1 Hr1). cbn [fst snd].
    split; [exact Hq1|]. split; [discriminate | eauto].
  - unfold result, exec. rewrite (bind_ok _ _ s a Hr1).
    set (s1 := exec (pastLogs contract (fst w) (snd w) depositedPrototype) s) in *.
    destruct (Hrun (fst w) (snd w) redeemedPrototype s1) as [Hr2 Hq2].
    unfold answered.
    destruct (getPastLogs web3 _) as [e2|b] eqn:Hb in Hr2 |- *.
    + rewrite (bind_throws _ _ s1 e2 Hr2). cbn [fst snd].
      split; [|split; [discriminate | eauto]].
      rewrite Hq2, Hq1. now rewrite <- app_assoc.
    + rewrite (bind_ok _ _ s1 b Hr2).
      set (s2 := exec (pastLogs contract (fst w) (snd w) redeemedPrototype) s1) in *.
      destruct (issues_quiet (k a b) (Ht a b) (Hk a b) s2) as [[[] Hres] Hq].
      unfold result in Hres. unfold exec in Hq.
      destruct (k a b s2) as [r s3]. cbn in *. subst r.
      split; [|split; [reflexivity | discriminate]].
      rewrite Hq, app_nil_r, Hq2, Hq1. now rewrite <- app_assoc.
Qed.

(** A line of the log before a computation changes neither its queries nor
    its result. *)
Lemma logger_then (m : M R unit) lvl msg (s : State R) :
  exists s1, pastLogQueries (trace s1) = pastLogQueries (trace s) /\
             (logger lvl msg ;; m) s = m s1.
Proof.
  exists (exec (logger lvl msg) s). split.
  - unfold exec, logger, emit, modify. cbn. unfold pastLogQueries.
    rewrite omap_app. cbn. apply app_nil_r.
  - reflexivity.
Qed.

Lemma windows_run contract (body : Z * Z -> M R unit) ws :
  (forall w (s : State R),
     pastLogQueries (trace (exec (body w) s))
     = pastLogQueries (trace s) ++ untilFailure web3 (windowQueries E contract w) /\
     (forallb (answered web3) (windowQueries E contract w) = true ->
      result (body w) s = inr tt) /\
     (forallb (answered web3) (windowQueries E contract w) = false ->
      exists e, result (body w) s = inl e)) ->
  forall s : State R,
  pastLogQueries (trace (exec (forOf ws body) s))
  = pastLogQueries (trace s)
    ++ untilFailure web3 (concat (map (windowQueries E contract) ws)) /\
  (forallb (answered web3) (concat (map (windowQueries E contract) ws)) = true ->
   result (forOf ws body) s = inr tt).
Proof.
  intros Hbody. induction ws as [|w ws IH]; intros s.
  - cbn. split; [now rewrite app_nil_r | reflexivity].
  - cbn [forOf map concat]. rewrite untilFailure_app, forallb_app.
    destruct (Hbody w s) as (Hq & Hok & Hko).
    destruct (forallb (answered web3) (windowQueries E contract w)) eqn:Hall.
    + specialize (Hok eq_refl). unfold result, exec.
      rewrite (bind_ok _ _ s tt Hok).
      destruct (IH (exec (body w) s)) as [Hq' Hok'].
      set (s1 := exec (body w) s) in *.
      unfold exec in Hq' at 1. unfold result in Hok'.
      split.
      * rewrite Hq', Hq.
        rewrite (untilFailure_answered _ Hall). now rewrite <- app_assoc.
      * cbn [andb]. exact Hok'.
    + destruct (Hko eq_refl) as [e He]. unfold result, exec.
      rewrite (bind_throws _ _ s e He). cbn [fst snd andb].
      split; [exact Hq | discriminate].
Qed.

Lemma tryCatch_logger_queries (m : M R unit) lvl
    (msg : Exn -> string) (s : State R) :
  pastLogQueries (trace (exec (tryCatch m (fun error => logger lvl (msg error))) s))
  = pastLogQueries (trace (exec m s)).
Proof.
  unfold exec, tryCatch. destruct (m s) as [[e|a] s']; cbn; [|reflexivity].
  unfold pastLogQueries. rewrite omap_app. cbn. now rewrite app_nil_r.
Qed.

Lemma bind_logger_queries (m : M R unit) lvl msg (s : State R) :
  pastLogQueries (trace (exec (m ;; logger lvl msg) s))
  = pastLogQueries (trace (exec m s)).
Proof.
  unfold exec, bind. destruct (m s) as [[e|a] s']; cbn; [reflexivity|].
  unfold pastLogQueries. rewrite omap_app. cbn. now rewrite app_nil_r.
Qed.

End Abandon.

Section AbandonedSweeps.

Variable E : Env.

Variable web3 : Web3.

Import StockManager.

(** One historical query: it is issued, and it returns or throws as the
    endpoint answers. *)
Lemma pastLogs_run contract b e p (s : State StockManagerEvent) :
  result (pastLogs E web3 contract b e p) s
  = getPastLogs web3 {| f_address := c_address contract; fromBlock := b;
                        toBlock := e; f_topics := [topicOf E p] |} /\
  pastLogQueries (trace (exec (pastLogs E web3 contract b e p) s))
  = pastLogQueries (trace s)
    ++ [ {| f_address := c_address contract; fromBlock := b; toBlock := e;
            f_topics := [topicOf E p] |} ].
Proof.
  unfold pastLogs, signatureTopic, utils_sha3, await, result, exec, bind,
    emit, modify, ret. cbn. fold (topicOf E p).
  split; [reflexivity|].
  unfold pastLogQueries. rewrite !omap_app. cbn. now rewrite app_nil_r.
Qed.

#[local] Hint Resolve processEventWithDeduplication_grows
  processDepositedEvent_grows processRedeemedEvent_grows : frames.

Lemma fetchAndStoreContractEventsWithDeduplication_abandons cn contract f t
    (s : State StockManagerEvent) :
  pastLogQueries (trace (exec
    (fetchAndStoreContractEventsWithDeduplication E web3 cn contract f t) s))
  = pastLogQueries (trace s)
    ++ untilFailure web3 (concat (map (windowQueries E contract) (windowsOf f t))).
Proof.
  unfold fetchAndStoreContractEventsWithDeduplication.
  rewrite tryCatch_logger_queries, bind_logger_queries.
  apply (windows_run E web3 contract). intros w s0.
  apply (window_run E web3 (pastLogs E web3) contract w
           (fun a b =>
              forOf a
                (fun log =>
                   processEventWithDeduplication E cn contract (Some log) web3
                     Deposited ;; ret tt) ;;
              forOf b
                (fun log =>
                   processEventWithDeduplication E cn contract (Some log) web3
                     Redeemed ;; ret tt) ;;
              logger LvlDebug ("Backfill batch completed for " +:+ c_name contract))).
  - intros. apply pastLogs_run.
  - intros a b.
    repeat first [ apply total_bind; intros | apply total_forOf; intros
                 | apply processEventWithDeduplication_total
                 | apply total_ret | apply total_logger ].
  - intros a b. keeps_auto.
Qed.

Lemma fetchAndStoreContractEvents_abandons cn contract f t
    (s : State StockManagerEvent) :
  pastLogQueries (trace (exec
    (fetchAndStoreContractEvents E web3 cn contract f t) s))
  = pastLogQueries (trace s)
    ++ untilFailure web3 (concat (map (windowQueries E contract) (windowsOf f t))).
Proof.
  unfold fetchAndStoreContractEvents.
  rewrite tryCatch_logger_queries.
  apply (windows_run E web3 contract). intros w s0.
  apply (window_run E web3 (pastLogs E web3) contract w
           (fun a b =>
              forOf a
                (fun log => processDepositedEvent E cn contract (Some log) web3) ;;
              forOf b
                (fun log => processRedeemedEvent E cn contract (Some log) web3) ;;
              logger LvlLog
                ("Processed Events for block " +:+ pretty (fst w) +:+ " to " +:+
                 pretty (snd w)))).
  - intros. apply pastLogs_run.
  - intros a b.
    repeat first [ apply total_bind; intros | apply total_forOf; intros
                 | apply processDepositedEvent_total
                 | apply processRedeemedEvent_total
                 | apply total_ret | apply total_logger ].
  - intros a b. keeps_auto.
Qed.

Lemma fetchAndStoreContractEvents_total cn contract f t :
  total (fetchAndStoreContractEvents E web3 cn contract f t).
Proof. apply total_tryCatch. intros e. apply total_logger. Qed.

(** The historical scan of a network: every contract in turn, each given up
    at its first query that fails. *)
Lemma storePreviousEventsForChain_scans config fromBlock c
    (s : State StockManagerEvent) :
  web3Connections s !! cfg_name config = Some web3 ->
  getBlockNumber web3 = inr c ->
  pastLogQueries (trace (exec (storePreviousEventsForChain E config fromBlock) s))
  = pastLogQueries (trace s)
    ++ concat (map (fun contract =>
                      untilFailure web3
                        (concat (map (windowQueries E contract)
                                   (windowsOf (startBlockOf fromBlock c) (Num c)))))
                 (contracts config)).
Proof.
  intros Hconn Hc. unfold storePreviousEventsForChain.
  unfold exec at 1. rewrite (bind_ok _ _ s (web3Connections s !! cfg_name config))
    by reflexivity.
  change (exec (gets _) s) with s. rewrite Hconn, Hc.
  unfold tryCatch. unfold await at 1.
  rewrite (bind_ok _ _ s c) by reflexivity.
  set (s1 := exec _ s).
  assert (Hq1 : pastLogQueries (trace s1) = pastLogQueries (trace s)).
  { subst s1. unfold exec, bind, emit, modify. simpl.
    unfold pastLogQueries. rewrite omap_app. simpl. apply app_nil_r. }
  clearbody s1. cbv zeta.
  pose proof (issues_forOf (contracts config)
    (fun contract =>
       fetchAndStoreContractEvents E web3 (cfg_name config)
         contract (startBlockOf fromBlock c) (Num c))
    (fun contract =>
       untilFailure web3
         (concat (map (windowQueries E contract)
                    (windowsOf (startBlockOf fromBlock c) (Num c)))))
    (fun contract s0 =>
       conj (fetchAndStoreContractEvents_total (cfg_name config) contract _ _ s0)
            (fetchAndStoreContractEvents_abandons (cfg_name config) contract _ _ s0))
    s1) as [[a Ha] Hq].
  unfold result, exec in Ha, Hq.
  destruct (forOf _ _ s1) as [[e|a'] s2]; simpl in Ha, Hq; [discriminate|].
  simpl. rewrite Hq, Hq1. reflexivity.
Qed.

Lemma storePreviousEventsForChain_completes config fb :
  total (storePreviousEventsForChain E config fb).
Proof.
  unfold storePreviousEventsForChain. apply total_bind; [apply total_gets|].
  intros [w|]; [|apply total_logger].
  apply total_tryCatch. intros e. apply total_logger.
Qed.

Lemma storePreviousEvents_scans config fromBlock c (s : State StockManagerEvent) :
  web3Connections s !! cfg_name config = Some web3 ->
  getBlockNumber web3 = inr c ->
  pastLogQueries (trace (exec (storePreviousEvents E [config] fromBlock) s))
  = pastLogQueries (trace s)
    ++ concat (map (fun contract =>
                      untilFailure web3
                        (concat (map (windowQueries E contract)
                                   (windowsOf (startBlockOf fromBlock c) (Num c)))))
                 (contracts config)).
Proof.
  intros Hconn Hc. unfold storePreviousEvents. cbn [forOf].
  pose proof (storePreviousEventsForChain_scans config fromBlock c s Hconn Hc) as Hq.
  pose proof (run_unit _ s (storePreviousEventsForChain_completes config fromBlock))
    as Hrun.
  unfold exec at 1. unfold bind, tryCatch. rewrite Hrun. cbn.
  unfold pastLogQueries in *. rewrite omap_app, Hq. cbn. now rewrite app_nil_r.
Qed.

End AbandonedSweeps.

Section EventsAbandonedSweeps.

Variable E : Env.

Variable web3 : Web3.

Import Events.

Lemma events_pastLogs_run contract b e p (s : State Event) :
  result (pastLogs E web3 contract b e p) s
  = getPastLogs web3 {| f_address := c_address contract; fromBlock := b;
                        toBlock := e; f_topics := [topicOf E p] |} /\
  pastLogQueries (trace (exec (pastLogs E web3 contract b e p) s))
  = pastLogQueries (trace s)
    ++ [ {| f_address := c_address contract; fromBlock := b; toBlock := e;
            f_topics := [topicOf E p] |} ].
Proof.
  unfold pastLogs, signatureTopic, utils_sha3, await, result, exec, bind,
    emit, modify, ret. cbn. fold (topicOf E p).
  split; [reflexivity|].
  unfold pastLogQueries. rewrite !omap_app. cbn. now rewrite app_nil_r.
Qed.

#[local] Hint Resolve events_processDepositedEvent_grows
  events_processRedeemedEvent_grows : frames.

Lemma events_fetchAndStoreContractEvents_abandons cn contract f t
    (s : State Event) :
  pastLogQueries (trace (exec
    (fetchAndStoreContractEvents E web3 cn contract f t) s))
  = pastLogQueries (trace s)
    ++ untilFailure web3 (concat (map (windowQueries E contract) (windowsOf f t))).
Proof.
  unfold fetchAndStoreContractEvents.
  rewrite tryCatch_logger_queries.
  apply (windows_run E web3 contract). intros w s0. cbv zeta.
  match goal with
  | |- context [exec (logger ?lvl ?msg ;; ?m) s0] =>
      destruct (logger_then m lvl msg s0) as (s1 & Hq1 & Hm)
  end.
  unfold exec, result. rewrite Hm, <- Hq1.
  apply (window_run E web3 (pastLogs E web3) contract w
           (fun a b =>
              forOf a
                (fun log => processDepositedEvent E cn contract (Some log) web3) ;;
              forOf b
                (fun log => processRedeemedEvent E cn contract (Some log) web3) ;;
              logger LvlLog
                ("Processed " +:+ pretty (length a) +:+
                 " deposited and " +:+ pretty (length b) +:+
                 " redeemed events for " +:+ c_name contract))).
  - intros. apply events_pastLogs_run.
  - intros a b.
    repeat first [ apply total_bind; intros | apply total_forOf; intros
                 | apply events_processDepositedEvent_total
                 | apply events_processRedeemedEvent_total
                 | apply total_ret | apply total_logger ].
  - intros a b. keeps_auto.
Qed.

Lemma events_fetchAndStoreContractEvents_total cn contract f t :
  total (fetchAndStoreContractEvents E web3 cn contract f t).
Proof. apply total_tryCatch. intros e. apply total_logger. Qed.

Lemma events_storePreviousEventsForChain_scans config fromBlock c
    (s : State Event) :
  web3Connections s !! cfg_name config = Some web3 ->
  getBlockNumber web3 = inr c ->
  pastLogQueries (trace (exec (storePreviousEventsForChain E config fromBlock) s))
  = pastLogQueries (trace s)
    ++ concat (map (fun contract =>
                      untilFailure web3
                        (concat (map (windowQueries E contract)
                                   (windowsOf (startBlockOf fromBlock c) (Num c)))))
                 (contracts config)).
Proof.
  intros Hconn Hc. unfold storePreviousEventsForChain.
  unfold exec at 1. rewrite (bind_ok _ _ s (web3Connections s !! cfg_name config))
    by reflexivity.
  change (exec (gets _) s) with s. rewrite Hconn, Hc.
  unfold tryCatch. unfold await at 1.
  rewrite (bind_ok _ _ s c) by reflexivity.
  set (s1 := exec _ s).
  assert (Hq1 : pastLogQueries (trace s1) = pastLogQueries (trace s)).
  { subst s1. unfold exec, bind, emit, modify. simpl.
    unfold pastLogQueries. rewrite omap_app. simpl. apply app_nil_r. }
  clearbody s1. cbv zeta.
  rewrite (bind_ok _ _ s1 tt) by reflexivity.
  set (s2 := exec (logger _ _) s1).
  assert (Hq2 : pastLogQueries (trace s2) = pastLogQueries (trace s)).
  { subst s2. unfold exec, logger, emit, modify. simpl.
    unfold pastLogQueries in *. rewrite omap_app, Hq1. simpl. apply app_nil_r. }
  clearbody s2.
  pose proof (issues_forOf (contracts config)
    (fun contract =>
       fetchAndStoreContractEvents E web3 (cfg_name config)
         contract (startBlockOf fromBlock c) (Num c))
    (fun contract =>
       untilFailure web3
         (concat (map (windowQueries E contract)
                    (windowsOf (startBlockOf fromBlock c) (Num c)))))
    (fun contract s0 =>
       conj (events_fetchAndStoreContractEvents_total (cfg_name config) contract _ _ s0)
            (events_fetchAndStoreContractEvents_abandons (cfg_name config) contract
               _ _ s0))
    s2) as [[a Ha] Hq].
  unfold result, exec in Ha, Hq.
  destruct (forOf _ _ s2) as [[e|a'] s3]; simpl in Ha, Hq; [discriminate|].
  simpl. rewrite Hq, Hq2. reflexivity.
Qed.

Lemma events_storePreviousEventsForChain_completes config fb :
  total (storePreviousEventsForChain E config fb).
Proof.
  unfold storePreviousEventsForChain. apply total_bind; [apply total_gets|].
  intros [w|]; [|apply total_logger].
  apply total_tryCatch. intros e. apply total_logger.
Qed.

Lemma events_storePreviousEvents_scans config fromBlock c (s : State Event) :
  web3Connections s !! cfg_name config = Some web3 ->
  getBlockNumber web3 = inr c ->
  pastLogQueries (trace (exec (storePreviousEvents E [config] fromBlock) s))
  = pastLogQueries (trace s)
    ++ concat (map (fun contract =>
                      untilFailure web3
                        (concat (map (windowQueries E contract)
                                   (windowsOf (startBlockOf fromBlock c) (Num c)))))
                 (contracts config)).
Proof.
  intros Hconn Hc. unfold storePreviousEvents. cbn [forOf].
  unfold exec at 1. rewrite (bind_ok _ _ s tt) by reflexivity.
  set (s1 := exec (logger _ _) s).
  assert (Hconn1 : web3Connections s1 !! cfg_name config = Some web3) by exact Hconn.
  assert (Hq1 : pastLogQueries (trace s1) = pastLogQueries (trace s)).
  { subst s1. unfold exec, logger, emit, modify. simpl.
    unfold pastLogQueries. rewrite omap_app. simpl. apply app_nil_r. }
  pose proof (events_storePreviousEventsForChain_scans config fromBlock c s1
                Hconn1 Hc) as Hq.
  rewrite Hq1 in Hq. clearbody s1.
  pose proof (run_unit _ s1 (events_storePreviousEventsForChain_completes config
                               fromBlock)) as Hrun.
  unfold bind, tryCatch. rewrite Hrun. cbn.
  unfold pastLogQueries in *. rewrite omap_app, Hq. cbn. now rewrite app_nil_r.
Qed.

End EventsAbandonedSweeps.

(** ** The hourly timer *)

Section Timers.

Context {R : Type}.

Implicit Types s a b c : State R.

Lemma sameTimers_refl s : sameTimers s s.
Proof. split; [reflexivity | apply grows_refl]. Qed.

Lemma sameTimers_trans a b c : sameTimers a b -> sameTimers b c -> sameTimers a c.
Proof.
  intros [H1 G1] [H2 G2]. split; [congruence | eapply grows_trans; eassumption].
Qed.

Lemma liveIntervals_app (t d : list (Effect R)) :
  Forall (fun e => negb (timerEffect e) = true) d ->
  liveIntervals (t ++ d) = liveIntervals t.
Proof.
  unfold liveIntervals. rewrite foldl_app.
  match goal with |- context [foldl ?f [] t] => generalize (foldl f [] t) end.
  intros live Hd. revert live. induction Hd as [|e d He _ IH]; intros live;
    [reflexivity|].
  cbn. destruct e; cbn in He; try discriminate; apply IH.
Qed.

Lemma timersRecorded_sameTimers s s' :
  sameTimers s s' -> timersRecorded s -> timersRecorded s'.
Proof.
  intros [Hb (d & Hd & Fd)] H. unfold timersRecorded in *.
  rewrite Hd, Hb, liveIntervals_app; assumption.
Qed.

End Timers.

#[local] Hint Resolve sameTimers_refl sameTimers_trans : frames.

Ltac timer_leaf :=
  intros ?; split; [reflexivity|];
  first [ exists []; split; [symmetry; apply app_nil_r | constructor]
        | eexists [_]; split; [reflexivity | repeat constructor] ].

Section StockManagerTimers.

Variable E : Env.

Variable C : Closing.

Variable configured : list BlockchainConfig.

Import StockManager.

Lemma processDepositedEvent_timers cn c log web3 :
  keeps sameTimers (processDepositedEvent E cn c log web3).
Proof.
  unfold processDepositedEvent, abi_decodeLog, toStringOf, storeEventInDatabase,
    getBlockDateFromTimestamp, findByTxHash, create, nowISOString.
  walk timer_leaf.
Qed.

Lemma processRedeemedEvent_timers cn c log web3 :
  keeps sameTimers (processRedeemedEvent E cn c log web3).
Proof.
  unfold processRedeemedEvent, abi_decodeLog, toStringOf, storeEventInDatabase,
    getBlockDateFromTimestamp, findByTxHash, create, nowISOString.
  walk timer_leaf.
Qed.

#[local] Hint Resolve processDepositedEvent_timers processRedeemedEvent_timers : frames.

Lemma onSubscriptionData_timers cn cs log :
  keeps sameTimers (onSubscriptionData E cn cs log).
Proof. unfold onSubscriptionData, processLog, topics0, utils_sha3. walk timer_leaf. Qed.

Lemma onProviderConnect_timers cn cs : keeps sameTimers (onProviderConnect cn cs).
Proof. unfold onProviderConnect, subscribeToEvents. walk timer_leaf. Qed.

Lemma storePreviousEvents_timers configs fb :
  keeps sameTimers (storePreviousEvents E configs fb).
Proof.
  unfold storePreviousEvents, storePreviousEventsForChain,
    fetchAndStoreContractEvents, pastLogs, signatureTopic, utils_sha3.
  walk timer_leaf.
Qed.

Lemma backfillLastBlocks_timers config n :
  keeps sameTimers (backfillLastBlocks E config n).
Proof.
  unfold backfillLastBlocks, fetchAndStoreContractEventsWithDeduplication,
    processEventWithDeduplication, findByTxHash, pastLogs, signatureTopic, utils_sha3.
  walk timer_leaf.
Qed.

#[local] Hint Resolve backfillLastBlocks_timers storePreviousEvents_timers : frames.

Lemma triggerManualBackfill_timers n : keeps sameTimers (triggerManualBackfill E n).
Proof. unfold triggerManualBackfill. walk timer_leaf. Qed.

Lemma performHourlyBackfill_timers : keeps sameTimers (performHourlyBackfill E).
Proof. unfold performHourlyBackfill. walk timer_leaf. Qed.

Lemma disconnect_timers : keeps sameTimers (disconnect C).
Proof. unfold disconnect. walk timer_leaf. Qed.

Lemma connectToChain_timers config : keeps sameTimers (connectToChain E config).
Proof. unfold connectToChain. walk timer_leaf. Qed.

#[local] Hint Resolve triggerManualBackfill_timers : frames.

Lemma triggerBackfill_timers bc :
  keeps sameTimers (Web3Controller.triggerBackfill E bc).
Proof. unfold Web3Controller.triggerBackfill. walk timer_leaf. Qed.

Lemma controller_storePreviousEvents_timers body fb :
  keeps sameTimers (Web3Controller.storePreviousEvents E configured body fb).
Proof. unfold Web3Controller.storePreviousEvents. walk timer_leaf. Qed.

Lemma startHourlyBackfill_recorded (s : State StockManagerEvent) :
  timersRecorded s -> timersRecorded (exec startHourlyBackfill s).
Proof.
  unfold timersRecorded, startHourlyBackfill, exec, bind, gets, emit, modify,
    freshTimer, setBackfillInterval, logger, ret. cbn.
  intros H. destruct (backfillInterval s) as [h0|]; cbn in *.
  - unfold liveIntervals in *. rewrite !foldl_app, H. cbn.
    now rewrite Nat.eqb_refl.
  - unfold liveIntervals in *. rewrite !foldl_app, H. reflexivity.
Qed.

Lemma stopHourlyBackfill_recorded (s : State StockManagerEvent) :
  timersRecorded s ->
  liveIntervals (trace (exec stopHourlyBackfill s)) = [] /\
  backfillInterval (exec stopHourlyBackfill s) = None.
Proof.
  unfold timersRecorded, stopHourlyBackfill, exec, bind, gets, emit, modify,
    setBackfillInterval, logger, ret. cbn.
  intros H. destruct (backfillInterval s) as [h0|] eqn:Hb; cbn in *.
  - unfold liveIntervals in *. rewrite !foldl_app, H. cbn.
    now rewrite Nat.eqb_refl.
  - split; [exact H | exact Hb].
Qed.

Lemma recording_refl (s : State StockManagerEvent) : recording s s.
Proof. intros H. exact H. Qed.

Lemma recording_trans (a b c : State StockManagerEvent) :
  recording a b -> recording b c -> recording a c.
Proof. unfold recording. auto. Qed.

Lemma recording_sameTimers {A} (m : M StockManagerEvent A) :
  keeps sameTimers m -> keeps recording m.
Proof. intros Hm s H. eapply timersRecorded_sameTimers; [apply Hm | exact H]. Qed.

Lemma startHourlyBackfill_recording : keeps recording startHourlyBackfill.
Proof. intros s H. now apply startHourlyBackfill_recorded. Qed.

Lemma stopHourlyBackfill_recording : keeps recording stopHourlyBackfill.
Proof.
  intros s H. destruct (stopHourlyBackfill_recorded s H) as [Hl Hb].
  unfold timersRecorded. now rewrite Hl, Hb.
Qed.

#[local] Hint Resolve recording_refl recording_trans startHourlyBackfill_recording
  stopHourlyBackfill_recording : frames.

Ltac recording_leaf := apply recording_sameTimers; timer_leaf.

Lemma perform_recording c : keeps recording (perform E C configured c).
Proof.
  pose proof (fun config => recording_sameTimers _ (connectToChain_timers config)).
  pose proof (fun cn cs => recording_sameTimers _ (onProviderConnect_timers cn cs)).
  pose proof (fun cn cs log =>
                recording_sameTimers _ (onSubscriptionData_timers cn cs log)).
  pose proof (fun configs fb =>
                recording_sameTimers _ (storePreviousEvents_timers configs fb)).
  pose proof (fun n => recording_sameTimers _ (triggerManualBackfill_timers n)).
  pose proof (recording_sameTimers _ performHourlyBackfill_timers).
  pose proof (recording_sameTimers _ disconnect_timers).
  pose proof (fun bc => recording_sameTimers _ (triggerBackfill_timers bc)).
  pose proof (fun body fb =>
                recording_sameTimers _ (controller_storePreviousEvents_timers body fb)).
  destruct c; cbn [perform]; unfold connectToMultipleChains, onModuleDestroy;
    walk recording_leaf.
Qed.

End StockManagerTimers.

(** X7.  At most one hourly timer is ever live, and it is the one whose
    handle the service holds: starting the hourly backfill again clears the
    previous interval before it sets a new one, and stopping it (alone or
    when the module is destroyed) leaves no interval running.  This holds
    after any sequence of calls. *)
Theorem one_hourly_timer (E : Env) (C : Closing)
    (configured : list BlockchainConfig) (calls : list Call)
    (s : State StockManager.StockManagerEvent) :
  timersRecorded s ->
  let s' := run E C configured calls s in
  liveIntervals (trace s') = option_list (backfillInterval s') /\
  (length (liveIntervals (trace s')) <= 1)%nat /\
  liveIntervals (trace (exec StockManager.stopHourlyBackfill s')) = [] /\
  liveIntervals (trace (exec (StockManager.onModuleDestroy C) s')) = [] /\
  result StockManager.getBackfillStatus (exec StockManager.stopHourlyBackfill s')
  = inr false.
Proof.
  intros H s'.
  assert (Hs' : timersRecorded s').
  { subst s'. revert s H. induction calls as [|c calls IH]; intros s H; [exact H|].
    cbn [run foldl]. apply IH. now apply perform_recording. }
  split; [exact Hs'|]. split.
  { rewrite Hs'. destruct (backfillInterval s'); cbn; lia. }
  destruct (stopHourlyBackfill_recorded s' Hs') as [Hl Hb].
  split; [exact Hl|]. split.
  - unfold StockManager.onModuleDestroy.
    destruct (stopHourlyBackfill_total s') as [[] Ha].
    unfold exec at 1. rewrite (bind_ok _ _ s' tt Ha).
    destruct (disconnect_timers C (exec StockManager.stopHourlyBackfill s'))
      as [_ (d & Hd & Fd)].
    unfold exec in Hd at 1. rewrite Hd, liveIntervals_app; assumption.
  - unfold result, StockManager.getBackfillStatus, bind, gets, ret. cbn.
    now rewrite Hb.
Qed.

Lemma one_hourly_timer_witness :
  let s' := run Demo.env Demo.closing [Demo.bsc]
              [ CallConnectToMultipleChains [Demo.bsc; Demo.ethereum];
                CallTriggerManualBackfill (Num 10000);
                CallConnectToMultipleChains [Demo.bsc] ]
              (initial : State StockManager.StockManagerEvent) in
  liveIntervals (trace s') = [1%nat] /\
  liveIntervals (trace (exec StockManager.stopHourlyBackfill s')) = [].
Proof.
  intros s'.
  destruct (one_hourly_timer Demo.env Demo.closing [Demo.bsc]
              [ CallConnectToMultipleChains [Demo.bsc; Demo.ethereum];
                CallTriggerManualBackfill (Num 10000);
                CallConnectToMultipleChains [Demo.bsc] ]
              (initial : State StockManager.StockManagerEvent) eq_refl)
    as (Hl & _ & Hstop & _).
  split; [|exact Hstop].
  fold s' in Hl. rewrite Hl. vm_compute. reflexivity.
Defined.

(** X8.  In a pass over networks with distinct names, a failure to connect
    to one network is caught for that network alone and the pass never
    throws; every network whose own connect succeeds is held in the
    connection map afterwards, whatever happened to the others.  In the
    events-schema service that network also has its log subscription
    registered when its subscribe call succeeds.  In the stock-manager
    service the pass registers a [connect] listener for the network, and the
    subscription is registered when that listener runs. *)
Theorem partial_failure_isolation (E : Env) (configs : list BlockchainConfig)
    (config : BlockchainConfig) :
  NoDup (map cfg_name configs) ->
  config ∈ configs ->
  connectable E config = true ->
  (forall s : State Events.Event,
     result (Events.connectToMultipleChains E configs) s = inr tt /\
     web3Connections (exec (Events.connectToMultipleChains E configs) s)
       !! cfg_name config = Some (WebsocketProvider E (wssUrl config)) /\
     (forall sub,
        subscribe (WebsocketProvider E (wssUrl config))
          (map c_address (contracts config)) = inr sub ->
        subscriptions (exec (Events.connectToMultipleChains E configs) s)
          !! (cfg_name config +:+ "-logs") = Some sub)) /\
  (forall s : State StockManager.StockManagerEvent,
     result (StockManager.connectToMultipleChains E configs) s = inr tt /\
     web3Connections (exec (StockManager.connectToMultipleChains E configs) s)
       !! cfg_name config = Some (WebsocketProvider E (wssUrl config)) /\
     subscriptions (exec (StockManager.connectToMultipleChains E configs) s)
       = subscriptions s /\
     (provider (WebsocketProvider E (wssUrl config)) = true ->
      (cfg_name config, contracts config)
        ∈ connectListeners (exec (StockManager.connectToMultipleChains E configs) s)) /\
     (forall sub,
        subscribe (WebsocketProvider E (wssUrl config))
          (map c_address (contracts config)) = inr sub ->
        subscriptions
          (exec (StockManager.onProviderConnect (cfg_name config) (contracts config))
             (exec (StockManager.connectToMultipleChains E configs) s))
          !! (cfg_name config +:+ "-logs") = Some sub)).
Proof.
  intros Hnd Hin Hc. split.
  - intros s.
    destruct (events_connectToMultipleChains_spec E configs s) as (Hr & Hconn & Hsub).
    split; [exact Hr|]. split.
    + rewrite Hconn. now apply connectStep_lookup.
    + intros sub Hs. rewrite Hsub. now apply subscribeStep_lookup.
  - intros s.
    destruct (stockManager_connectToMultipleChains_spec E configs s)
      as (Hr & Hconn & Hsub & Hl).
    assert (Hlook : web3Connections
              (exec (StockManager.connectToMultipleChains E configs) s)
              !! cfg_name config = Some (WebsocketProvider E (wssUrl config))).
    { rewrite Hconn. now apply connectStep_lookup. }
    split; [exact Hr|]. split; [exact Hlook|]. split; [exact Hsub|]. split.
    + intros Hp. rewrite Hl. now apply listenStep_elem.
    + intros sub Hs.
      rewrite (stockManager_onProviderConnect_spec (cfg_name config)
                 (contracts config) _ sub _ Hlook Hs).
      apply lookup_insert_eq.
Qed.

Lemma partial_failure_isolation_witness :
  NoDup (map cfg_name [Demo.bsc; Demo.ethereum; Demo.base]) /\
  Demo.base ∈ [Demo.bsc; Demo.ethereum; Demo.base] /\
  connectable Demo.env Demo.base = true /\
  connectable Demo.env Demo.ethereum = false /\
  subscriptions (exec
    (Events.connectToMultipleChains Demo.env [Demo.bsc; Demo.ethereum; Demo.base])
    initial) !! "base-logs" = Some {| sub_address := ["0xVaultAddress"] |}.
Proof.
  assert (Hnd : NoDup (map cfg_name [Demo.bsc; Demo.ethereum; Demo.base])).
  { apply (bool_decide_unpack _). vm_compute. exact I. }
  assert (Hin : Demo.base ∈ [Demo.bsc; Demo.ethereum; Demo.base]).
  { right. right. left. }
  split; [exact Hnd | split; [exact Hin | split; [reflexivity | split; [reflexivity|]]]].
  destruct (partial_failure_isolation Demo.env [Demo.bsc; Demo.ethereum; Demo.base]
              Demo.base Hnd Hin eq_refl) as [Hev _].
  destruct (Hev initial) as (_ & _ & Hsub).
  apply (Hsub {| sub_address := ["0xVaultAddress"] |}). reflexivity.
Defined.

(** ** The queries of a reconciliation sweep *)

Section IssuedQueries.

Variable E : Env.

Import StockManager.

Lemma backfillLastBlocks_issued config n (s : State StockManagerEvent) :
  pastLogQueries (trace (exec (backfillLastBlocks E config n) s))
  = pastLogQueries (trace s) ++ backfillIssued E (web3Connections s) n config.
Proof.
  unfold backfillLastBlocks, backfillIssued.
  unfold exec at 1. rewrite (bind_ok _ _ s (web3Connections s !! cfg_name config))
    by reflexivity.
  change (exec (gets _) s) with s.
  destruct (web3Connections s !! cfg_name config) as [web3|] eqn:Hconn.
  - destruct (getBlockNumber web3) as [e|c] eqn:Hc.
    + unfold tryCatch, await, bind, emit, modify, logger. simpl.
      unfold pastLogQueries. rewrite !omap_app. simpl. now rewrite !app_nil_r.
    + unfold tryCatch. unfold await at 1.
      rewrite (bind_ok _ _ s c) by reflexivity.
      set (s1 := exec _ s).
      assert (Hq1 : pastLogQueries (trace s1) = pastLogQueries (trace s)).
      { subst s1. unfold exec, bind, emit, modify. simpl.
        unfold pastLogQueries. rewrite omap_app. simpl. apply app_nil_r. }
      clearbody s1. cbv zeta.
      pose proof (issues_forOf (contracts config)
        (fun contract =>
           fetchAndStoreContractEventsWithDeduplication E web3 (cfg_name config)
             contract (Js.max (Num 0) (Js.sub (Num c) n)) (Num c))
        (fun contract =>
           untilFailure web3
             (concat (map (windowQueries E contract)
                        (windowsOf (Js.max (Num 0) (Js.sub (Num c) n)) (Num c)))))
        (fun contract s0 =>
           conj (fetchAndStoreContractEventsWithDeduplication_total E web3
                   (cfg_name config) contract _ _ s0)
                (fetchAndStoreContractEventsWithDeduplication_abandons E web3
                   (cfg_name config) contract _ _ s0))
        s1) as [[a Ha] Hq].
      unfold result, exec in Ha, Hq.
      destruct (forOf _ _ s1) as [[e|a'] s2]; simpl in Ha, Hq; [discriminate|].
      simpl. rewrite Hq, Hq1. reflexivity.
  - unfold logger, emit, modify. simpl.
    unfold pastLogQueries. rewrite omap_app. simpl. reflexivity.
Qed.

Lemma sweep_issued n configs s0 : forall s,
  sameService s0 s ->
  (exists a, result (forOf configs (fun config => backfillLastBlocks E config n)) s
             = inr a) /\
  pastLogQueries
    (trace (exec (forOf configs (fun config => backfillLastBlocks E config n)) s))
  = pastLogQueries (trace s)
    ++ concat (map (backfillIssued E (web3Connections s0) n) configs) /\
  sameService s0
    (exec (forOf configs (fun config => backfillLastBlocks E config n)) s).
Proof.
  induction configs as [|config configs IH]; intros s Hs.
  - simpl. split; [now exists tt|]. split; [now rewrite app_nil_r | exact Hs].
  - cbn [forOf map concat].
    destruct (backfillLastBlocks_total E config n s) as [a Ha].
    unfold result, exec. rewrite (bind_ok _ _ s a Ha).
    set (s1 := exec (backfillLastBlocks E config n) s).
    assert (Hs1 : sameService s0 s1).
    { eapply sameService_trans; [exact Hs | apply backfillLastBlocks_service]. }
    destruct (IH s1 Hs1) as (Hr & Hq & Hsv).
    split; [exact Hr|]. split; [|exact Hsv].
    unfold exec in Hq. rewrite Hq. subst s1.
    rewrite backfillLastBlocks_issued.
    destruct Hs as (Hconn & _). rewrite Hconn. now rewrite app_assoc.
Qed.

Lemma triggerManualBackfill_issued n (s : State StockManagerEvent) :
  result (triggerManualBackfill E n) s = inr tt /\
  pastLogQueries (trace (exec (triggerManualBackfill E n) s))
  = pastLogQueries (trace s)
    ++ concat (map (backfillIssued E (web3Connections s) n) (blockchainConfigs s)).
Proof.
  unfold triggerManualBackfill.
  set (msg := "Manual backfill triggered for last " +:+ _).
  set (s1 := exec (logger LvlLog msg) s).
  assert (Hs1 : sameService s s1) by (repeat split).
  assert (Hq1 : pastLogQueries (trace s1) = pastLogQueries (trace s)).
  { subst s1. unfold exec, logger, emit, modify. simpl.
    unfold pastLogQueries. rewrite omap_app. simpl. apply app_nil_r. }
  destruct (sweep_issued n (blockchainConfigs s) s s1 Hs1) as ([a Ha] & Hq & _).
  set (s2 := exec (forOf (blockchainConfigs s) _) s1) in *.
  assert (Heq : forall h,
    (logger LvlLog msg ;;
     tryCatch
       (configs <- gets blockchainConfigs ;;
        forOf configs (fun config => backfillLastBlocks E config n) ;;
        logger LvlLog "Manual backfill completed successfully") h) s
    = (inr tt, exec (logger LvlLog "Manual backfill completed successfully") s2)).
  { intros h. rewrite (bind_ok _ _ s tt) by reflexivity. fold s1.
    unfold tryCatch.
    rewrite (bind_ok _ _ s1 (blockchainConfigs s)) by reflexivity.
    change (exec (gets blockchainConfigs) s1) with s1.
    rewrite (bind_ok _ _ s1 a Ha). fold s2. reflexivity. }
  unfold result, exec at 1. rewrite Heq. simpl. split; [reflexivity|].
  unfold pastLogQueries in *. rewrite omap_app, Hq, Hq1. simpl. now rewrite app_nil_r.
Qed.

Lemma triggerBackfill_issued bc n (s : State StockManagerEvent) :
  Js.truthyString bc = true ->
  Js.parseInt bc = Num n ->
  1 <= n <= 50000 ->
  pastLogQueries (trace (exec (Web3Controller.triggerBackfill E (Some bc)) s))
  = pastLogQueries (trace s)
    ++ concat (map (backfillIssued E (web3Connections s) (Num n))
                 (blockchainConfigs s)).
Proof.
  intros Ht Hp Hn. unfold Web3Controller.triggerBackfill, result, exec, tryCatch.
  rewrite (bind_ok _ _ s tt) by reflexivity.
  cbv beta zeta. simpl (Js.truthyOptString (Some bc)). simpl (default "" (Some bc)).
  rewrite Ht, Hp. cbn [Js.leb Js.gtb].
  assert (Hb : (n <=? 0) || (50000 <? n) = false).
  { apply orb_false_iff. rewrite Z.leb_gt, Z.ltb_ge. lia. }
  rewrite Hb.
  set (s1 := exec (logger LvlLog "Received request to trigger backfill") s).
  destruct (triggerManualBackfill_issued (Num n) s1) as [Hr Hq].
  rewrite (bind_ok _ _ s1 tt Hr). simpl.
  rewrite Hq. subst s1. unfold exec, logger, emit, modify. simpl.
  unfold pastLogQueries. rewrite omap_app. simpl. now rewrite app_nil_r.
Qed.

(** When the endpoint answers every query, a sweep issues its whole plan. *)
Lemma backfillIssued_answered (connections : gmap string Web3) n config :
  (forall web3, connections !! cfg_name config = Some web3 -> answers web3) ->
  backfillIssued E connections n config = backfillQueries E connections n config.
Proof.
  intros Hans. unfold backfillIssued, backfillQueries.
  destruct (connections !! cfg_name config) as [web3|]; [|reflexivity].
  destruct (getBlockNumber web3) as [e|c]; [reflexivity|].
  unfold sweepIssued, sweepQueries. f_equal. apply map_ext. intros contract.
  apply untilFailure_answered, answers_answered, Hans. reflexivity.
Qed.

Lemma backfillIssued_connected (connections : gmap string Web3) config web3 c n :
  connections !! cfg_name config = Some web3 ->
  getBlockNumber web3 = inr c ->
  backfillIssued E connections (Num n) config
  = concat (map (fun contract =>
                   untilFailure web3
                     (concat (map (windowQueries E contract)
                                (windows (Z.max 0 (c - n)) c))))
              (contracts config)).
Proof.
  intros Hconn Hc. unfold backfillIssued. rewrite Hconn, Hc. reflexivity.
Qed.

End IssuedQueries.


Lemma demo_routed :
  routed "bsc" [Demo.vault] Demo.deposit Demo.vault Demo.node Demo.running.
Proof. split; [reflexivity | split; [reflexivity | apply lookup_singleton_eq]]. Qed.


(** C3, as stated, fails on its concrete instance: backfilling
    [[1000, 2500]] visits two windows, not three, and issues four
    [getPastLogs] queries (one per event kind and window), not three. *)
Lemma backfill_1000_2500_not_three :
  length (windows 1000 2500) <> 3%nat /\
  length (pastLogQueries (trace (exec
    (StockManager.fetchAndStoreContractEventsWithDeduplication Demo.env
       Demo.node "bsc" Demo.vault (Num 1000) (Num 2500))
    (initial : State StockManager.StockManagerEvent)))) <> 3%nat.
Proof. split; vm_compute; discriminate. Qed.

(** C3 (amended): for every block range [fromBlock <= toBlock] the backfill
    loops step through the windows
    [[fromBlock + 1000 k, min (fromBlock + 1000 k + 999) toBlock]],
    [k = 0, 1, ...], in increasing order; the windows partition the range
    (their blocks, concatenated, are exactly [fromBlock .. toBlock], each
    once).  The plan of a sweep is two queries per window, Deposited then
    Redeemed.  Either loop issues the plan in order and, the loop standing
    in one [try] block, gives the contract up at the first query that the
    endpoint rejects: the queries issued are the plan up to and including
    that query, and the windows after it are not fetched.  When the
    endpoint answers every query the whole plan is issued, each window
    once per event kind.  Backfilling [[1000, 2500]] has the two windows
    [[1000, 1999]] and [[2000, 2500]] and a plan of four queries. *)
Theorem backfill_window_coverage (E : Env) (web3 : Web3) (chainName : string)
    (contract : ContractConfig) (fromBlock toBlock : Z)
    (s : State StockManager.StockManagerEvent) :
  fromBlock <= toBlock ->
  let plan := concat (map (windowQueries E contract) (windows fromBlock toBlock)) in
  let backfill := StockManager.fetchAndStoreContractEventsWithDeduplication E web3
                    chainName contract (Num fromBlock) (Num toBlock) in
  let scan := StockManager.fetchAndStoreContractEvents E web3
                chainName contract (Num fromBlock) (Num toBlock) in
  (forall k : nat,
     windows fromBlock toBlock !! k =
     if decide (fromBlock + 1000 * Z.of_nat k <= toBlock)
     then Some (fromBlock + 1000 * Z.of_nat k,
                Z.min (fromBlock + 1000 * Z.of_nat k + 999) toBlock)
     else None) /\
  concat (map blocksOf (windows fromBlock toBlock))
    = seqZ fromBlock (toBlock - fromBlock + 1) /\
  (forall b, b ∈ concat (map blocksOf (windows fromBlock toBlock))
             <-> fromBlock <= b <= toBlock) /\
  NoDup (concat (map blocksOf (windows fromBlock toBlock))) /\
  pastLogQueries (trace (exec backfill s))
    = pastLogQueries (trace s) ++ untilFailure web3 plan /\
  pastLogQueries (trace (exec scan s))
    = pastLogQueries (trace s) ++ untilFailure web3 plan /\
  result backfill s = inr tt /\
  result scan s = inr tt /\
  (forall before q after,
     plan = before ++ q :: after ->
     forallb (answered web3) before = true -> answered web3 q = false ->
     untilFailure web3 plan = before ++ [q]) /\
  (answers web3 ->
   pastLogQueries (trace (exec backfill s)) = pastLogQueries (trace s) ++ plan /\
   pastLogQueries (trace (exec scan s)) = pastLogQueries (trace s) ++ plan) /\
  windows 1000 2500 = [(1000, 1999); (2000, 2500)] /\
  length (concat (map (windowQueries E contract) (windows 1000 2500))) = 4%nat.
Proof.
  intros Hle plan backfill scan.
  assert (Hb : pastLogQueries (trace (exec backfill s))
               = pastLogQueries (trace s) ++ untilFailure web3 plan).
  { apply (fetchAndStoreContractEventsWithDeduplication_abandons E web3 chainName
             contract (Num fromBlock) (Num toBlock) s). }
  assert (Hs : pastLogQueries (trace (exec scan s))
               = pastLogQueries (trace s) ++ untilFailure web3 plan).
  { apply (fetchAndStoreContractEvents_abandons E web3 chainName
             contract (Num fromBlock) (Num toBlock) s). }
  refine (conj _ (conj _ (conj _ (conj _ (conj Hb (conj Hs (conj _ (conj _
            (conj _ (conj _ (conj _ _))))))))))).
  - intros k. rewrite windows_nth. unfold batchSize.
    replace (fromBlock + 1000 * Z.of_nat k + 1000 - 1)
      with (fromBlock + 1000 * Z.of_nat k + 999) by lia.
    reflexivity.
  - now apply windows_flatten.
  - intros b. now apply backfill_windows_partition.
  - now apply (backfill_windows_partition fromBlock toBlock 0).
  - destruct (fetchAndStoreContractEventsWithDeduplication_total E web3 chainName
                contract (Num fromBlock) (Num toBlock) s) as [[] H]. exact H.
  - assert (Ht : total scan).
    { apply total_tryCatch. intros e. apply total_logger. }
    destruct (Ht s) as [[] H]. exact H.
  - intros before q after Hplan Hbefore Hq.
    rewrite Hplan, untilFailure_app, Hbefore. cbn. now rewrite Hq.
  - intros Hans.
    rewrite Hb, Hs, (untilFailure_answered web3 plan (answers_answered web3 plan Hans)).
    split; reflexivity.
  - reflexivity.
  - reflexivity.
Qed.

Lemma backfill_window_coverage_witness :
  1000 <= 2500 /\
  pastLogQueries (trace (exec
    (StockManager.fetchAndStoreContractEventsWithDeduplication Demo.env Demo.node
       "bsc" Demo.vault (Num 1000) (Num 2500))
    (initial : State StockManager.StockManagerEvent)))
  = concat (map (windowQueries Demo.env Demo.vault) [(1000, 1999); (2000, 2500)]) /\
  pastLogQueries (trace (exec
    (StockManager.fetchAndStoreContractEventsWithDeduplication Demo.env Demo.down
       "ethereum" Demo.vault (Num 1000) (Num 2500))
    (initial : State StockManager.StockManagerEvent)))
  = [ {| f_address := "0xVaultAddress"; fromBlock := 1000; toBlock := 1999;
         f_topics := [Demo.depositedTopic] |} ].
Proof.
  assert (Hle : 1000 <= 2500) by lia.
  split; [exact Hle|]. split.
  - destruct (backfill_window_coverage Demo.env Demo.node "bsc" Demo.vault
                1000 2500 initial Hle) as (_ & _ & _ & _ & _ & _ & _ & _ & _ & Hall & _).
    destruct Hall as [Hq _]; [intros f; eexists; reflexivity|].
    exact Hq.
  - destruct (backfill_window_coverage Demo.env Demo.down "ethereum" Demo.vault
                1000 2500 initial Hle) as (_ & _ & _ & _ & Hq & _).
    rewrite Hq. vm_compute. reflexivity.
Defined.

Section ControllerAccepts.

Variable E : Env.

Import Web3Controller.

Lemma triggerBackfill_accepted bc n (s : State StockManager.StockManagerEvent) :
  Js.truthyString bc = true ->
  Js.parseInt bc = Num n ->
  1 <= n <= 50000 ->
  result (triggerBackfill E (Some bc)) s
  = inr {| success := true; r_message := "Backfill triggered successfully";
           r_blockCount := Some (Num n); r_error := None |}.
Proof.
  intros Ht Hp Hn. unfold triggerBackfill, result, tryCatch.
  rewrite (bind_ok _ _ s tt) by reflexivity.
  cbv beta zeta. simpl (Js.truthyOptString (Some bc)). simpl (default "" (Some bc)).
  rewrite Ht, Hp. cbn [Js.leb Js.gtb].
  assert (Hb : (n <=? 0) || (50000 <? n) = false).
  { apply orb_false_iff. rewrite Z.leb_gt, Z.ltb_ge. lia. }
  rewrite Hb.
  set (s1 := exec (logger LvlLog "Received request to trigger backfill") s).
  destruct (triggerManualBackfill_total E (Num n) s1) as [[] Hr].
  rewrite (bind_ok _ _ s1 tt Hr). reflexivity.
Qed.

End ControllerAccepts.

(** C4, as stated, fails: [triggerManualBackfill] checks no bounds.  Called
    with 0 it returns normally and queries the current block; called with
    50001 it returns normally and sweeps 50001 blocks back, in 51 windows
    of two queries each. *)
Lemma triggerManualBackfill_checks_no_bounds :
  result (StockManager.triggerManualBackfill Demo.env (Num 0)) Demo.running
  = inr tt /\
  pastLogQueries (trace (exec
    (StockManager.triggerManualBackfill Demo.env (Num 0)) Demo.running))
  = windowQueries Demo.env Demo.vault (82500, 82500) /\
  result (StockManager.triggerManualBackfill Demo.env (Num 50001)) Demo.running
  = inr tt /\
  length (pastLogQueries (trace (exec
    (StockManager.triggerManualBackfill Demo.env (Num 50001)) Demo.running)))
  = 102%nat.
Proof. repeat split; vm_compute; reflexivity. Qed.

(** C4 (amended): the bounds 1..50000 are those of the trigger-backfill
    endpoint of the controller, not of the service method.  The endpoint
    rejects the block counts 0 and 50001 (and every count outside
    1..50000) with a [BadRequestException] before the service is called:
    nothing but the two log lines of the controller happens, so no
    historical-log query is issued.  A count within bounds is handed to
    [triggerManualBackfill] and the request succeeds.
    [triggerManualBackfill] itself accepts every count and never throws;
    for a count [n] every connected network with current block [c] is
    swept from [max 0 (c - n)] to [c], so that
    [triggerManualBackfill(10000)] starts at [max 0 (c - 10000)].  The
    queries issued are those of the windows of that range for each
    contract in turn, each contract being given up at its first query that
    the endpoint rejects; when the endpoints answer every query they are
    all the queries of these windows. *)
Theorem manual_backfill_bounds (E : Env) (s : State StockManager.StockManagerEvent) :
  let answering :=
    forall config web3, config ∈ blockchainConfigs s ->
      web3Connections s !! cfg_name config = Some web3 -> answers web3 in
  (forall bc, bc = "0" \/ bc = "50001" ->
     result (Web3Controller.triggerBackfill E (Some bc)) s = inl rejection /\
     trace (exec (Web3Controller.triggerBackfill E (Some bc)) s)
     = trace s ++ rejectionLines /\
     pastLogQueries (trace (exec (Web3Controller.triggerBackfill E (Some bc)) s))
     = pastLogQueries (trace s)) /\
  (forall bc n,
     Js.truthyString bc = true -> Js.parseInt bc = Num n ->
     ~ (1 <= n <= 50000) ->
     result (Web3Controller.triggerBackfill E (Some bc)) s = inl rejection /\
     trace (exec (Web3Controller.triggerBackfill E (Some bc)) s)
     = trace s ++ rejectionLines) /\
  (forall bc n,
     Js.truthyString bc = true -> Js.parseInt bc = Num n ->
     1 <= n <= 50000 ->
     result (Web3Controller.triggerBackfill E (Some bc)) s
     = inr {| Web3Controller.success := true;
              Web3Controller.r_message := "Backfill triggered successfully";
              Web3Controller.r_blockCount := Some (Num n);
              Web3Controller.r_error := None |}) /\
  (answering ->
   forall bc n,
     Js.truthyString bc = true -> Js.parseInt bc = Num n ->
     1 <= n <= 50000 ->
     pastLogQueries (trace (exec (Web3Controller.triggerBackfill E (Some bc)) s))
     = pastLogQueries (trace s)
       ++ concat (map (backfillQueries E (web3Connections s) (Num n))
                    (blockchainConfigs s))) /\
  (forall bc n,
     Js.truthyString bc = true -> Js.parseInt bc = Num n ->
     1 <= n <= 50000 ->
     pastLogQueries (trace (exec (Web3Controller.triggerBackfill E (Some bc)) s))
     = pastLogQueries (trace s)
       ++ concat (map (backfillIssued E (web3Connections s) (Num n))
                    (blockchainConfigs s))) /\
  (forall blockCount,
     result (StockManager.triggerManualBackfill E blockCount) s = inr tt) /\
  (forall blockCount,
     pastLogQueries (trace (exec (StockManager.triggerManualBackfill E blockCount) s))
     = pastLogQueries (trace s)
       ++ concat (map (backfillIssued E (web3Connections s) blockCount)
                    (blockchainConfigs s))) /\
  (forall config web3 c n,
     web3Connections s !! cfg_name config = Some web3 ->
     getBlockNumber web3 = inr c ->
     backfillIssued E (web3Connections s) (Num n) config
     = concat (map (fun contract =>
                      untilFailure web3
                        (concat (map (windowQueries E contract)
                                   (windows (Z.max 0 (c - n)) c))))
                 (contracts config))) /\
  (answering ->
   forall blockCount config, config ∈ blockchainConfigs s ->
     backfillIssued E (web3Connections s) blockCount config
     = backfillQueries E (web3Connections s) blockCount config) /\
  (answering ->
   forall blockCount,
     pastLogQueries (trace (exec (StockManager.triggerManualBackfill E blockCount) s))
     = pastLogQueries (trace s)
       ++ concat (map (backfillQueries E (web3Connections s) blockCount)
                    (blockchainConfigs s))) /\
  Js.parseInt "10000" = Num 10000 /\
  (forall config web3 c n,
     web3Connections s !! cfg_name config = Some web3 ->
     getBlockNumber web3 = inr c ->
     backfillQueries E (web3Connections s) (Num n) config
     = concat (map (fun contract =>
                      concat (map (windowQueries E contract)
                                (windows (Z.max 0 (c - n)) c)))
                 (contracts config))) /\
  (forall config web3 c,
     web3Connections s !! cfg_name config = Some web3 ->
     getBlockNumber web3 = inr c ->
     backfillQueries E (web3Connections s) (Num 10000) config
     = concat (map (fun contract =>
                      concat (map (windowQueries E contract)
                                (windows (Z.max 0 (c - 10000)) c)))
                 (contracts config))).
Proof.
  intros answering.
  refine (conj _ (conj _ (conj _ (conj _ (conj _ (conj _ (conj _ (conj _ (conj _
            (conj _ (conj _ (conj _ _)))))))))))).
  - intros bc Hbc.
    assert (Hrej : exists n, Js.truthyString bc = true /\ Js.parseInt bc = Num n
                             /\ ~ (1 <= n <= 50000)).
    { destruct Hbc as [-> | ->]; [exists 0 | exists 50001];
        (split; [reflexivity | split; [reflexivity | lia]]). }
    destruct Hrej as (n & Ht & Hp & Hn).
    destruct (triggerBackfill_rejects E bc n s Ht Hp Hn) as [Hr Htr].
    split; [exact Hr | split; [exact Htr|]].
    rewrite Htr. unfold pastLogQueries. rewrite omap_app. apply app_nil_r.
  - intros bc n. apply triggerBackfill_rejects.
  - intros bc n. apply triggerBackfill_accepted.
  - intros Hans bc n Ht Hp Hn.
    apply (triggerBackfill_accepts E bc n s Hans Ht Hp Hn).
  - intros bc n. apply triggerBackfill_issued.
  - intros blockCount.
    destruct (triggerManualBackfill_total E blockCount s) as [[] Hr]. exact Hr.
  - intros blockCount. apply triggerManualBackfill_issued.
  - intros config web3 c n. apply backfillIssued_connected.
  - intros Hans blockCount config Hin. apply backfillIssued_answered.
    intros web3. now apply Hans.
  - intros Hans blockCount.
    apply (triggerManualBackfill_issuesAt E blockCount s Hans).
  - reflexivity.
  - intros config web3 c n. apply backfillQueries_connected.
  - intros config web3 c. apply backfillQueries_connected.
Qed.

Lemma manual_backfill_bounds_witness :
  (forall config web3, config ∈ blockchainConfigs Demo.running ->
     web3Connections Demo.running !! cfg_name config = Some web3 -> answers web3) /\
  pastLogQueries (trace (exec
    (Web3Controller.triggerBackfill Demo.env (Some "10000")) Demo.running))
  = concat (map (windowQueries Demo.env Demo.vault) (windows 72500 82500)) /\
  pastLogQueries (trace (exec
    (StockManager.triggerManualBackfill Demo.env (Num 10000)) Demo.running))
  = concat (map (windowQueries Demo.env Demo.vault) (windows 72500 82500)) /\
  result (Web3Controller.triggerBackfill Demo.env (Some "0")) Demo.running
  = inl rejection /\
  result (Web3Controller.triggerBackfill Demo.env (Some "50001")) Demo.running
  = inl rejection.
Proof.
  assert (Hans : forall config web3, config ∈ blockchainConfigs Demo.running ->
     web3Connections Demo.running !! cfg_name config = Some web3 -> answers web3).
  { intros config web3 _ Hw. simpl in Hw.
    apply lookup_singleton_Some in Hw as [_ <-].
    intros f. eexists. reflexivity. }
  split; [exact Hans|].
  destruct (manual_backfill_bounds Demo.env Demo.running)
    as (Hrej & _ & _ & Hacc & _ & _ & _ & _ & _ & Hsvc & _).
  split; [|split; [|split]].
  - rewrite (Hacc Hans "10000" 10000 eq_refl eq_refl ltac:(lia)).
    vm_compute. reflexivity.
  - rewrite (Hsvc Hans (Num 10000)). vm_compute. reflexivity.
  - apply (Hrej "0"). now left.
  - apply (Hrej "50001"). now right.
Defined.

Section Unsubscribed.

Variable E : Env.

Import StockManager.

Lemma connectToMultipleChains_notSubscribing configs :
  keeps (grows notSubscribing) (connectToMultipleChains E configs).
Proof.
  unfold connectToMultipleChains, connectToChain, startHourlyBackfill.
  keeps_auto.
Qed.

Lemma notSubscribing_no_subscribe {R} (e : Effect R) :
  notSubscribing e = true -> subscribeOf e = None.
Proof. destruct e; cbn; congruence. Qed.

End Unsubscribed.

(** C9: in the stock-manager service a network that connects is not
    subscribed when the connection pass completes.  The pass isolates the
    failures: it never throws and every network that can be reached is held
    in the connection map.
    But it opens no log subscription: [connectToChain] only registers a
    listener for the [connect] event of the provider, after [getChainId]
    has already answered on the open socket, so that during the pass no
    [subscribe] call is made and the subscription map stays as it was.
    With three networks of which the second cannot be reached, the first
    and the third are connected after the pass and neither has a
    subscription.  The events-schema service, whose [connectToChain] awaits
    [subscribeToEvents], registers both subscriptions in the same pass. *)
Theorem stock_manager_pass_opens_no_subscription (E : Env)
    (configs : list BlockchainConfig) (s : State StockManager.StockManagerEvent)
    (se : State Events.Event) :
  let pass := StockManager.connectToMultipleChains E configs in
  let three := [Demo.bsc; Demo.ethereum; Demo.base] in
  let after := exec (StockManager.connectToMultipleChains Demo.env three)
                 (initial : State StockManager.StockManagerEvent) in
  let sibling := exec (Events.connectToMultipleChains Demo.env three)
                   (initial : State Events.Event) in
  result pass s = inr tt /\
  web3Connections (exec pass s) = foldl (connectStep E) (web3Connections s) configs /\
  subscriptions (exec pass s) = subscriptions s /\
  subscribeCalls (trace (exec pass s)) = subscribeCalls (trace s) /\
  subscriptions (exec (Events.connectToMultipleChains E configs) se)
  = foldl (subscribeStep E) (subscriptions se) configs /\
  is_Some (web3Connections after !! "bsc") /\
  web3Connections after !! "ethereum" = None /\
  is_Some (web3Connections after !! "base") /\
  subscriptions after !! "bsc-logs" = None /\
  subscriptions after !! "base-logs" = None /\
  subscribeCalls (trace after) = [] /\
  connectListeners after = [("bsc", [Demo.vault]); ("base", [Demo.vault])] /\
  subscriptions sibling !! "bsc-logs" = Some {| sub_address := ["0xVaultAddress"] |} /\
  subscriptions sibling !! "base-logs" = Some {| sub_address := ["0xVaultAddress"] |} /\
  subscribeCalls (trace sibling) = [["0xVaultAddress"]; ["0xVaultAddress"]].
Proof.
  intros pass three after sibling.
  destruct (stockManager_connectToMultipleChains_spec E configs s)
    as (Hr & Hconn & Hsub & _).
  destruct (events_connectToMultipleChains_spec E configs se) as (_ & _ & Hsube).
  split; [exact Hr|]. split; [exact Hconn|]. split; [exact Hsub|]. split.
  { apply (grows_observe notSubscribing);
      [apply notSubscribing_no_subscribe
      | apply connectToMultipleChains_notSubscribing]. }
  split; [exact Hsube|].
  refine (conj _ (conj _ (conj _ (conj _ (conj _ (conj _ (conj _ (conj _
            (conj _ _))))))))).
  - vm_compute. eauto.
  - vm_compute. reflexivity.
  - vm_compute. eauto.
  - vm_compute. reflexivity.
  - vm_compute. reflexivity.
  - vm_compute. reflexivity.
  - vm_compute. reflexivity.
  - vm_compute. reflexivity.
  - vm_compute. reflexivity.
  - vm_compute. reflexivity.
Qed.

Lemma scans_answered web3 (plan : ContractConfig -> list LogFilter) contracts :
  answers web3 ->
  concat (map (fun contract => untilFailure web3 (plan contract)) contracts)
  = concat (map plan contracts).
Proof.
  intros Hans. induction contracts as [|contract contracts IH]; [reflexivity|].
  cbn. rewrite IH.
  now rewrite (untilFailure_answered web3 _ (answers_answered web3 _ Hans)).
Qed.

(** C10: [storePreviousEvents] with an explicit [fromBlock] of 0 behaves
    exactly as with [fromBlock] omitted, in both services: the default is
    applied to every falsy value, so that on a connected network with
    current block [c] the scan does not start at block 0.  Its queries are
    those of the windows of [[max 0 (c - 80000), c]] in the stock-manager
    service and of [[max 0 (c - 100000), c]] in the events-schema service,
    for each contract in turn, each contract being given up at its first
    query that the endpoint rejects; when the endpoint answers every query
    they are all the queries of these windows. *)
Theorem explicit_zero_fromBlock_is_defaulted (E : Env)
    (configs : list BlockchainConfig) (config : BlockchainConfig) (web3 : Web3)
    (c : Z) (s : State StockManager.StockManagerEvent) (se : State Events.Event) :
  web3Connections s !! cfg_name config = Some web3 ->
  web3Connections se !! cfg_name config = Some web3 ->
  getBlockNumber web3 = inr c ->
  let plan := fun (start : Z) (contract : ContractConfig) =>
                concat (map (windowQueries E contract) (windows start c)) in
  let issued := fun (start : Z) =>
                  concat (map (fun contract => untilFailure web3 (plan start contract))
                            (contracts config)) in
  let whole := fun (start : Z) => concat (map (plan start) (contracts config)) in
  StockManager.storePreviousEvents E configs (Some (Num 0))
    = StockManager.storePreviousEvents E configs None /\
  StockManager.storePreviousEventsForChain E config (Some (Num 0))
    = StockManager.storePreviousEventsForChain E config None /\
  Events.storePreviousEvents E configs (Some (Num 0))
    = Events.storePreviousEvents E configs None /\
  Events.storePreviousEventsForChain E config (Some (Num 0))
    = Events.storePreviousEventsForChain E config None /\
  StockManager.startBlockOf (Some (Num 0)) c = Num (Z.max 0 (c - 80000)) /\
  Events.startBlockOf (Some (Num 0)) c = Num (Z.max 0 (c - 100000)) /\
  pastLogQueries (trace (exec
    (StockManager.storePreviousEventsForChain E config (Some (Num 0))) s))
  = pastLogQueries (trace s) ++ issued (Z.max 0 (c - 80000)) /\
  pastLogQueries (trace (exec
    (Events.storePreviousEventsForChain E config (Some (Num 0))) se))
  = pastLogQueries (trace se) ++ issued (Z.max 0 (c - 100000)) /\
  pastLogQueries (trace (exec
    (StockManager.storePreviousEvents E [config] (Some (Num 0))) s))
  = pastLogQueries (trace s) ++ issued (Z.max 0 (c - 80000)) /\
  pastLogQueries (trace (exec
    (Events.storePreviousEvents E [config] (Some (Num 0))) se))
  = pastLogQueries (trace se) ++ issued (Z.max 0 (c - 100000)) /\
  (answers web3 ->
   issued (Z.max 0 (c - 80000)) = whole (Z.max 0 (c - 80000)) /\
   issued (Z.max 0 (c - 100000)) = whole (Z.max 0 (c - 100000)) /\
   pastLogQueries (trace (exec
     (StockManager.storePreviousEvents E [config] (Some (Num 0))) s))
   = pastLogQueries (trace s) ++ whole (Z.max 0 (c - 80000)) /\
   pastLogQueries (trace (exec
     (Events.storePreviousEvents E [config] (Some (Num 0))) se))
   = pastLogQueries (trace se) ++ whole (Z.max 0 (c - 100000))).
Proof.
  intros Hconn Hconne Hc plan issued whole.
  pose proof (storePreviousEventsForChain_scans E web3 config (Some (Num 0)) c s
                Hconn Hc) as H1.
  pose proof (events_storePreviousEventsForChain_scans E web3 config (Some (Num 0))
                c se Hconne Hc) as H2.
  pose proof (storePreviousEvents_scans E web3 config (Some (Num 0)) c s
                Hconn Hc) as H3.
  pose proof (events_storePreviousEvents_scans E web3 config (Some (Num 0)) c se
                Hconne Hc) as H4.
  refine (conj _ (conj _ (conj _ (conj _ (conj _ (conj _ (conj H1 (conj H2
            (conj H3 (conj H4 _)))))))))); try reflexivity.
  intros Hans.
  assert (Hw : forall start, issued start = whole start).
  { intros start. apply scans_answered, Hans. }
  split; [apply Hw|]. split; [apply Hw|].
  rewrite <- !Hw. split; [exact H3 | exact H4].
Qed.

Lemma explicit_zero_fromBlock_is_defaulted_witness :
  let s := exec (setConnection "polygon" Demo.archive)
             (initial : State StockManager.StockManagerEvent) in
  let se := exec (setConnection "polygon" Demo.archive)
              (initial : State Events.Event) in
  getBlockNumber Demo.archive = inr 182500 /\
  answers Demo.archive /\
  pastLogQueries (trace (exec
    (StockManager.storePreviousEvents Demo.env [Demo.polygon] (Some (Num 0))) s))
  = concat (map (windowQueries Demo.env Demo.vault) (windows 102500 182500)) /\
  pastLogQueries (trace (exec
    (Events.storePreviousEvents Demo.env [Demo.polygon] (Some (Num 0))) se))
  = concat (map (windowQueries Demo.env Demo.vault) (windows 82500 182500)).
Proof.
  intros s se.
  assert (Hans : answers Demo.archive) by (intros f; eexists; reflexivity).
  split; [reflexivity | split; [exact Hans|]].
  pose proof (explicit_zero_fromBlock_is_defaulted Demo.env [Demo.polygon]
                Demo.polygon Demo.archive 182500 s se
                (lookup_insert_eq _ _ _) (lookup_insert_eq _ _ _) eq_refl) as H.
  cbv zeta in H.
  destruct H as (_ & _ & _ & _ & _ & _ & _ & _ & _ & _ & Hall).
  destruct (Hall Hans) as (_ & _ & Hq & Hqe).
  split.
  - rewrite Hq. vm_compute. reflexivity.
  - rewrite Hqe. vm_compute. reflexivity.
Defined.
